(** * compute_sales.py: a shallow embedding and its properties

    The program joins a sales table against a price catalogue, both read
    from JSON files into pandas DataFrames, marks the rows it cannot price,
    and prints a report with the total cost.

    Layout of this development:
    - [Py]: the Python objects the program handles (int, float, str, None),
      exceptions and their classes, [*], [+], [isinstance], the [:.2f]
      format.  Floats are IEEE binary64, taken from [SpecFloat].
    - [Pd]: the fragment of pandas the program calls: typed columns, Series,
      DataFrame, [set_index], [to_dict], [map], [fillna], [apply(axis=1)],
      [assign], [isna], boolean selection, [dropna], [sum].
    - [ComputeSales]: the six functions of compute_sales.py, over a store of
      DataFrame objects so that in-place updates are visible to the caller.
    - the notions the properties are stated with, sample data, and the
      properties themselves, each preceded by the lemmas it needs.

    What the model of pandas covers:
    - cells are ints, floats, strings and None; a column is int64, float64
      or object, and the cells a row shows to the function given to [apply]
      depend on the dtypes of all columns, as in pandas;
    - pandas behaviour is the one of the 1.5 - 2.x series without
      copy-on-write, where [df[c].fillna(v, inplace=True)] updates [df];
    - the keys of a dict and the labels [map] looks up are compared as
      Python's [==] compares them: numbers by value, whatever their type
      ([1 == 1.0]), a string with itself only; NaN is matched with NaN, as
      pandas matches missing labels.  pandas compares an int64 label with a
      float64 cell as floats, which is the same comparison for numbers
      below 2^53;
    - row labels are compared by equality of objects;
    - the unsigned 64-bit dtype is left out: an int beyond the int64 range is
      kept as a Python object;
    - a float64 column is added as numpy adds a contiguous array, by
      pairwise summation; the sign of the zero the addition starts from,
      which numpy releases do not agree on, is a parameter of the run. *)

From Stdlib Require Import ZArith List String Ascii Bool Lia Permutation.
From Stdlib Require Import SpecFloat DecimalString.
Import ListNotations.
Open Scope Z_scope.
Open Scope string_scope.

(* ===================================================================== *)
(** * Python objects *)
(* ===================================================================== *)

Module Py.

(** Exception classes that occur in the program, with the part of the
    class hierarchy its [except] clauses depend on. *)
Inductive exn_class :=
| KeyError | TypeError | ValueError | JSONDecodeError | OverflowError
| OSError | FileNotFoundError | PermissionError | SystemExit.

Definition exn_class_eqb (a b : exn_class) : bool :=
  match a, b with
  | KeyError, KeyError | TypeError, TypeError | ValueError, ValueError
  | JSONDecodeError, JSONDecodeError | OverflowError, OverflowError
  | OSError, OSError | FileNotFoundError, FileNotFoundError
  | PermissionError, PermissionError | SystemExit, SystemExit => true
  | _, _ => false
  end.

(** [issubclass c base]: json.JSONDecodeError derives from ValueError,
    FileNotFoundError and PermissionError from OSError (alias IOError). *)
Definition issubclass (c base : exn_class) : bool :=
  exn_class_eqb c base ||
  match c, base with
  | JSONDecodeError, ValueError => true
  | FileNotFoundError, OSError => true
  | PermissionError, OSError => true
  | _, _ => false
  end.

Record exn := Exn { exn_cls : exn_class; exn_msg : string }.

Inductive result (A : Type) :=
| Ok (a : A)
| Raise (e : exn).
Arguments Ok {A} a.
Arguments Raise {A} e.

Definition bind {A B} (r : result A) (k : A -> result B) : result B :=
  match r with
  | Ok a => k a
  | Raise e => Raise e
  end.

Definition raise {A} (c : exn_class) (msg : string) : result A :=
  Raise (Exn c msg).

(** The class of the exception a computation ends with, if any. *)
Definition raised {A} (r : result A) : option exn_class :=
  match r with
  | Ok _ => None
  | Raise e => Some (exn_cls e)
  end.

Fixpoint mapM {A B} (f : A -> result B) (l : list A) : result (list B) :=
  match l with
  | [] => Ok []
  | a :: l' =>
      match f a with
      | Raise e => Raise e
      | Ok b =>
          match mapM f l' with
          | Raise e => Raise e
          | Ok bs => Ok (b :: bs)
          end
      end
  end.

(** ** Floats: IEEE 754 binary64 *)

Definition float := spec_float.
Definition prec : Z := 53.
Definition emax : Z := 1024.

Definition fmul : float -> float -> float := SFmul prec emax.
Definition fadd : float -> float -> float := SFadd prec emax.
Definition fsub : float -> float -> float := SFsub prec emax.
Definition fzero : float := S754_zero false.
Definition fnan : float := S754_nan.

Definition float_is_nan (f : float) : bool :=
  match f with S754_nan => true | _ => false end.

Definition float_is_zero (f : float) : bool :=
  match f with S754_zero _ => true | _ => false end.

Definition float_is_finite (f : float) : bool :=
  match f with S754_zero _ | S754_finite _ _ _ => true | _ => false end.

(** Nearest binary64 to an integer, ties to even; an infinity when the
    integer is beyond the largest float. *)
Definition round_int (z : Z) : float := binary_normalize prec emax z 0 false.

(** [float(z)] for a Python int: OverflowError beyond the float range. *)
Definition float_of_int (z : Z) : result float :=
  match round_int z with
  | S754_infinity _ => raise OverflowError "int too large to convert to float"
  | f => Ok f
  end.

(** ** Objects *)

Inductive value :=
| VInt (z : Z)
| VFloat (f : float)
| VStr (s : string)
| VNone.

Definition float_eq_dec (a b : float) : {a = b} + {a <> b}.
Proof. repeat decide equality. Defined.

Definition value_eq_dec (a b : value) : {a = b} + {a <> b}.
Proof.
  decide equality;
    [apply Z.eq_dec | apply float_eq_dec | apply string_dec].
Defined.

Definition value_eqb (a b : value) : bool :=
  if value_eq_dec a b then true else false.

(** The value of a number in units of 2^-1074, the smallest positive
    binary64: an integer for every int and for every finite float. *)
Definition exact_number (v : value) : option Z :=
  match v with
  | VInt z => Some (Z.shiftl z 1074)
  | VFloat (S754_zero _) => Some 0
  | VFloat (S754_finite s m e) =>
      Some (Z.shiftl (if s then Z.neg m else Z.pos m) (e + 1074))
  | _ => None
  end.

(** [a == b] as the keys of a dict are matched: two numbers are equal when
    their values are, whatever their types and the sign of a zero; anything
    else equals only itself (NaN is found by NaN: the same object in a dict,
    a missing label in pandas). *)
Definition py_eqb (a b : value) : bool :=
  match exact_number a, exact_number b with
  | Some x, Some y => (x =? y)%Z
  | None, None => value_eqb a b
  | _, _ => false
  end.

(** [isinstance(v, (int, float))] *)
Definition isinstance_int_float (v : value) : bool :=
  match v with
  | VInt _ | VFloat _ => true
  | _ => false
  end.

Definition type_name (v : value) : string :=
  match v with
  | VInt _ => "int"
  | VFloat _ => "float"
  | VStr _ => "str"
  | VNone => "NoneType"
  end.

Fixpoint str_repeat (s : string) (n : nat) : string :=
  match n with
  | O => ""
  | S n' => s ++ str_repeat s n'
  end.

Definition unsupported {A} (op : string) (a b : value) : result A :=
  raise TypeError
    ("unsupported operand type(s) for " ++ op ++ ": '" ++ type_name a
       ++ "' and '" ++ type_name b ++ "'").

Definition not_a_count {A} (b : value) : result A :=
  raise TypeError
    ("can't multiply sequence by non-int of type '" ++ type_name b ++ "'").

(** [a * b].  A string times an int repeats the string (no repetition
    for a count below one); a string times anything else is a TypeError. *)
Definition py_mul (a b : value) : result value :=
  match a, b with
  | VInt x, VInt y => Ok (VInt (x * y))
  | VInt x, VFloat g => bind (float_of_int x) (fun f => Ok (VFloat (fmul f g)))
  | VFloat f, VInt y => bind (float_of_int y) (fun g => Ok (VFloat (fmul f g)))
  | VFloat f, VFloat g => Ok (VFloat (fmul f g))
  | VStr s, VInt n => Ok (VStr (str_repeat s (Z.to_nat n)))
  | VInt n, VStr s => Ok (VStr (str_repeat s (Z.to_nat n)))
  | VStr _, _ => not_a_count b
  | _, VStr _ => not_a_count a
  | _, _ => unsupported "*" a b
  end.

(** [a + b] *)
Definition py_add (a b : value) : result value :=
  match a, b with
  | VInt x, VInt y => Ok (VInt (x + y))
  | VInt x, VFloat g => bind (float_of_int x) (fun f => Ok (VFloat (fadd f g)))
  | VFloat f, VInt y => bind (float_of_int y) (fun g => Ok (VFloat (fadd f g)))
  | VFloat f, VFloat g => Ok (VFloat (fadd f g))
  | VStr s, VStr t => Ok (VStr (s ++ t))
  | VStr _, _ => raise TypeError "can only concatenate str to str"
  | _, _ => unsupported "+" a b
  end.

(** ** The format specification [.2f] *)

Definition dec_of_N (n : N) : string := NilZero.string_of_uint (N.to_uint n).

Definition two_digits (n : N) : string :=
  if (n <? 10)%N then "0" ++ dec_of_N n else dec_of_N n.

(** The integer nearest to [m * 2^e * 100], ties to even. *)
Definition scaled_hundredths (m : positive) (e : Z) : N :=
  match e with
  | Zneg p =>
      let num := (Npos m * 100)%N in
      let den := (2 ^ Npos p)%N in
      let q := (num / den)%N in
      let r := (num mod den)%N in
      match (2 * r ?= den)%N with
      | Lt => q
      | Gt => (q + 1)%N
      | Eq => if N.even q then q else (q + 1)%N
      end
  | _ => (Npos m * 2 ^ Z.to_N e * 100)%N
  end.

Definition fixed2 (sign : bool) (hundredths : N) : string :=
  (if sign then "-" else "") ++ dec_of_N (hundredths / 100) ++ "."
    ++ two_digits (hundredths mod 100).

(** [format(f, '.2f')] for a float *)
Definition format_float_2f (f : float) : string :=
  match f with
  | S754_nan => "nan"
  | S754_infinity s => if s then "-inf" else "inf"
  | S754_zero s => fixed2 s 0
  | S754_finite s m e => fixed2 s (scaled_hundredths m e)
  end.

(** [format(v, '.2f')]: an int is converted to float first; str and None
    do not accept the code [f]. *)
Definition format_2f (v : value) : result string :=
  match v with
  | VInt z => bind (float_of_int z) (fun f => Ok (format_float_2f f))
  | VFloat f => Ok (format_float_2f f)
  | VStr _ => raise ValueError "Unknown format code 'f' for object of type 'str'"
  | VNone => raise TypeError "unsupported format string passed to NoneType.__format__"
  end.

End Py.

(* ===================================================================== *)
(** * The pandas fragment *)
(* ===================================================================== *)

Module Pd.
Import Py.

(** ** Typed columns *)

Definition in_int64 (z : Z) : bool := ((- 2 ^ 63 <=? z) && (z <? 2 ^ 63))%Z.

(** Two's complement wrap-around of numpy's int64 arithmetic. *)
Definition wrap_int64 (z : Z) : Z := (z + 2 ^ 63) mod 2 ^ 64 - 2 ^ 63.

Inductive dtype := Int64 | Float64 | Object.

Inductive column :=
| ColInt64 (l : list Z)
| ColFloat64 (l : list float)
| ColObject (l : list value).

Definition col_dtype (c : column) : dtype :=
  match c with
  | ColInt64 _ => Int64
  | ColFloat64 _ => Float64
  | ColObject _ => Object
  end.

Definition col_length (c : column) : nat :=
  match c with
  | ColInt64 l => List.length l
  | ColFloat64 l => List.length l
  | ColObject l => List.length l
  end.

(** The cells as Python objects ([astype(object)], [tolist()]): an int64
    becomes an int, a float64 a float. *)
Definition col_objects (c : column) : list value :=
  match c with
  | ColInt64 l => map VInt l
  | ColFloat64 l => map VFloat l
  | ColObject l => l
  end.

(** Keep the positions where the mask is True. *)
Fixpoint mask_filter {A} (mask : list bool) (l : list A) : list A :=
  match mask, l with
  | b :: mask', a :: l' =>
      if b then a :: mask_filter mask' l' else mask_filter mask' l'
  | _, _ => []
  end.

Definition col_filter (mask : list bool) (c : column) : column :=
  match c with
  | ColInt64 l => ColInt64 (mask_filter mask l)
  | ColFloat64 l => ColFloat64 (mask_filter mask l)
  | ColObject l => ColObject (mask_filter mask l)
  end.

Definition col_head (n : nat) (c : column) : column :=
  match c with
  | ColInt64 l => ColInt64 (firstn n l)
  | ColFloat64 l => ColFloat64 (firstn n l)
  | ColObject l => ColObject (firstn n l)
  end.

(** [pd.isna] on an object: None and NaN are missing. *)
Definition isna (v : value) : bool :=
  match v with
  | VNone => true
  | VFloat f => float_is_nan f
  | _ => false
  end.

Definition col_isna (c : column) : list bool := map isna (col_objects c).

(** ** Building a column from Python objects

    The Series constructor infers the dtype: ints that fit 64 bits give
    int64; numbers with a float or a None among them give float64 (ints
    rounded to floats, None turned into NaN); anything else, and the empty
    and the all-None list, stay object.  Ints outside the int64 range are
    kept as Python objects. *)

Definition is_int64_obj (v : value) : bool :=
  match v with VInt z => in_int64 z | _ => false end.

Definition is_float64_able (v : value) : bool :=
  match v with
  | VInt z => in_int64 z
  | VFloat _ | VNone => true
  | VStr _ => false
  end.

Definition is_number (v : value) : bool :=
  match v with VInt _ | VFloat _ => true | _ => false end.

Definition int_of_obj (v : value) : Z :=
  match v with VInt z => z | _ => 0 end.

Definition to_float64 (v : value) : float :=
  match v with
  | VInt z => round_int z
  | VFloat f => f
  | _ => fnan
  end.

Definition infer_column (vs : list value) : column :=
  match vs with
  | [] => ColObject []
  | _ =>
      if forallb is_int64_obj vs then ColInt64 (map int_of_obj vs)
      else if forallb is_float64_able vs && existsb is_number vs
           then ColFloat64 (map to_float64 vs)
           else ColObject vs
  end.

(** ** Series and DataFrame *)

Record Series := mkSeries { s_index : list value; s_values : column }.

Record DataFrame := mkDF {
  df_index : list value;
  df_data : list (string * column)
}.

(** [pd.DataFrame()] *)
Definition empty_frame : DataFrame := mkDF [] [].

Definition df_columns (df : DataFrame) : list string := map fst (df_data df).
Definition df_nrows (df : DataFrame) : nat := List.length (df_index df).

(** Every column is as long as the index. *)
Definition df_wf (df : DataFrame) : Prop :=
  Forall (fun nc => col_length (snd nc) = df_nrows df) (df_data df).

Fixpoint find_column (key : string) (data : list (string * column))
  : option column :=
  match data with
  | [] => None
  | (n, c) :: rest => if String.eqb n key then Some c else find_column key rest
  end.

Definition py_repr_str (s : string) : string := "'" ++ s ++ "'".

(** [df[key]] *)
Definition df_getitem (df : DataFrame) (key : string) : result Series :=
  match find_column key (df_data df) with
  | Some c => Ok (mkSeries (df_index df) c)
  | None => raise KeyError (py_repr_str key)
  end.

Fixpoint set_column (key : string) (c : column) (data : list (string * column))
  : list (string * column) :=
  match data with
  | [] => [(key, c)]
  | (n, c0) :: rest =>
      if String.eqb n key then (n, c) :: rest
      else (n, c0) :: set_column key c rest
  end.

(** [df[key] = values]: an existing column is replaced where it stands, a
    new one is appended. *)
Definition df_setitem (df : DataFrame) (key : string) (c : column) : DataFrame :=
  mkDF (df_index df) (set_column key c (df_data df)).

(** [df.set_index(key)]: the column becomes the index and leaves the data. *)
Definition set_index (df : DataFrame) (key : string) : result DataFrame :=
  match find_column key (df_data df) with
  | Some c =>
      Ok (mkDF (col_objects c)
               (filter (fun nc => negb (String.eqb (fst nc) key)) (df_data df)))
  | None =>
      raise KeyError ("None of ['" ++ key ++ "'] are in the columns")
  end.

Definition df_select (mask : list bool) (df : DataFrame) : DataFrame :=
  mkDF (mask_filter mask (df_index df))
       (map (fun nc => (fst nc, col_filter mask (snd nc))) (df_data df)).

(** [df.head(n)] *)
Definition df_head (n : nat) (df : DataFrame) : DataFrame :=
  mkDF (firstn n (df_index df))
       (map (fun nc => (fst nc, col_head n (snd nc))) (df_data df)).

(** [df.empty] *)
Definition df_is_empty (df : DataFrame) : bool :=
  (df_nrows df =? 0)%nat || (List.length (df_data df) =? 0)%nat.

(** ** dict *)

Definition py_dict := list (value * value).

Fixpoint dict_get (d : py_dict) (k : value) : option value :=
  match d with
  | [] => None
  | (k0, v0) :: rest => if py_eqb k0 k then Some v0 else dict_get rest k
  end.

(** [d[k] = v]: a key already present (one that equals [k]) stays as it
    is, in its place, and gets the new value. *)
Fixpoint dict_set (d : py_dict) (k v : value) : py_dict :=
  match d with
  | [] => [(k, v)]
  | (k0, v0) :: rest =>
      if py_eqb k0 k then (k0, v) :: rest else (k0, v0) :: dict_set rest k v
  end.

Definition dict_of_items (items : list (value * value)) : py_dict :=
  fold_left (fun d kv => dict_set d (fst kv) (snd kv)) items [].

(** [s.to_dict()]: the (label, value) pairs in order, values as Python
    objects. *)
Definition to_dict (s : Series) : py_dict :=
  dict_of_items (combine (s_index s) (col_objects (s_values s))).

(** ** [Series.map] with a dict

    pandas turns the dict into a Series (an empty dict into an empty
    float64 one), looks every cell up among its labels and takes the
    values found; a cell that is no label gets NaN, which turns an int64
    result into float64. *)

Definition dict_as_column (d : py_dict) : column :=
  match d with
  | [] => ColFloat64 []
  | _ => infer_column (map snd d)
  end.

(** Where a row label stands in an index. *)
Fixpoint key_position (keys : list value) (k : value) : option nat :=
  match keys with
  | [] => None
  | k0 :: rest =>
      if value_eqb k0 k then Some O
      else match key_position rest k with
           | Some i => Some (S i)
           | None => None
           end
  end.

(** Where a cell stands among the keys of the dict. *)
Fixpoint dict_position (d : py_dict) (k : value) : option nat :=
  match d with
  | [] => None
  | (k0, _) :: rest =>
      if py_eqb k0 k then Some O
      else match dict_position rest k with
           | Some i => Some (S i)
           | None => None
           end
  end.

Definition is_some {A} (o : option A) : bool :=
  match o with Some _ => true | None => false end.

Definition take (c : column) (indexer : list (option nat)) : column :=
  match c with
  | ColInt64 l =>
      if forallb is_some indexer
      then ColInt64 (map (fun o => match o with
                                   | Some i => nth i l 0
                                   | None => 0
                                   end) indexer)
      else ColFloat64 (map (fun o => match o with
                                     | Some i => round_int (nth i l 0)
                                     | None => fnan
                                     end) indexer)
  | ColFloat64 l =>
      ColFloat64 (map (fun o => match o with
                                | Some i => nth i l fnan
                                | None => fnan
                                end) indexer)
  | ColObject l =>
      ColObject (map (fun o => match o with
                               | Some i => nth i l VNone
                               | None => VFloat fnan
                               end) indexer)
  end.

Definition series_map (s : Series) (d : py_dict) : Series :=
  mkSeries (s_index s)
           (take (dict_as_column d)
                 (map (dict_position d) (col_objects (s_values s)))).

(** ** [fillna] with an object that is no number

    Nothing happens to a column without missing cells; a float64 column
    with one becomes an object column. *)
Definition fillna (fill : value) (c : column) : column :=
  match c with
  | ColInt64 _ => c
  | ColFloat64 l =>
      if existsb float_is_nan l
      then ColObject (map (fun f => if float_is_nan f then fill else VFloat f) l)
      else c
  | ColObject l => ColObject (map (fun v => if isna v then fill else v) l)
  end.

(** ** Rows as [apply(axis=1)] sees them

    The rows are cut from [df.values], one array of the columns' common
    dtype.  When every column is int64 the cells are numpy.int64 scalars,
    which are instances of neither [int] nor [float]; when every column is
    numeric and one is float64 they are numpy.float64 scalars, which are
    floats; with an object column among them they are the Python objects. *)

Definition frame_dtype (df : DataFrame) : dtype :=
  if existsb (fun nc => match col_dtype (snd nc) with Object => true | _ => false end)
             (df_data df)
  then Object
  else if existsb (fun nc => match col_dtype (snd nc) with Float64 => true | _ => false end)
                  (df_data df)
       then Float64
       else Int64.

Inductive Row :=
| RowInt64 (cells : list (string * Z))
| RowObject (cells : list (string * value)).

Definition cell_at (c : column) (i : nat) : value := nth i (col_objects c) VNone.

Definition row_at (df : DataFrame) (i : nat) : Row :=
  match frame_dtype df with
  | Int64 =>
      RowInt64 (map (fun nc => (fst nc, int_of_obj (cell_at (snd nc) i))) (df_data df))
  | Float64 =>
      RowObject (map (fun nc => (fst nc, VFloat (to_float64 (cell_at (snd nc) i))))
                     (df_data df))
  | Object =>
      RowObject (map (fun nc => (fst nc, cell_at (snd nc) i)) (df_data df))
  end.

Definition frame_rows (df : DataFrame) : list Row :=
  map (row_at df) (seq 0 (df_nrows df)).

Fixpoint lookup {A} (key : string) (cells : list (string * A)) : result A :=
  match cells with
  | [] => raise KeyError (py_repr_str key)
  | (n, a) :: rest => if String.eqb n key then Ok a else lookup key rest
  end.

(** What [apply] hands back: a Series of the per-row results, or, on a
    frame without rows when the function fails on a probe row, a copy of
    the frame. *)
Inductive applied :=
| AppliedSeries (s : Series)
| AppliedFrame (df : DataFrame).

(** [df.apply(f, axis=1)].  With rows, [f] runs on each in order and the
    first exception propagates.  Without rows, pandas calls [f] once on a
    row of NaN to see whether it reduces, swallowing any exception. *)
Definition df_apply_rows (f : Row -> result value) (df : DataFrame)
  : result applied :=
  if df_is_empty df then
    match f (RowObject (map (fun n => (n, VFloat fnan)) (df_columns df))) with
    | Raise _ => Ok (AppliedFrame df)
    | Ok _ => Ok (AppliedSeries (mkSeries (df_index df) (ColFloat64 [])))
    end
  else
    bind (mapM f (frame_rows df))
         (fun results => Ok (AppliedSeries (mkSeries (df_index df) (infer_column results)))).

(** [df.assign(key=value)]: a copy of the frame with the column set.  A
    frame is accepted as value only if it has exactly one column. *)
Definition df_assign (df : DataFrame) (key : string) (v : applied)
  : result DataFrame :=
  match v with
  | AppliedSeries s => Ok (df_setitem df key (s_values s))
  | AppliedFrame f =>
      match df_data f with
      | [(_, c)] => Ok (df_setitem df key c)
      | [] => raise ValueError
                ("Cannot set a DataFrame without columns to the column " ++ key)
      | _ => raise ValueError
               ("Cannot set a DataFrame with multiple columns to the single column "
                  ++ key)
      end
  end.

(** ** Adding a float64 column

    numpy adds the cells of a contiguous array by pairwise summation: fewer
    than eight cells from left to right; up to 128 cells in eight
    interleaved partial sums, which are then added in pairs, the cells that
    are left over being added one by one; more cells in two parts, the first
    of them half the cells rounded down to a multiple of eight.  The result
    is added to the zero the reduction starts from.  That zero, and the one
    the addition of fewer than eight cells starts from, is 0.0 or -0.0,
    depending on the release of numpy; the sum of no cell is 0.0. *)

Definition lane_add (r cells : list float) : list float :=
  map (fun p => fadd (fst p) (snd p)) (combine r cells).

Fixpoint add_blocks (blocks : nat) (r rest : list float)
  : list float * list float :=
  match blocks with
  | O => (r, rest)
  | S blocks' => add_blocks blocks' (lane_add r (firstn 8 rest)) (skipn 8 rest)
  end.

Definition add_lanes (r : list float) : float :=
  match r with
  | [r0; r1; r2; r3; r4; r5; r6; r7] =>
      fadd (fadd (fadd r0 r1) (fadd r2 r3)) (fadd (fadd r4 r5) (fadd r6 r7))
  | _ => fold_left fadd r fzero
  end.

(** The sum of 8 to 128 cells. *)
Definition block_sum (a : list float) : float :=
  let (r, rest) := add_blocks (List.length a / 8 - 1) (firstn 8 a) (skipn 8 a) in
  fold_left fadd rest (add_lanes r).

(** [fuel] bounds the depth of the halving; the number of cells is
    enough. *)
Fixpoint pairwise_sum (fuel : nat) (zero : float) (a : list float) : float :=
  let n := List.length a in
  if (n <? 8)%nat then fold_left fadd a zero
  else if (n <=? 128)%nat then block_sum a
  else match fuel with
       | O => block_sum a
       | S fuel' =>
           let n2 := (n / 2 - (n / 2) mod 8)%nat in
           fadd (pairwise_sum fuel' zero (firstn n2 a))
                (pairwise_sum fuel' zero (skipn n2 a))
       end.

Definition numpy_sum (negative_zero : bool) (a : list float) : float :=
  match a with
  | [] => fzero
  | _ =>
      let zero := S754_zero negative_zero in
      fadd zero (pairwise_sum (List.length a) zero a)
  end.

(** ** [Series.sum]

    Missing cells count as zero.  An int64 column is added in 64-bit
    arithmetic, a float64 column as numpy adds it, an object column with
    Python's [+] from left to right (0 when empty). *)
Definition object_sum (l : list value) : result value :=
  match map (fun v => if isna v then VInt 0 else v) l with
  | [] => Ok (VInt 0)
  | v :: rest => fold_left (fun acc x => bind acc (fun a => py_add a x)) rest (Ok v)
  end.

Definition series_sum (negative_zero : bool) (c : column) : result value :=
  match c with
  | ColInt64 l => Ok (VInt (wrap_int64 (fold_left Z.add l 0)))
  | ColFloat64 l =>
      Ok (VFloat (numpy_sum negative_zero
                    (map (fun f => if float_is_nan f then fzero else f) l)))
  | ColObject l => object_sum l
  end.

End Pd.

(* ===================================================================== *)
(** * compute_sales.py *)
(* ===================================================================== *)

Module ComputeSales.
Import Py Pd.

(** ** The store of DataFrame objects, the console and the files *)

(** A DataFrame variable holds a reference to an object of the store. *)
Definition ref := nat.

Inductive output :=
| OutText (s : string)
| OutFrame (s : string) (df : DataFrame).

Record World := mkWorld {
  store : list DataFrame;
  stdout : list output;
  files : list (string * string)
}.

(** What a run depends on from outside: what [pd.read_json] makes of a path,
    whether a file can be opened for writing, the command line, the two
    readings of the clock, and whether numpy starts a float sum at -0.0. *)
Record Env := mkEnv {
  read_json : string -> result DataFrame;
  open_for_writing : string -> result unit;
  argv : list string;
  time_start : float;
  time_end : float;
  negative_zero : bool
}.

(** Computations that may raise and that act on the world; an exception
    leaves the changes made so far in place. *)
Definition M (A : Type) := World -> result A * World.

Definition ret {A} (a : A) : M A := fun w => (Ok a, w).

Definition bindM {A B} (m : M A) (k : A -> M B) : M B :=
  fun w =>
    match m w with
    | (Ok a, w') => k a w'
    | (Raise e, w') => (Raise e, w')
    end.

Definition lift {A} (r : result A) : M A := fun w => (r, w).

Notation "x <- m ;; k" := (bindM m (fun x => k))
  (at level 100, m at next level, right associativity).
Notation "m ;;; k" := (bindM m (fun _ => k))
  (at level 100, right associativity).

Definition alloc (df : DataFrame) : M ref :=
  fun w => (Ok (List.length (store w)),
            mkWorld (store w ++ [df]) (stdout w) (files w)).

Definition deref (r : ref) : M DataFrame :=
  fun w => (Ok (nth r (store w) empty_frame), w).

Fixpoint list_update {A} (l : list A) (i : nat) (a : A) : list A :=
  match l, i with
  | [], _ => []
  | _ :: l', O => a :: l'
  | x :: l', S i' => x :: list_update l' i' a
  end.

Definition assign_ref (r : ref) (df : DataFrame) : M unit :=
  fun w => (Ok tt, mkWorld (list_update (store w) r df) (stdout w) (files w)).

Definition print (o : output) : M unit :=
  fun w => (Ok tt, mkWorld (store w) (stdout w ++ [o]) (files w)).

Definition write_file (path content : string) : M unit :=
  fun w => (Ok tt, mkWorld (store w) (stdout w) (files w ++ [(path, content)])).

(** ** load_json_to_dataframe (lines 19-30) *)

Definition load_json_to_dataframe (env : Env) (file_path : string) : M ref :=
  match read_json env file_path with
  | Ok df => alloc df
  | Raise error =>
      if issubclass (exn_cls error) FileNotFoundError
         || issubclass (exn_cls error) ValueError
         || issubclass (exn_cls error) JSONDecodeError
      then
        print (OutText ("Error al cargar el archivo " ++ file_path ++ ": "
                          ++ exn_msg error)) ;;;
        alloc empty_frame
      else lift (Raise error)
  end.

(** ** map_product_prices (lines 33-40) *)

Definition map_product_prices (df_products : ref) : M py_dict :=
  df <- deref df_products ;;
  lift (bind (set_index df "title") (fun indexed =>
        bind (df_getitem indexed "price") (fun price =>
        Ok (to_dict price)))).

(** ** process_sales_data (lines 43-66) *)

Definition not_found : value := VStr "Producto no encontrado".

(** The function given to [apply] (lines 56-58). *)
Definition total_cost (row : Row) : result value :=
  match row with
  | RowInt64 cells =>
      bind (lookup "Unit_Price" cells) (fun _ => Ok VNone)
  | RowObject cells =>
      bind (lookup "Unit_Price" cells) (fun unit_price =>
      if isinstance_int_float unit_price
      then bind (lookup "Quantity" cells) (fun quantity =>
           py_mul quantity unit_price)
      else Ok VNone)
  end.

Definition process_sales_data (df_sales : ref) (product_prices : py_dict)
  : M (ref * ref) :=
  (* line 51 *)
  df <- deref df_sales ;;
  product <- lift (df_getitem df "Product") ;;
  assign_ref df_sales
    (df_setitem df "Unit_Price" (s_values (series_map product product_prices))) ;;;
  (* line 52 *)
  df <- deref df_sales ;;
  unit_price <- lift (df_getitem df "Unit_Price") ;;
  assign_ref df_sales
    (df_setitem df "Unit_Price" (fillna not_found (s_values unit_price))) ;;;
  (* lines 54-61: the name df_sales now denotes a new object *)
  df <- deref df_sales ;;
  total <- lift (df_apply_rows total_cost df) ;;
  assigned <- lift (df_assign df "Total_Cost" total) ;;
  df_sales' <- alloc assigned ;;
  (* line 63 *)
  df <- deref df_sales' ;;
  cost <- lift (df_getitem df "Total_Cost") ;;
  errors <- alloc (df_select (col_isna (s_values cost)) df) ;;
  (* line 64 *)
  df <- deref df_sales' ;;
  cost <- lift (df_getitem df "Total_Cost") ;;
  assign_ref df_sales' (df_select (map negb (col_isna (s_values cost))) df) ;;;
  ret (df_sales', errors).

(** ** generate_sales_report (lines 69-84) *)

Definition nl : string := String (ascii_of_nat 10) "".
Definition indent : string := "                ".

Definition report_text (total elapsed : string) : string :=
  nl ++ indent ++ "Resultados de Ventas:" ++
  nl ++ indent ++ "---------------------" ++
  nl ++ indent ++ "Total de Costos de Ventas: $" ++ total ++
  nl ++ indent ++ "Tiempo de ejecución: " ++ elapsed ++ " segundos" ++
  nl ++ indent.

Definition generate_sales_report (env : Env) (df_sales : ref)
           (elapsed_time : value) : M string :=
  df <- deref df_sales ;;
  cost <- lift (df_getitem df "Total_Cost") ;;
  total_sales_cost <- lift (series_sum (negative_zero env) (s_values cost)) ;;
  total <- lift (format_2f total_sales_cost) ;;
  elapsed <- lift (format_2f elapsed_time) ;;
  ret (report_text total elapsed).

(** ** save_report_to_file (lines 87-98) *)

Definition save_report_to_file (env : Env) (report file_path : string) : M unit :=
  match open_for_writing env file_path with
  | Ok _ => write_file file_path report
  | Raise error =>
      if issubclass (exn_cls error) FileNotFoundError
         || issubclass (exn_cls error) OSError
      then print (OutText ("Error al guardar el archivo " ++ file_path ++ ": "
                             ++ exn_msg error))
      else lift (Raise error)
  end.

(** ** main (lines 101-135) *)

Definition main (env : Env) : M string :=
  let start_time := time_start env in
  if negb (List.length (argv env) =? 3)%nat then
    print (OutText (nl ++ "Argumentos faltantes o inválidos")) ;;;
    lift (raise SystemExit "1")
  else
    let product_list_path := nth 1 (argv env) "" in
    let sales_record_path := nth 2 (argv env) "" in
    df_products <- load_json_to_dataframe env product_list_path ;;
    df_sales <- load_json_to_dataframe env sales_record_path ;;
    product_prices <- map_product_prices df_products ;;
    processed <- process_sales_data df_sales product_prices ;;
    let df_sales := fst processed in
    let errors := snd processed in
    let elapsed_time := fsub (time_end env) start_time in
    report <- generate_sales_report env df_sales (VFloat elapsed_time) ;;
    let output_file_path := "SalesResults.txt" in
    save_report_to_file env report output_file_path ;;;
    print (OutText report) ;;;
    sales <- deref df_sales ;;
    print (OutFrame nl (df_head 10 sales)) ;;;
    errs <- deref errors ;;
    (if negb (df_is_empty errs)
     then print (OutFrame (nl ++ "Errores detectados:" ++ nl) (df_head 5 errs))
     else ret tt) ;;;
    ret output_file_path.

Definition initial_world : World := mkWorld [] [] [].

End ComputeSales.

(* ===================================================================== *)
(** * Notions used to state the properties *)
(* ===================================================================== *)

Import Py Pd ComputeSales.
Open Scope list_scope.
Open Scope Z_scope.

(** The Unit_Price column that lines 51-52 compute from the Product column. *)
Definition unit_price_column (product : column) (prices : py_dict) : column :=
  fillna not_found
    (take (dict_as_column prices)
          (map (dict_position prices) (col_objects product))).

(** The caller's frame after lines 51-52. *)
Definition priced (df : DataFrame) (product : column) (prices : py_dict) : DataFrame :=
  df_setitem df "Unit_Price" (unit_price_column product prices).

(** The mask of line 63 on a frame that has its Total_Cost. *)
Definition cost_isna (df : DataFrame) : list bool :=
  match find_column "Total_Cost" (df_data df) with
  | Some c => col_isna c
  | None => []
  end.

(** The object a reference denotes in a world. *)
Definition frame_of (w : World) (r : ref) : DataFrame := nth r (store w) empty_frame.

(** The label of the row at a position, and the rows of a frame by label. *)
Definition row_label (df : DataFrame) (i : nat) : value := nth i (df_index df) VNone.

Definition has_row (df : DataFrame) (label : value) : Prop := In label (df_index df).

(** [df.loc[label, name]] *)
Definition df_cell (df : DataFrame) (name : string) (label : value) : option value :=
  match key_position (df_index df) label, find_column name (df_data df) with
  | Some j, Some c => Some (cell_at c j)
  | _, _ => None
  end.

(** Zero as an int or as a float of either sign. *)
Definition is_zero (v : value) : bool :=
  match v with
  | VInt z => (z =? 0)%Z
  | VFloat f => float_is_zero f
  | _ => false
  end.

(** A number with a finite value: a finite float, or an int within the
    range of floats. *)
Definition finite_number (v : value) : bool :=
  match v with
  | VInt z => float_is_finite (round_int z)
  | VFloat f => float_is_finite f
  | _ => false
  end.

(** An int price can be multiplied with a float. *)
Definition fits_float (v : value) : bool :=
  match v with
  | VInt z => float_is_finite (round_int z)
  | _ => true
  end.

(** The exceptions the loader's [except] clause names. *)
Definition caught_by_loader (e : exn) : bool :=
  issubclass (exn_cls e) FileNotFoundError
  || issubclass (exn_cls e) ValueError
  || issubclass (exn_cls e) JSONDecodeError.

Definition load_diagnostic (file_path : string) (e : exn) : output :=
  OutText ("Error al cargar el archivo " ++ file_path ++ ": " ++ exn_msg e)%string.

(** The value the last record with a given title gives, going through the
    records in order. *)
Definition last_price (k : value) (items : list (value * value)) : option value :=
  fold_left (fun acc kv => if py_eqb (fst kv) k then Some (snd kv) else acc)
            items None.

(** ** Sample data *)

(** The index [pd.read_json] gives a table of [n] records. *)
Definition range_index (n : nat) : list value :=
  map (fun i => VInt (Z.of_nat i)) (seq 0 n).

Definition two_and_a_half : float :=
  Eval vm_compute in SFdiv prec emax (round_int 5) (round_int 2).

(** The catalogue and the sales of the example scenario. *)
Definition catalogue : DataFrame :=
  mkDF (range_index 2)
       [("title", ColObject [VStr "A"; VStr "B"]); ("price", ColInt64 [10; 5])].

Definition catalogue_prices : py_dict := [(VStr "A", VInt 10); (VStr "B", VInt 5)].

Definition sales_sample : DataFrame :=
  mkDF (range_index 2)
       [("Product", ColObject [VStr "A"; VStr "C"]); ("Quantity", ColInt64 [2; 1])].

(** A catalogue that lists a title twice. *)
Definition catalogue_twice : DataFrame :=
  mkDF (range_index 2)
       [("title", ColObject [VStr "A"; VStr "A"]); ("price", ColInt64 [10; 12])].

(** Sales whose quantity is a text, is zero, is missing. *)
Definition sales_text_quantity : DataFrame :=
  mkDF (range_index 1)
       [("Product", ColObject [VStr "A"]); ("Quantity", ColObject [VStr "ab"])].

Definition sales_zero_quantity : DataFrame :=
  mkDF (range_index 2)
       [("Product", ColObject [VStr "A"; VStr "C"]); ("Quantity", ColInt64 [0; 0])].

Definition sales_missing_quantity : DataFrame :=
  mkDF (range_index 2)
       [("Product", ColObject [VStr "A"; VStr "B"]);
        ("Quantity", ColFloat64 [fnan; round_int 3])].

Definition prices_int : py_dict := [(VStr "A", VInt 2)].
Definition prices_float : py_dict := [(VStr "A", VFloat two_and_a_half)].

(** A world that holds one frame, and a run in a directory without the two
    input files. *)
Definition world_of (df : DataFrame) : World := mkWorld [df] [] [].

Definition missing_file (path : string) : exn :=
  Exn FileNotFoundError ("File " ++ path ++ " does not exist")%string.

Definition env_without_files : Env :=
  mkEnv (fun path => Raise (missing_file path))
        (fun _ => Ok tt)
        ["compute_sales.py"; "products.json"; "sales.json"]%string
        (round_int 100) (round_int 101)
        false.

(** The run of the example scenario: both files are there. *)
Definition env_example : Env :=
  mkEnv (fun path =>
           if String.eqb path "products.json" then Ok catalogue
           else if String.eqb path "sales.json" then Ok sales_sample
                else Raise (missing_file path))
        (fun _ => Ok tt)
        ["compute_sales.py"; "products.json"; "sales.json"]%string
        (round_int 100) (round_int 101)
        false.

(** ** Notions for the properties of the remaining code *)

(** The price index of a catalogue: what [map_product_prices] computes from
    the object its argument denotes. *)
Definition price_index (df : DataFrame) : result py_dict :=
  bind (set_index df "title") (fun indexed =>
  bind (df_getitem indexed "price") (fun price =>
  Ok (to_dict price))).

(** The report of a table of valid rows: what [generate_sales_report]
    computes from the object its argument denotes. *)
Definition report_for (env : Env) (df : DataFrame) (elapsed_time : value)
  : result string :=
  bind (df_getitem df "Total_Cost") (fun cost =>
  bind (series_sum (negative_zero env) (s_values cost)) (fun total_sales_cost =>
  bind (format_2f total_sales_cost) (fun total =>
  bind (format_2f elapsed_time) (fun elapsed =>
  Ok (report_text total elapsed))))).

(** No two keys of a dict are equal. *)
Definition distinct_keys (d : py_dict) : Prop :=
  ForallOrdPairs (fun a b => py_eqb a b = false) (map fst d).

(** A label that [map] looks up as a dict does: a text, or a number below
    2^53 in magnitude.  (pandas compares an int64 label with a float64 cell
    as floats, and lets a missing cell find a missing label.) *)
Definition plain_label (v : value) : bool :=
  match v with
  | VStr _ => true
  | VNone => false
  | _ =>
      match exact_number v with
      | Some x => (Z.abs x <? 2 ^ (53 + 1074))%Z
      | None => false
      end
  end.

(** [l] is [l'] with some elements left out, the others in their order. *)
Inductive subseq {A : Type} : list A -> list A -> Prop :=
| subseq_nil : subseq [] []
| subseq_keep (a : A) (l l' : list A) : subseq l l' -> subseq (a :: l) (a :: l')
| subseq_drop (a : A) (l l' : list A) : subseq l l' -> subseq l (a :: l').

Definition usage_message : output :=
  OutText (nl ++ "Argumentos faltantes o inválidos")%string.

Definition save_diagnostic (file_path : string) (e : exn) : output :=
  OutText ("Error al guardar el archivo " ++ file_path ++ ": " ++ exn_msg e)%string.

(** The exceptions the [except] clause of [save_report_to_file] names. *)
Definition caught_by_save (e : exn) : bool :=
  issubclass (exn_cls e) FileNotFoundError || issubclass (exn_cls e) OSError.

(** What the run prints about the errors (lines 132-133). *)
Definition errors_preview (errors : DataFrame) : list output :=
  if df_is_empty errors then []
  else [OutFrame (nl ++ "Errores detectados:" ++ nl)%string (df_head 5 errors)].

(** What line 127 leaves on the console and among the files. *)
Definition save_console (env : Env) (file_path : string) : list output :=
  match open_for_writing env file_path with
  | Ok _ => []
  | Raise e => [save_diagnostic file_path e]
  end.

Definition save_files (env : Env) (file_path report : string)
  : list (string * string) :=
  match open_for_writing env file_path with
  | Ok _ => [(file_path, report)]
  | Raise _ => []
  end.

(** The prices the products of a column have in a price index of ints. *)
Definition int_prices (prices : py_dict) (names : list value) : list Z :=
  map (fun p => match dict_get prices p with
                | Some v => int_of_obj v
                | None => 0
                end) names.

(** More sample data: a command line without file names, a directory that
    cannot be written to, a run without the sales file, and sales whose
    products are numbered. *)
Definition env_without_arguments : Env :=
  mkEnv (fun path => Raise (missing_file path)) (fun _ => Ok tt)
        ["compute_sales.py"]%string (round_int 100) (round_int 101) false.

Definition permission_denied (path : string) : exn :=
  Exn PermissionError ("[Errno 13] Permission denied: '" ++ path ++ "'")%string.

Definition env_read_only : Env :=
  mkEnv (read_json env_example) (fun path => Raise (permission_denied path))
        (argv env_example) (round_int 100) (round_int 101) false.

Definition env_unreadable : Env :=
  mkEnv (fun path => Raise (permission_denied path)) (fun _ => Ok tt)
        (argv env_example) (round_int 100) (round_int 101) false.

Definition env_without_sales : Env :=
  mkEnv (fun path =>
           if String.eqb path "products.json" then Ok catalogue
           else Raise (missing_file path))
        (fun _ => Ok tt)
        (argv env_example) (round_int 100) (round_int 101) false.

Definition sales_numbered : DataFrame :=
  mkDF (range_index 2)
       [("Product", ColInt64 [1; 2]); ("Quantity", ColInt64 [3; 4])].

Definition prices_numbered : py_dict := [(VInt 1, VInt 10); (VInt 2, VInt 20)].

(** A catalogue with a title that has no price yet, and numbered sales of
    quantity zero. *)
Definition catalogue_unpriced : DataFrame :=
  mkDF (range_index 2)
       [("title", ColObject [VStr "A"; VStr "B"]);
        ("price", ColObject [VStr "n/a"; VInt 5])].

Definition sales_numbered_zero : DataFrame :=
  mkDF (range_index 2)
       [("Product", ColInt64 [1; 2]); ("Quantity", ColInt64 [0; 4])].

Definition sales_returned : DataFrame :=
  mkDF (range_index 2)
       [("Product", ColObject [VStr "A"; VStr "B"]); ("Quantity", ColInt64 [-2; 3])].

(* ===================================================================== *)
(** * Facts about floats *)
(* ===================================================================== *)

Lemma shr_1_bounds mrs : 0 <= shr_m mrs -> 0 <= shr_m (shr_1 mrs) <= shr_m mrs.
Proof.
  destruct mrs as [m r s]; simpl.
  destruct m as [|p|p]; simpl; try lia; destruct p; simpl; lia.
Qed.

Lemma iter_shr_1_bounds p : forall mrs,
  0 <= shr_m mrs -> 0 <= shr_m (iter_pos shr_1 p mrs) <= shr_m mrs.
Proof.
  induction p as [p IH|p IH|]; intros mrs H; simpl.
  - pose proof (shr_1_bounds mrs H) as H1.
    pose proof (IH _ (proj1 H1)) as H2.
    pose proof (IH _ (proj1 H2)) as H3. lia.
  - pose proof (IH _ H) as H2.
    pose proof (IH _ (proj1 H2)) as H3. lia.
  - apply shr_1_bounds; assumption.
Qed.

Lemma shr_fexp_bounds m e l :
  0 <= m ->
  0 <= shr_m (fst (shr_fexp prec emax m e l)) <= m /\
  snd (shr_fexp prec emax m e l) <= Z.max e (fexp prec emax (Zdigits2 m + e)).
Proof.
  intros Hm. unfold shr_fexp, shr.
  assert (Hrec : shr_m (shr_record_of_loc m l) = m).
  { destruct l as [|[]]; reflexivity. }
  destruct (fexp prec emax (Zdigits2 m + e) - e) as [|p|p] eqn:E; simpl.
  - rewrite Hrec. lia.
  - pose proof (iter_shr_1_bounds p (shr_record_of_loc m l)) as H.
    rewrite Hrec in H. split; [apply H; assumption | lia].
  - rewrite Hrec. lia.
Qed.

Lemma round_nearest_even_bounds m l :
  0 <= m -> 0 <= round_nearest_even m l <= m + 1.
Proof.
  intros H. unfold round_nearest_even.
  destruct l as [|[]]; try lia. destruct (Z.even m); lia.
Qed.

Lemma Zdigits2_log2 m : 0 < m -> Zdigits2 m = Z.log2 m + 1.
Proof.
  destruct m as [|p|p]; try lia. intros _. simpl.
  induction p as [p IH|p IH|]; simpl; try reflexivity.
  - rewrite Pos2Z.inj_succ, IH. destruct p; simpl; lia.
  - rewrite Pos2Z.inj_succ, IH. destruct p; simpl; lia.
Qed.

Lemma Zdigits2_mono a b : 0 <= a <= b -> Zdigits2 a <= Zdigits2 b.
Proof.
  intros [Ha Hab].
  destruct (Z.eq_dec a 0) as [->|Hn].
  - simpl. destruct b; simpl; lia.
  - rewrite !Zdigits2_log2 by lia.
    pose proof (Z.log2_le_mono a b Hab). lia.
Qed.

Lemma Zdigits2_lt_pow2 a k : 0 <= k -> 0 <= a < 2 ^ k -> Zdigits2 a <= k.
Proof.
  intros Hk [Ha Hlt].
  destruct (Z.eq_dec a 0) as [->|Hn]; [simpl; lia|].
  rewrite Zdigits2_log2 by lia.
  assert (Z.log2 a < k) by (apply Z.log2_lt_pow2; lia). lia.
Qed.

Lemma binary_round_aux_not_nan sx mx ex lx :
  0 <= mx -> binary_round_aux prec emax sx mx ex lx <> S754_nan.
Proof.
  intros Hm. unfold binary_round_aux.
  pose proof (shr_fexp_bounds mx ex lx Hm) as [H1 _].
  destruct (shr_fexp prec emax mx ex lx) as [mrs' e'] eqn:E1. simpl in H1.
  pose proof (round_nearest_even_bounds (shr_m mrs') (loc_of_shr_record mrs') (proj1 H1)) as H2.
  pose proof (shr_fexp_bounds _ e' loc_Exact (proj1 H2)) as [H3 _].
  destruct (shr_fexp prec emax (round_nearest_even _ _) e' loc_Exact) as [mrs'' e''] eqn:E2.
  simpl in H3.
  destruct (shr_m mrs'') as [|p|p]; try discriminate; try lia.
  destruct (e'' <=? emax - prec); discriminate.
Qed.


Lemma digits2_iter_xO m j : digits2_pos (Pos.iter xO m j) = (digits2_pos m + j)%positive.
Proof.
  induction j using Pos.peano_ind.
  - simpl. lia.
  - rewrite Pos.iter_succ. simpl. rewrite IHj. lia.
Qed.

Lemma round_int_not_nan z : round_int z <> S754_nan.
Proof.
  unfold round_int, binary_normalize.
  destruct z as [|p|p]; try discriminate; unfold binary_round;
    destruct (shl_align _ _ _) as [mz ez]; apply binary_round_aux_not_nan; lia.
Qed.



(* ===================================================================== *)
(** * Facts about the store and the columns of a frame *)
(* ===================================================================== *)

Lemma find_column_set_column_same key c data :
  find_column key (set_column key c data) = Some c.
Proof.
  induction data as [|[n c0] rest IH]; simpl.
  - rewrite String.eqb_refl. reflexivity.
  - destruct (String.eqb n key) eqn:E; simpl; rewrite E; auto.
Qed.

Lemma find_column_set_column_other key key' c data :
  key' <> key ->
  find_column key' (set_column key c data) = find_column key' data.
Proof.
  intros Hne. induction data as [|[n c0] rest IH]; simpl.
  - destruct (String.eqb_spec key key'); [congruence | reflexivity].
  - destruct (String.eqb_spec n key) as [->|Hn]; simpl.
    + destruct (String.eqb_spec key key'); [congruence | reflexivity].
    + rewrite IH. reflexivity.
Qed.

Lemma set_column_twice key c c' data :
  set_column key c' (set_column key c data) = set_column key c' data.
Proof.
  induction data as [|[n c0] rest IH]; simpl.
  - rewrite String.eqb_refl. reflexivity.
  - destruct (String.eqb n key) eqn:E; simpl; rewrite E; [reflexivity|].
    rewrite IH. reflexivity.
Qed.

Lemma length_list_update {A} (l : list A) i a :
  List.length (list_update l i a) = List.length l.
Proof.
  revert i; induction l as [|x l IH]; intros [|i]; simpl; auto.
Qed.

Lemma nth_list_update_same {A} (l : list A) i a d :
  (i < List.length l)%nat -> nth i (list_update l i a) d = a.
Proof.
  revert i; induction l as [|x l IH]; intros [|i] H; simpl in *; try lia; auto.
  apply IH. lia.
Qed.

Lemma nth_list_update_other {A} (l : list A) i j a d :
  i <> j -> nth j (list_update l i a) d = nth j l d.
Proof.
  revert i j; induction l as [|x l IH]; intros [|i] [|j] H; simpl; auto; try congruence.
Qed.

Lemma list_update_twice {A} (l : list A) i a b :
  list_update (list_update l i a) i b = list_update l i b.
Proof.
  revert i; induction l as [|x l IH]; intros [|i]; simpl; auto.
  rewrite IH. reflexivity.
Qed.

Lemma list_update_app_end {A} (l : list A) a b rest :
  list_update (l ++ a :: rest) (List.length l) b = l ++ b :: rest.
Proof.
  induction l as [|x l IH]; simpl; auto. rewrite IH. reflexivity.
Qed.

Lemma nth_app_end {A} (l : list A) a rest d :
  nth (List.length l) (l ++ a :: rest) d = a.
Proof.
  induction l as [|x l IH]; simpl; auto.
Qed.

Lemma df_setitem_twice df key c c' :
  df_setitem (df_setitem df key c) key c' = df_setitem df key c'.
Proof. unfold df_setitem. simpl. rewrite set_column_twice. reflexivity. Qed.


(** ** Lists and masks *)

Lemma mask_filter_length {A} (mask : list bool) : forall (l : list A),
  List.length mask = List.length l ->
  (List.length (mask_filter (map negb mask) l) + List.length (mask_filter mask l)
   = List.length l)%nat.
Proof.
  induction mask as [|b mask IH]; intros [|a l] H; simpl in *; try lia.
  specialize (IH l ltac:(lia)). destruct b; simpl; lia.
Qed.

Lemma mask_filter_perm {A} (mask : list bool) : forall (l : list A),
  List.length mask = List.length l ->
  Permutation (mask_filter (map negb mask) l ++ mask_filter mask l) l.
Proof.
  induction mask as [|b mask IH]; intros [|a l] H; simpl in *; try discriminate.
  - constructor.
  - specialize (IH l ltac:(lia)). destruct b; simpl.
    + apply Permutation_sym, Permutation_cons_app, Permutation_sym, IH.
    + constructor. exact IH.
Qed.

Lemma mask_filter_In {A} (mask : list bool) : forall (l : list A) x,
  In x (mask_filter mask l) -> In x l.
Proof.
  induction mask as [|b mask IH]; intros [|a l] x H; simpl in *; try contradiction.
  destruct b; simpl in H; [destruct H as [H|H]|]; auto.
Qed.

Lemma mask_filter_nth_In {A} (mask : list bool) : forall (l : list A) i d,
  (i < List.length l)%nat -> nth i mask false = true ->
  In (nth i l d) (mask_filter mask l).
Proof.
  induction mask as [|b mask IH]; intros [|a l] i d Hi Hm; simpl in *;
    try lia; destruct i; try discriminate.
  - subst b. left. reflexivity.
  - destruct b; [right|]; apply IH; auto; lia.
Qed.

Lemma mask_filter_nth_not_In {A} (mask : list bool) : forall (l : list A) i d,
  NoDup l -> (i < List.length l)%nat -> nth i mask false = true ->
  ~ In (nth i l d) (mask_filter (map negb mask) l).
Proof.
  induction mask as [|b mask IH]; intros [|a l] i d Hnd Hi Hm; simpl in *;
    try lia; destruct i; try discriminate; inversion Hnd as [|? ? Hna Hnd']; subst.
  - simpl. intros H. apply Hna. eapply mask_filter_In. exact H.
  - destruct b; simpl.
    + apply IH; auto; lia.
    + intros [H|H].
      * apply Hna. rewrite H. apply nth_In. lia.
      * revert H. apply IH; auto; lia.
Qed.

Lemma mask_filter_map {A B} (g : A -> B) (mask : list bool) : forall (l : list A),
  mask_filter mask (map g l) = map g (mask_filter mask l).
Proof.
  induction mask as [|b mask IH]; intros [|a l]; simpl; auto.
  destruct b; simpl; rewrite IH; reflexivity.
Qed.

Lemma map_negb_involutive (mask : list bool) : map negb (map negb mask) = mask.
Proof.
  induction mask as [|b mask IH]; simpl; [|rewrite IH, negb_involutive]; reflexivity.
Qed.

Lemma nth_map_negb (mask : list bool) i :
  (i < List.length mask)%nat -> nth i mask false = false ->
  nth i (map negb mask) false = true.
Proof.
  revert i; induction mask as [|b mask IH]; intros [|i] Hi H; simpl in *; try lia.
  - subst b. reflexivity.
  - apply IH; auto; lia.
Qed.

(** The cell of the selected row: where a label stands in the selection,
    the selection of any aligned list holds the cell that stood next to the
    label. *)
Lemma mask_filter_key_position (mask : list bool) :
  forall (idx : list value) (cells : list value) i d,
    NoDup idx -> List.length cells = List.length idx ->
    (i < List.length idx)%nat -> nth i mask false = true ->
    exists j, key_position (mask_filter mask idx) (nth i idx d) = Some j /\
              nth j (mask_filter mask cells) VNone = nth i cells VNone.
Proof.
  induction mask as [|b mask IH]; intros [|a idx] [|x cells] i d Hnd Hl Hi Hm;
    simpl in *; try lia; destruct i; try discriminate;
    inversion Hnd as [|? ? Hna Hnd']; subst.
  - exists O. simpl. unfold value_eqb.
    destruct (value_eq_dec a a); [auto | congruence].
  - destruct (IH idx cells i d Hnd' ltac:(lia) ltac:(lia) Hm) as [j [Hj Hc]].
    destruct b; simpl.
    + unfold value_eqb. destruct (value_eq_dec a (nth i idx d)) as [E|E].
      * exfalso. apply Hna. rewrite E. apply nth_In. lia.
      * rewrite Hj. exists (S j). auto.
    + exists j. auto.
Qed.

(** ** Results of mapM *)

Lemma mapM_length {A B} (f : A -> result B) : forall l bs,
  mapM f l = Ok bs -> List.length bs = List.length l.
Proof.
  induction l as [|a l IH]; intros bs H; simpl in H.
  - injection H as <-. reflexivity.
  - destruct (f a); [|discriminate]. destruct (mapM f l); [|discriminate].
    injection H as <-. simpl. f_equal. apply IH. reflexivity.
Qed.

Lemma mapM_nth_error {A B} (f : A -> result B) : forall l bs i a,
  mapM f l = Ok bs -> nth_error l i = Some a ->
  exists b, f a = Ok b /\ nth_error bs i = Some b.
Proof.
  induction l as [|x l IH]; intros bs i a H Hi; simpl in H.
  - destruct i; discriminate.
  - destruct (f x) as [b|] eqn:Ef; [|discriminate].
    destruct (mapM f l) as [bs'|]; [|discriminate].
    injection H as <-. destruct i; simpl in *.
    + injection Hi as <-. eauto.
    + eapply IH; eauto.
Qed.

(** ** Inference of a column *)


Lemma isna_to_float64 v :
  is_float64_able v = true -> float_is_nan (to_float64 v) = isna v.
Proof.
  destruct v as [z|f| |]; simpl; try discriminate; auto.
  intros _. destruct (round_int z) eqn:E; try reflexivity.
  exfalso. exact (round_int_not_nan z E).
Qed.

Lemma infer_column_cases vs :
  infer_column vs = ColObject vs \/
  (forallb is_int64_obj vs = true /\ infer_column vs = ColInt64 (map int_of_obj vs)) \/
  (forallb is_float64_able vs = true /\
   infer_column vs = ColFloat64 (map to_float64 vs)).
Proof.
  destruct vs as [|v0 vs0]; [left; reflexivity|].
  unfold infer_column. cbv beta iota. remember (v0 :: vs0) as vs eqn:Evs.
  destruct (forallb is_int64_obj vs) eqn:E1; [right; left; auto|].
  destruct (forallb is_float64_able vs) eqn:E2; [|left; reflexivity].
  destruct (existsb is_number vs); simpl; [right; right; auto | left; reflexivity].
Qed.

Lemma col_length_infer_column vs : col_length (infer_column vs) = List.length vs.
Proof.
  destruct (infer_column_cases vs) as [-> | [[E ->] | [E ->]]]; simpl;
    try rewrite length_map; reflexivity.
Qed.

Lemma col_isna_infer_column vs : col_isna (infer_column vs) = map isna vs.
Proof.
  unfold col_isna.
  destruct (infer_column_cases vs) as [-> | [[E ->] | [E ->]]]; simpl.
  - reflexivity.
  - rewrite !map_map. apply map_ext_in.
    intros v Hv. rewrite forallb_forall in E. specialize (E v Hv).
    destruct v; simpl in *; try discriminate; reflexivity.
  - rewrite !map_map. apply map_ext_in.
    intros v Hv. rewrite forallb_forall in E. simpl.
    apply isna_to_float64. auto.
Qed.

(** A cell of an inferred column is the object it was built from, or that
    object as a float64. *)
Lemma cell_at_infer_column vs i :
  (i < List.length vs)%nat ->
  cell_at (infer_column vs) i = nth i vs VNone \/
  (is_float64_able (nth i vs VNone) = true /\
   cell_at (infer_column vs) i = VFloat (to_float64 (nth i vs VNone))).
Proof.
  intros Hi. unfold cell_at.
  destruct (infer_column_cases vs) as [-> | [[E ->] | [E ->]]]; simpl.
  - left. reflexivity.
  - left. rewrite map_map. rewrite forallb_forall in E.
    assert (H := E (nth i vs VNone) (nth_In _ _ Hi)).
    rewrite (nth_indep _ VNone (VInt (int_of_obj VNone))) by (rewrite length_map; lia).
    rewrite (map_nth (fun x => VInt (int_of_obj x))).
    destruct (nth i vs VNone); simpl in *; try discriminate. reflexivity.
  - right. rewrite forallb_forall in E. split; [apply E, nth_In, Hi|].
    rewrite map_map.
    rewrite (nth_indep _ VNone (VFloat (to_float64 VNone))) by (rewrite length_map; lia).
    rewrite (map_nth (fun x => VFloat (to_float64 x))). reflexivity.
Qed.

(** ** Columns of a frame *)

Lemma find_column_map g key data :
  find_column key (map (fun nc => (fst nc, g (snd nc))) data) =
  option_map g (find_column key data).
Proof.
  induction data as [|[n c] rest IH]; simpl; [reflexivity|].
  destruct (String.eqb n key); auto.
Qed.

Lemma lookup_map {A} (g : column -> A) key data :
  lookup key (map (fun nc => (fst nc, g (snd nc))) data) =
  match find_column key data with
  | Some c => Ok (g c)
  | None => raise KeyError (py_repr_str key)
  end.
Proof.
  induction data as [|[n c] rest IH]; simpl; [reflexivity|].
  destruct (String.eqb n key); auto.
Qed.

Lemma col_objects_filter mask c :
  col_objects (col_filter mask c) = mask_filter mask (col_objects c).
Proof.
  destruct c; simpl; try rewrite mask_filter_map; reflexivity.
Qed.

Lemma col_length_objects c : List.length (col_objects c) = col_length c.
Proof. destruct c; simpl; try rewrite length_map; reflexivity. Qed.

Lemma nth_error_frame_rows df i :
  (i < df_nrows df)%nat -> nth_error (frame_rows df) i = Some (row_at df i).
Proof.
  intros Hi. unfold frame_rows.
  rewrite nth_error_map, nth_error_seq.
  destruct (Nat.ltb_spec i (df_nrows df)); [reflexivity | lia].
Qed.

(** ** Looking prices up *)

Lemma nth_map_any {A B} (g : A -> B) l i d d' :
  (i < List.length l)%nat -> nth i (map g l) d' = g (nth i l d).
Proof.
  intros H. rewrite (nth_indep _ d' (g d)) by (rewrite length_map; lia).
  apply map_nth.
Qed.

Lemma dict_position_dict_get (d : py_dict) k :
  match dict_position d k with
  | Some j => dict_get d k = Some (nth j (map snd d) VNone) /\ (j < List.length d)%nat
  | None => dict_get d k = None
  end.
Proof.
  induction d as [|[k0 v0] d IH]; simpl; [reflexivity|].
  destruct (py_eqb k0 k); [split; [reflexivity | lia]|].
  destruct (dict_position d k); [|assumption].
  destruct IH. split; [assumption | lia].
Qed.

Lemma cell_fillna_float lst i fill :
  (i < List.length lst)%nat ->
  cell_at (fillna fill (ColFloat64 lst)) i =
  if float_is_nan (nth i lst fnan) then fill else VFloat (nth i lst fnan).
Proof.
  intros Hi. unfold cell_at, fillna.
  destruct (existsb float_is_nan lst) eqn:E; simpl.
  - rewrite (nth_map_any _ lst i fnan) by assumption. reflexivity.
  - rewrite (nth_map_any _ lst i fnan) by assumption.
    rewrite (existsb_nth _ _ fnan Hi E). reflexivity.
Qed.

Lemma cell_fillna_object l i fill :
  (i < List.length l)%nat ->
  cell_at (fillna fill (ColObject l)) i =
  if isna (nth i l VNone) then fill else nth i l VNone.
Proof.
  intros Hi. unfold cell_at, fillna. simpl.
  rewrite (nth_map_any _ l i VNone) by assumption. reflexivity.
Qed.

(** A product that is no key of the dict gets the marker. *)
Lemma unit_price_unknown product prices i :
  (i < col_length product)%nat ->
  dict_get prices (cell_at product i) = None ->
  cell_at (unit_price_column product prices) i = not_found.
Proof.
  intros Hi Hget. unfold unit_price_column.
  set (ix := map (dict_position prices) (col_objects product)).
  assert (Hlen : List.length ix = col_length product).
  { unfold ix. rewrite length_map. apply col_length_objects. }
  assert (Hix : nth i ix None = None).
  { unfold ix. rewrite (nth_map_any _ _ i VNone) by (rewrite col_length_objects; lia).
    fold (cell_at product i).
    pose proof (dict_position_dict_get prices (cell_at product i)) as H.
    destruct (dict_position _ _); [destruct H; congruence | reflexivity]. }
  destruct (dict_as_column prices) as [l|l|l]; unfold take.
  - assert (E : forallb is_some ix = false).
    { destruct (forallb is_some ix) eqn:E; [|reflexivity].
      rewrite forallb_forall in E.
      assert (Hi' : (i < List.length ix)%nat) by lia.
      specialize (E (nth i ix None) (nth_In ix None Hi')).
      rewrite Hix in E. discriminate. }
    rewrite E, cell_fillna_float by (rewrite length_map; lia).
    rewrite (nth_map_any _ ix i None) by lia. rewrite Hix. reflexivity.
  - rewrite cell_fillna_float by (rewrite length_map; lia).
    rewrite (nth_map_any _ ix i None) by lia. rewrite Hix. reflexivity.
  - rewrite cell_fillna_object by (rewrite length_map; lia).
    rewrite (nth_map_any _ ix i None) by lia. rewrite Hix. reflexivity.
Qed.

(** A product that is a key gets its price, as the object it is in the dict
    or as a float64; a missing price gets the marker. *)
Lemma unit_price_found product prices i price :
  (i < col_length product)%nat ->
  dict_get prices (cell_at product i) = Some price ->
  let up := cell_at (unit_price_column product prices) i in
  (isna price = true /\ up = not_found) \/
  (isna price = false /\
   (up = price \/ (is_float64_able price = true /\ up = VFloat (to_float64 price)))).
Proof.
  intros Hi Hget. unfold unit_price_column.
  set (ix := map (dict_position prices) (col_objects product)).
  assert (Hlen : List.length ix = col_length product).
  { unfold ix. rewrite length_map. apply col_length_objects. }
  assert (Hix : exists j, nth i ix None = Some j /\
                          nth j (map snd prices) VNone = price /\
                          (j < List.length prices)%nat).
  { unfold ix. rewrite (nth_map_any _ _ i VNone) by (rewrite col_length_objects; lia).
    fold (cell_at product i).
    pose proof (dict_position_dict_get prices (cell_at product i)) as H.
    destruct (dict_position _ _) as [j|]; [|congruence].
    destruct H as [H1 H2]. exists j. split; [reflexivity|]. split; [congruence | assumption]. }
  destruct Hix as [j [Hix [Hj Hjlt]]].
  assert (Hin : In price (map snd prices)).
  { rewrite <- Hj. apply nth_In. rewrite length_map. assumption. }
  unfold dict_as_column. destruct prices as [|kv0 rest]; [simpl in Hjlt; lia|].
  cbv beta iota. remember (kv0 :: rest) as d eqn:Ed in *. clear Ed.
  destruct (infer_column_cases (map snd d)) as [-> | [[E ->] | [E ->]]]; unfold take.
  - cbv zeta. rewrite cell_fillna_object by (rewrite length_map; lia).
    rewrite (nth_map_any _ ix i None) by lia. rewrite Hix, Hj.
    destruct (isna price); auto.
  - rewrite forallb_forall in E. pose proof (E price Hin) as Hp.
    destruct price as [z| | |]; simpl in Hp; try discriminate.
    cbv zeta. right. split; [reflexivity|].
    assert (Hz : nth j (map int_of_obj (map snd d)) 0 = z).
    { rewrite (nth_map_any _ _ j VNone) by (rewrite length_map; assumption).
      rewrite Hj. reflexivity. }
    destruct (forallb is_some ix) eqn:Eall.
    + left. unfold fillna, cell_at. simpl.
      rewrite map_map, (nth_map_any _ ix i None) by lia. rewrite Hix, Hz. reflexivity.
    + right. split; [exact Hp|].
      rewrite cell_fillna_float by (rewrite length_map; lia).
      rewrite (nth_map_any _ ix i None) by lia. rewrite Hix, Hz. simpl.
      destruct (round_int z) eqn:Er; try reflexivity.
      exfalso. exact (round_int_not_nan z Er).
  - rewrite forallb_forall in E. pose proof (E price Hin) as Hp.
    cbv zeta. rewrite cell_fillna_float by (rewrite length_map; lia).
    rewrite (nth_map_any _ ix i None) by lia. rewrite Hix.
    rewrite (nth_map_any _ _ j VNone) by (rewrite length_map; assumption).
    rewrite Hj, (isna_to_float64 price Hp).
    destruct (isna price); auto.
Qed.

(** ** The frame after lines 51-52 *)

Lemma col_length_fillna fill c : col_length (fillna fill c) = col_length c.
Proof.
  destruct c as [l|l|l]; simpl; try reflexivity.
  - destruct (existsb float_is_nan l); simpl; [rewrite length_map|]; reflexivity.
  - rewrite length_map. reflexivity.
Qed.

Lemma col_length_take c ix : col_length (take c ix) = List.length ix.
Proof.
  destruct c as [l|l|l]; simpl; try (rewrite length_map; reflexivity).
  destruct (forallb is_some ix); simpl; rewrite length_map; reflexivity.
Qed.

Lemma col_length_unit_price_column product prices :
  col_length (unit_price_column product prices) = col_length product.
Proof.
  unfold unit_price_column.
  rewrite col_length_fillna, col_length_take, length_map. apply col_length_objects.
Qed.

Lemma find_column_In key data c :
  find_column key data = Some c -> In (key, c) data.
Proof.
  induction data as [|[n c0] rest IH]; simpl; [discriminate|].
  destruct (String.eqb_spec n key) as [->|Hn].
  - intros H; injection H as ->. left. reflexivity.
  - intros H. right. auto.
Qed.

Lemma In_set_column key c data nc :
  In nc (set_column key c data) -> nc = (key, c) \/ In nc data.
Proof.
  induction data as [|[n c0] rest IH]; simpl.
  - intros [H|[]]. left. congruence.
  - destruct (String.eqb_spec n key) as [->|Hn]; simpl.
    + intros [H|H]; [left; congruence | right; right; assumption].
    + intros [H|H]; [right; left; assumption|].
      destruct (IH H); [left | right; right]; assumption.
Qed.

Lemma df_wf_setitem df key c :
  df_wf df -> col_length c = df_nrows df -> df_wf (df_setitem df key c).
Proof.
  unfold df_wf, df_setitem, df_nrows. simpl. rewrite !Forall_forall.
  intros Hwf Hc nc Hin. destruct (In_set_column _ _ _ _ Hin) as [->|H]; simpl; auto.
Qed.

Lemma df_wf_priced df product prices :
  df_wf df -> find_column "Product" (df_data df) = Some product ->
  df_wf (priced df product prices).
Proof.
  intros Hwf Hc. apply df_wf_setitem; [assumption|].
  rewrite col_length_unit_price_column.
  unfold df_wf in Hwf. rewrite Forall_forall in Hwf.
  apply (Hwf _ (find_column_In _ _ _ Hc)).
Qed.

Lemma set_column_not_nil key c data : set_column key c data <> [].
Proof.
  destruct data as [|[n c0] rest]; simpl; [discriminate|].
  destruct (String.eqb n key); discriminate.
Qed.

Lemma df_is_empty_priced df product prices :
  df_is_empty (priced df product prices) = (df_nrows df =? 0)%nat.
Proof.
  unfold df_is_empty, priced, df_setitem, df_nrows. simpl.
  pose proof (set_column_not_nil "Unit_Price" (unit_price_column product prices) (df_data df)).
  destruct (set_column _ _ _); [congruence|]. simpl. apply orb_false_r.
Qed.


(* ===================================================================== *)
(** * What a call of process_sales_data does *)
(* ===================================================================== *)

Lemma df_assign_inv df key a df2 :
  df_assign df key a = Ok df2 -> exists c, df2 = df_setitem df key c.
Proof.
  destruct a as [s|f]; simpl.
  - intros H; injection H as <-. eauto.
  - destruct (df_data f) as [|[n c] [|x rest]]; try discriminate.
    intros H; injection H as <-. eauto.
Qed.

(** The Total_Cost column that lines 54-61 attach has one cell per row; on a
    frame with rows it is built from the results of [total_cost]. *)
Lemma apply_assign_inv df1 df2 :
  df_wf df1 -> df_data df1 <> [] ->
  bind (df_apply_rows total_cost df1) (df_assign df1 "Total_Cost") = Ok df2 ->
  exists cost,
    df2 = df_setitem df1 "Total_Cost" cost /\
    col_length cost = df_nrows df1 /\
    (df_is_empty df1 = false ->
     exists results, mapM total_cost (frame_rows df1) = Ok results /\
                     cost = infer_column results).
Proof.
  intros Hwf Hcols. unfold df_apply_rows.
  destruct (df_is_empty df1) eqn:Eempty.
  - assert (Hrows : df_nrows df1 = 0%nat).
    { unfold df_is_empty in Eempty. apply orb_true_iff in Eempty.
      destruct Eempty as [E|E]; apply Nat.eqb_eq in E; [assumption|].
      destruct (df_data df1); [congruence | discriminate]. }
    destruct (total_cost _) as [v|e]; simpl.
    + intros H; injection H as <-. eexists. split; [reflexivity|].
      split; [simpl; lia | discriminate].
    + destruct (df_data df1) as [|[n c] [|x rest]] eqn:Ed; try discriminate.
      intros H; injection H as <-. exists c. split; [reflexivity|].
      split; [|discriminate].
      unfold df_wf in Hwf. rewrite Ed in Hwf. inversion Hwf; subst. assumption.
  - destruct (mapM total_cost (frame_rows df1)) as [results|e] eqn:Em; simpl;
      [|discriminate].
    intros H; injection H as <-. exists (infer_column results).
    split; [reflexivity|]. split; [|eauto].
    rewrite col_length_infer_column, (mapM_length _ _ _ Em).
    unfold frame_rows. rewrite length_map, length_seq. reflexivity.
Qed.

Lemma process_sales_data_no_product st out fl r prices :
  find_column "Product" (df_data (nth r st empty_frame)) = None ->
  process_sales_data r prices (mkWorld st out fl) =
  (raise KeyError "'Product'", mkWorld st out fl).
Proof.
  intros H. unfold process_sales_data, bindM, deref, lift. simpl.
  unfold df_getitem. rewrite H. reflexivity.
Qed.

(** The run of the function, step by step, on a frame with a Product column:
    the caller's object gets its Unit_Price; then either an exception leaves
    the store at that, or two new objects are added, the valid rows and the
    errors. *)
Lemma process_sales_data_run st out fl r df prices c :
  nth_error st r = Some df ->
  find_column "Product" (df_data df) = Some c ->
  process_sales_data r prices (mkWorld st out fl) =
    let df1 := priced df c prices in
    let st1 := list_update st r df1 in
    match bind (df_apply_rows total_cost df1) (df_assign df1 "Total_Cost") with
    | Raise e => (Raise e, mkWorld st1 out fl)
    | Ok df2 =>
        (Ok (List.length st, S (List.length st)),
         mkWorld (st1 ++ [df_select (map negb (cost_isna df2)) df2;
                          df_select (cost_isna df2) df2]) out fl)
    end.
Proof.
  intros Hr Hc.
  assert (Hlt : (r < List.length st)%nat).
  { apply nth_error_Some. congruence. }
  assert (Hnth : forall d, nth r st d = df).
  { intros d. apply nth_error_nth. assumption. }
  unfold process_sales_data, bindM, deref, lift, assign_ref, alloc, ret. simpl.
  rewrite Hnth. unfold df_getitem at 1. rewrite Hc. simpl.
  rewrite nth_list_update_same by assumption.
  unfold df_getitem at 1. simpl. rewrite find_column_set_column_same. simpl.
  rewrite list_update_twice.
  rewrite nth_list_update_same by assumption.
  rewrite !df_setitem_twice.
  change (df_setitem df "Unit_Price" _) with (priced df c prices).
  destruct (df_apply_rows total_cost (priced df c prices)) as [a|e]; simpl; [|reflexivity].
  destruct (df_assign (priced df c prices) "Total_Cost" a) as [df2|e] eqn:Ea; simpl;
    [|reflexivity].
  destruct (df_assign_inv _ _ _ _ Ea) as [col ->].
  set (st1 := list_update st r (priced df c prices)).
  rewrite nth_app_end.
  unfold df_getitem at 1. simpl. rewrite find_column_set_column_same. simpl.
  rewrite <- app_assoc. simpl. rewrite nth_app_end.
  unfold df_getitem at 1. simpl. rewrite find_column_set_column_same. simpl.
  rewrite list_update_app_end, length_app. simpl.
  unfold cost_isna. simpl. rewrite find_column_set_column_same.
  unfold st1. rewrite length_list_update, Nat.add_1_r. reflexivity.
Qed.

(** What is known when the function returns. *)
Lemma process_sales_data_returns w r df prices rv re w' :
  nth_error (store w) r = Some df -> df_wf df ->
  process_sales_data r prices w = (Ok (rv, re), w') ->
  exists product cost,
    find_column "Product" (df_data df) = Some product /\
    col_length cost = df_nrows df /\
    frame_of w' rv =
      df_select (map negb (col_isna cost))
                (df_setitem (priced df product prices) "Total_Cost" cost) /\
    frame_of w' re =
      df_select (col_isna cost)
                (df_setitem (priced df product prices) "Total_Cost" cost) /\
    rv = List.length (store w) /\ re = S (List.length (store w)) /\
    ((0 < df_nrows df)%nat ->
     exists results,
       mapM total_cost (frame_rows (priced df product prices)) = Ok results /\
       cost = infer_column results).
Proof.
  destruct w as [st out fl]. simpl. intros Hr Hwf Hrun.
  assert (Hnth : nth r st empty_frame = df) by (apply nth_error_nth; assumption).
  destruct (find_column "Product" (df_data df)) as [c|] eqn:Hc.
  2:{ rewrite process_sales_data_no_product in Hrun by (rewrite Hnth; assumption).
      discriminate. }
  rewrite (process_sales_data_run _ _ _ _ _ _ _ Hr Hc) in Hrun. cbv zeta in Hrun.
  destruct (bind _ _) as [df2|e] eqn:Eb; [|discriminate].
  injection Hrun as <- <- <-.
  assert (Hwf1 : df_wf (priced df c prices)) by (apply df_wf_priced; assumption).
  assert (Hne : df_data (priced df c prices) <> []) by apply set_column_not_nil.
  destruct (apply_assign_inv _ _ Hwf1 Hne Eb) as [cost [-> [Hlen Hres]]].
  exists c, cost. split; [reflexivity|]. split; [exact Hlen|].
  assert (Hmask : cost_isna (df_setitem (priced df c prices) "Total_Cost" cost)
                  = col_isna cost).
  { unfold cost_isna. simpl. rewrite find_column_set_column_same. reflexivity. }
  rewrite Hmask. unfold frame_of. simpl.
  rewrite <- (length_list_update st r (priced df c prices)).
  rewrite nth_app_end.
  split; [reflexivity|]. split.
  { rewrite app_nth2 by lia.
    replace (S (List.length (list_update st r (priced df c prices)))
             - List.length (list_update st r (priced df c prices)))%nat with 1%nat by lia.
    reflexivity. }
  rewrite length_list_update.
  split; [reflexivity|]. split; [reflexivity|].
  intros Hpos. apply Hres. rewrite df_is_empty_priced.
  apply Nat.eqb_neq. lia.
Qed.

(* ===================================================================== *)
(** * One row *)
(* ===================================================================== *)

Lemma frame_dtype_object df name c :
  find_column name (df_data df) = Some c -> col_dtype c = Object ->
  frame_dtype df = Object.
Proof.
  intros Hf Hc. unfold frame_dtype.
  assert (E : existsb (fun nc => match col_dtype (snd nc) with
                                 | Object => true | _ => false end) (df_data df) = true).
  { apply existsb_exists. exists (name, c).
    split; [apply find_column_In; assumption | simpl; rewrite Hc; reflexivity]. }
  rewrite E. reflexivity.
Qed.

Lemma frame_dtype_int64 df name c :
  frame_dtype df = Int64 -> find_column name (df_data df) = Some c ->
  col_dtype c = Int64.
Proof.
  unfold frame_dtype. intros H Hf.
  destruct (existsb _ (df_data df)) eqn:E1; [discriminate|].
  destruct (existsb (fun nc => match col_dtype (snd nc) with
                               | Float64 => true | _ => false end) (df_data df)) eqn:E2;
    [discriminate|].
  pose proof (find_column_In _ _ _ Hf) as Hin.
  destruct (col_dtype c) eqn:Ec; [reflexivity | |]; exfalso.
  - apply Bool.diff_false_true. rewrite <- E2. apply existsb_exists.
    exists (name, c). simpl. rewrite Ec. auto.
  - apply Bool.diff_false_true. rewrite <- E1. apply existsb_exists.
    exists (name, c). simpl. rewrite Ec. auto.
Qed.

Lemma cell_at_dtype c i :
  match cell_at c i with
  | VStr _ => col_dtype c = Object
  | VFloat _ => col_dtype c <> Int64
  | _ => True
  end.
Proof.
  unfold cell_at. destruct c as [l|l|l]; simpl.
  - destruct (nth_in_or_default i (map VInt l) VNone) as [H | ->]; [|exact I].
    apply in_map_iff in H. destruct H as [z [<- _]]. exact I.
  - destruct (nth_in_or_default i (map VFloat l) VNone) as [H | ->]; [|exact I].
    apply in_map_iff in H. destruct H as [z [<- _]]. discriminate.
  - destruct (nth i l VNone); auto; discriminate.
Qed.

(** [total_cost] on a row of Python objects. *)
Lemma total_cost_object_row df i unit_price :
  frame_dtype df = Object ->
  find_column "Unit_Price" (df_data df) = Some unit_price ->
  total_cost (row_at df i) =
  if isinstance_int_float (cell_at unit_price i)
  then match find_column "Quantity" (df_data df) with
       | Some quantity => py_mul (cell_at quantity i) (cell_at unit_price i)
       | None => raise KeyError "'Quantity'"
       end
  else Ok VNone.
Proof.
  intros Hd Hu. unfold row_at. rewrite Hd. unfold total_cost.
  rewrite (lookup_map (fun c => cell_at c i)), Hu. simpl.
  destruct (isinstance_int_float (cell_at unit_price i)); [|reflexivity].
  rewrite (lookup_map (fun c => cell_at c i)).
  destruct (find_column "Quantity" (df_data df)); reflexivity.
Qed.

(** [total_cost] on a row of numpy.float64 scalars. *)
Lemma total_cost_float_row df i unit_price :
  frame_dtype df = Float64 ->
  find_column "Unit_Price" (df_data df) = Some unit_price ->
  total_cost (row_at df i) =
  match find_column "Quantity" (df_data df) with
  | Some quantity =>
      Ok (VFloat (fmul (to_float64 (cell_at quantity i))
                       (to_float64 (cell_at unit_price i))))
  | None => raise KeyError "'Quantity'"
  end.
Proof.
  intros Hd Hu. unfold row_at. rewrite Hd. unfold total_cost.
  rewrite (lookup_map (fun c => VFloat (to_float64 (cell_at c i)))), Hu. simpl.
  rewrite (lookup_map (fun c => VFloat (to_float64 (cell_at c i)))).
  destruct (find_column "Quantity" (df_data df)); reflexivity.
Qed.

Lemma find_column_priced_unit_price df product prices :
  find_column "Unit_Price" (df_data (priced df product prices)) =
  Some (unit_price_column product prices).
Proof. apply find_column_set_column_same. Qed.

Lemma find_column_priced_other df product prices name :
  name <> "Unit_Price"%string ->
  find_column name (df_data (priced df product prices)) = find_column name (df_data df).
Proof. intros H. apply find_column_set_column_other. assumption. Qed.

Lemma col_length_wf df name c :
  df_wf df -> find_column name (df_data df) = Some c -> col_length c = df_nrows df.
Proof.
  unfold df_wf. rewrite Forall_forall. intros Hwf Hf.
  apply (Hwf _ (find_column_In _ _ _ Hf)).
Qed.

(** ** Where the row of a position goes

    When the call returns, the row whose [total_cost] is missing is among the
    errors and not among the valid rows; any other row is among the valid
    rows only, with its cost in the Total_Cost column, as computed or as a
    float64. *)
Lemma row_partition w r df prices product rv re w' i v :
  nth_error (store w) r = Some df -> df_wf df -> NoDup (df_index df) ->
  find_column "Product" (df_data df) = Some product ->
  (i < df_nrows df)%nat ->
  total_cost (row_at (priced df product prices) i) = Ok v ->
  process_sales_data r prices w = (Ok (rv, re), w') ->
  if isna v
  then has_row (frame_of w' re) (row_label df i) /\
       ~ has_row (frame_of w' rv) (row_label df i)
  else has_row (frame_of w' rv) (row_label df i) /\
       ~ has_row (frame_of w' re) (row_label df i) /\
       exists cell,
         df_cell (frame_of w' rv) "Total_Cost" (row_label df i) = Some cell /\
         (cell = v \/ (is_float64_able v = true /\ cell = VFloat (to_float64 v))).
Proof.
  intros Hr Hwf Hnd Hp Hi Hv Hrun.
  destruct (process_sales_data_returns _ _ _ _ _ _ _ Hr Hwf Hrun)
    as [product' [cost [Hp' [Hlen [Hvalid [Herr [_ [_ Hres]]]]]]]].
  rewrite Hp in Hp'. injection Hp' as <-.
  destruct (Hres ltac:(lia)) as [results [Hm ->]].
  rewrite col_isna_infer_column in Hvalid, Herr.
  rewrite col_length_infer_column in Hlen.
  destruct (mapM_nth_error _ _ _ i _ Hm
              (nth_error_frame_rows (priced df product prices) i Hi)) as [b [Hb Hnb]].
  rewrite Hv in Hb. injection Hb as <-.
  assert (Hnv : nth i results VNone = v) by (apply nth_error_nth; assumption).
  assert (Hmi : nth i (map isna results) false = isna v).
  { rewrite (nth_map_any _ results i VNone) by lia. rewrite Hnv. reflexivity. }
  unfold has_row, row_label. rewrite Hvalid, Herr. simpl.
  unfold df_nrows in *.
  destruct (isna v) eqn:Ena.
  - split.
    + apply mask_filter_nth_In; assumption.
    + apply mask_filter_nth_not_In; assumption.
  - assert (Hneg : nth i (map negb (map isna results)) false = true).
    { apply nth_map_negb; [rewrite length_map; lia | assumption]. }
    split; [apply mask_filter_nth_In; assumption|].
    split.
    + rewrite <- (map_negb_involutive (map isna results)) at 1.
      apply mask_filter_nth_not_In; assumption.
    + unfold df_cell. simpl.
      rewrite (find_column_map (col_filter (map negb (map isna results)))).
      rewrite find_column_set_column_same. simpl.
      destruct (mask_filter_key_position (map negb (map isna results))
                  (df_index df) (col_objects (infer_column results)) i VNone Hnd)
        as [j [Hj Hc]]; try assumption.
      { rewrite col_length_objects, col_length_infer_column. assumption. }
      assert (Hcell : cell_at (col_filter (map negb (map isna results))
                                          (infer_column results)) j
                      = cell_at (infer_column results) i).
      { unfold cell_at. rewrite col_objects_filter. exact Hc. }
      rewrite Hj. eexists. split; [reflexivity|]. rewrite Hcell.
      destruct (cell_at_infer_column results i ltac:(lia)) as [E|[E1 E2]].
      * left. congruence.
      * right. rewrite Hnv in E1, E2. auto.
Qed.

(* ===================================================================== *)
(** * The example scenario *)
(* ===================================================================== *)

(** The catalogue (A at 10, B at 5) gives the price index A: 10, B: 5. *)
Example example_price_index :
  map_product_prices 0%nat (world_of catalogue)
  = (Ok catalogue_prices, world_of catalogue).
Proof. reflexivity. Qed.

(** With the sales (A, 2) and (C, 1), the run writes and prints the report
    with the total $20.00, then the valid row (A, 2, 10.0, 20.0), then the
    error row of product C.  The price of A is a float in the table because
    the missing price of C made the looked-up column float64. *)
Example example_run :
  exists w,
    main env_example initial_world = (Ok "SalesResults.txt"%string, w) /\
    files w = [("SalesResults.txt"%string, report_text "20.00" "1.00")] /\
    stdout w =
      [OutText (report_text "20.00" "1.00");
       OutFrame nl
         (mkDF [VInt 0]
               [("Product", ColObject [VStr "A"]);
                ("Quantity", ColInt64 [2]);
                ("Unit_Price", ColObject [VFloat (round_int 10)]);
                ("Total_Cost", ColFloat64 [round_int 20])]);
       OutFrame (nl ++ "Errores detectados:" ++ nl)%string
         (mkDF [VInt 1]
               [("Product", ColObject [VStr "C"]);
                ("Quantity", ColInt64 [1]);
                ("Unit_Price", ColObject [not_found]);
                ("Total_Cost", ColFloat64 [fnan])])].
Proof.
  eexists. split; [vm_compute; reflexivity|]. split; vm_compute; reflexivity.
Qed.

(* ===================================================================== *)
(** * The valid rows and the errors partition the sales table *)
(* ===================================================================== *)

Lemma mask_filter_disjoint {A} (mask : list bool) : forall (l : list A) x,
  NoDup l -> In x (mask_filter mask l) -> ~ In x (mask_filter (map negb mask) l).
Proof.
  induction mask as [|b mask IH]; intros [|a l] x Hnd; simpl; auto.
  inversion Hnd as [|? ? Hna Hnd']; subst.
  destruct b; simpl.
  - intros [->|H] H'.
    + apply Hna. eapply mask_filter_In. exact H'.
    + revert H'. apply IH; assumption.
  - intros H [->|H'].
    + apply Hna. eapply mask_filter_In. exact H.
    + revert H'. apply IH; assumption.
Qed.

(** C3.  When the sales processor returns, the valid rows and the errors
    are a partition of the input table: their sizes add up to the size of the
    input, their labels together are the labels of the input, each once; no
    label is in both when the input's labels are distinct; and both hold the
    input's cells, selected by a mask and by its complement. *)
Theorem partition_of_sales_table w r df prices rv re w' :
  nth_error (store w) r = Some df -> df_wf df ->
  process_sales_data r prices w = (Ok (rv, re), w') ->
  (df_nrows (frame_of w' rv) + df_nrows (frame_of w' re) = df_nrows df)%nat /\
  Permutation (df_index (frame_of w' rv) ++ df_index (frame_of w' re)) (df_index df) /\
  (NoDup (df_index df) ->
   forall label, ~ (has_row (frame_of w' rv) label /\ has_row (frame_of w' re) label)) /\
  exists mask,
    List.length mask = df_nrows df /\
    df_index (frame_of w' re) = mask_filter mask (df_index df) /\
    df_index (frame_of w' rv) = mask_filter (map negb mask) (df_index df) /\
    forall name col,
      name <> "Unit_Price"%string -> name <> "Total_Cost"%string ->
      find_column name (df_data df) = Some col ->
      find_column name (df_data (frame_of w' re)) = Some (col_filter mask col) /\
      find_column name (df_data (frame_of w' rv)) = Some (col_filter (map negb mask) col).
Proof.
  intros Hr Hwf Hrun.
  destruct (process_sales_data_returns _ _ _ _ _ _ _ Hr Hwf Hrun)
    as [product [cost [Hp [Hlen [Hvalid [Herr _]]]]]].
  rewrite Hvalid, Herr. unfold df_nrows, has_row. simpl.
  assert (Hm : List.length (col_isna cost) = List.length (df_index df)).
  { unfold col_isna. rewrite length_map, col_length_objects. exact Hlen. }
  split; [apply mask_filter_length; assumption|].
  split; [apply mask_filter_perm; assumption|].
  split.
  { intros Hnd label [Hv He]. revert Hv. apply mask_filter_disjoint; assumption. }
  exists (col_isna cost). split; [exact Hm|]. split; [reflexivity|]. split; [reflexivity|].
  intros name col Hn1 Hn2 Hcol.
  rewrite !(find_column_map (col_filter _)).
  unfold priced, df_setitem. simpl.
  rewrite !find_column_set_column_other by assumption.
  rewrite Hcol. split; reflexivity.
Qed.

Lemma partition_of_sales_table_witness :
  exists w',
    process_sales_data 0%nat catalogue_prices (world_of sales_sample)
    = (Ok (1%nat, 2%nat), w') /\
    (df_nrows (frame_of w' 1%nat) + df_nrows (frame_of w' 2%nat)
     = df_nrows sales_sample)%nat /\
    df_index (frame_of w' 1%nat) = [VInt 0] /\
    df_index (frame_of w' 2%nat) = [VInt 1].
Proof.
  eexists. split; [vm_compute; reflexivity|].
  split; [|split; reflexivity].
  refine (proj1 (partition_of_sales_table (world_of sales_sample) 0%nat sales_sample
                   catalogue_prices 1%nat 2%nat _ _ _ _)).
  - reflexivity.
  - repeat constructor.
  - vm_compute. reflexivity.
Defined.

(* ===================================================================== *)
(** * Rows that cannot be priced, rows of quantity zero, rows without quantity *)
(* ===================================================================== *)

(** C4.  A sale whose Product is no key of the price index gets no cost:
    the function applied to its row returns None, whatever the Quantity (the
    Quantity cell is not even read), and when the processor returns the row is
    among the errors and not among the valid rows.  The Product is a text or
    a number below 2^53 in magnitude, and it is no key when no key equals it,
    numbers being compared by value (1.0 is the key 1). *)
Theorem unknown_product_is_error w r df prices product i :
  nth_error (store w) r = Some df -> df_wf df -> NoDup (df_index df) ->
  find_column "Product" (df_data df) = Some product ->
  (i < df_nrows df)%nat ->
  plain_label (cell_at product i) = true ->
  dict_get prices (cell_at product i) = None ->
  cell_at (unit_price_column product prices) i = not_found /\
  total_cost (row_at (priced df product prices) i) = Ok VNone /\
  forall rv re w',
    process_sales_data r prices w = (Ok (rv, re), w') ->
    has_row (frame_of w' re) (row_label df i) /\
    ~ has_row (frame_of w' rv) (row_label df i).
Proof.
  intros Hr Hwf Hnd Hp Hi _ Hget.
  assert (Hup : cell_at (unit_price_column product prices) i = not_found).
  { apply unit_price_unknown; [|assumption].
    rewrite (col_length_wf _ _ _ Hwf Hp). assumption. }
  assert (Hrow : total_cost (row_at (priced df product prices) i) = Ok VNone).
  { rewrite (total_cost_object_row _ _ (unit_price_column product prices)).
    - rewrite Hup. reflexivity.
    - apply (frame_dtype_object _ "Unit_Price" (unit_price_column product prices)).
      + apply find_column_priced_unit_price.
      + pose proof (cell_at_dtype (unit_price_column product prices) i) as H.
        rewrite Hup in H. exact H.
    - apply find_column_priced_unit_price. }
  split; [exact Hup|]. split; [exact Hrow|].
  intros rv re w' Hrun.
  exact (row_partition _ _ _ _ _ _ _ _ _ _ Hr Hwf Hnd Hp Hi Hrow Hrun).
Qed.

Lemma unknown_product_is_error_witness :
  exists w',
    process_sales_data 0%nat catalogue_prices (world_of sales_zero_quantity)
    = (Ok (1%nat, 2%nat), w') /\
    cell_at (ColObject [VStr "A"; VStr "C"]) 1 = VStr "C" /\
    cell_at (ColInt64 [0; 0]) 1 = VInt 0 /\
    dict_get catalogue_prices (VStr "C") = None /\
    has_row (frame_of w' 2%nat) (VInt 1) /\
    ~ has_row (frame_of w' 1%nat) (VInt 1).
Proof.
  eexists. split; [vm_compute; reflexivity|].
  split; [reflexivity|]. split; [reflexivity|]. split; [reflexivity|].
  refine (proj2 (proj2 (unknown_product_is_error (world_of sales_zero_quantity) 0%nat
                          sales_zero_quantity catalogue_prices
                          (ColObject [VStr "A"; VStr "C"]) 1%nat _ _ _ _ _ _ _))
                1%nat 2%nat _ _).
  - reflexivity.
  - repeat constructor.
  - repeat constructor; simpl; intuition discriminate.
  - reflexivity.
  - apply Nat.ltb_lt. reflexivity.
  - reflexivity.
  - reflexivity.
  - vm_compute. reflexivity.
Defined.

Lemma float_of_int_finite z :
  float_is_finite (round_int z) = true -> float_of_int z = Ok (round_int z).
Proof.
  unfold float_of_int. destruct (round_int z); simpl; try discriminate; reflexivity.
Qed.

Lemma fmul_zero_l a b :
  float_is_zero a = true -> float_is_finite b = true ->
  float_is_zero (fmul a b) = true.
Proof. destruct a, b; simpl; try discriminate; reflexivity. Qed.

Lemma finite_number_not_na v : finite_number v = true -> isna v = false.
Proof. destruct v as [z|f| |]; simpl; try discriminate; auto. destruct f; auto. Qed.

Lemma finite_number_to_float64 v :
  finite_number v = true -> finite_number (VFloat (to_float64 v)) = true.
Proof. destruct v; simpl; try discriminate; auto. Qed.

Lemma is_zero_to_float64 v : is_zero v = true -> is_zero (VFloat (to_float64 v)) = true.
Proof.
  destruct v as [z|f| |]; simpl; try discriminate; auto.
  intros H. apply Z.eqb_eq in H. subst z. reflexivity.
Qed.

Lemma is_zero_not_na v : is_zero v = true -> isna v = false.
Proof. destruct v as [z|f| |]; simpl; try discriminate; auto. destruct f; auto. Qed.

(** Zero times a finite number is zero, in every combination of int and
    float. *)
Lemma py_mul_zero quantity unit_price :
  is_zero quantity = true -> finite_number unit_price = true ->
  exists cost, py_mul quantity unit_price = Ok cost /\ is_zero cost = true.
Proof.
  destruct quantity as [q|q| |], unit_price as [p|p| |]; simpl;
    try discriminate; intros Hq Hp.
  - apply Z.eqb_eq in Hq. subst q. eexists. split; reflexivity.
  - apply Z.eqb_eq in Hq. subst q. eexists. split; [reflexivity|].
    destruct p; simpl in *; try discriminate; reflexivity.
  - rewrite (float_of_int_finite p Hp). eexists. split; [reflexivity|].
    simpl. apply fmul_zero_l; assumption.
  - eexists. split; [reflexivity|]. simpl. apply fmul_zero_l; assumption.
Qed.

Lemma finite_number_float_is_finite v :
  finite_number v = true -> float_is_finite (to_float64 v) = true.
Proof. destruct v; simpl; try discriminate; auto. Qed.

Lemma is_zero_float_is_zero v :
  is_zero v = true -> float_is_zero (to_float64 v) = true.
Proof.
  destruct v as [z|f| |]; simpl; try discriminate; auto.
  intros H. apply Z.eqb_eq in H. subst z. reflexivity.
Qed.

(** C7, as the code has it.  A sale of a product that is in the price index
    at a price that is a finite number, with Quantity zero (as an int or as
    a float), costs zero, provided the sales table with its Unit_Price is
    not made of int64 columns only: the function applied to its row returns
    zero without an exception, and when the processor returns the row is
    among the valid rows, not among the errors, with a zero in its
    Total_Cost. *)
Theorem zero_quantity_is_valid w r df prices product quantity i price :
  nth_error (store w) r = Some df -> df_wf df -> NoDup (df_index df) ->
  find_column "Product" (df_data df) = Some product ->
  find_column "Quantity" (df_data df) = Some quantity ->
  (i < df_nrows df)%nat ->
  frame_dtype (priced df product prices) <> Int64 ->
  dict_get prices (cell_at product i) = Some price -> finite_number price = true ->
  is_zero (cell_at quantity i) = true ->
  exists cost,
    total_cost (row_at (priced df product prices) i) = Ok cost /\
    is_zero cost = true /\
    forall rv re w',
      process_sales_data r prices w = (Ok (rv, re), w') ->
      has_row (frame_of w' rv) (row_label df i) /\
      ~ has_row (frame_of w' re) (row_label df i) /\
      exists cell,
        df_cell (frame_of w' rv) "Total_Cost" (row_label df i) = Some cell /\
        is_zero cell = true.
Proof.
  intros Hr Hwf Hnd Hp Hq Hi Hnot Hget Hfin Hzero.
  assert (Hlen : (i < col_length product)%nat).
  { rewrite (col_length_wf _ _ _ Hwf Hp). assumption. }
  pose proof (unit_price_found product prices i price Hlen Hget) as Hup.
  cbv zeta in Hup. rewrite (finite_number_not_na _ Hfin) in Hup.
  assert (Hupfin : finite_number (cell_at (unit_price_column product prices) i) = true).
  { destruct Hup as [[H _] | [_ [-> | [_ ->]]]]; [discriminate | assumption |].
    apply finite_number_to_float64. assumption. }
  assert (Hq1 : find_column "Quantity" (df_data (priced df product prices))
                = Some quantity).
  { rewrite find_column_priced_other by discriminate. assumption. }
  assert (Hrow : exists cost,
             total_cost (row_at (priced df product prices) i) = Ok cost /\
             is_zero cost = true).
  { destruct (frame_dtype (priced df product prices)) eqn:Ed.
    - congruence.
    - rewrite (total_cost_float_row _ _ (unit_price_column product prices) Ed
                 (find_column_priced_unit_price _ _ _)).
      rewrite Hq1. eexists. split; [reflexivity|]. simpl.
      apply fmul_zero_l;
        [apply is_zero_float_is_zero | apply finite_number_float_is_finite]; assumption.
    - rewrite (total_cost_object_row _ _ (unit_price_column product prices) Ed
                 (find_column_priced_unit_price _ _ _)).
      rewrite Hq1.
      destruct (py_mul_zero _ _ Hzero Hupfin) as [cost [Hmul Hcost]].
      exists cost. split; [|exact Hcost].
      destruct (cell_at (unit_price_column product prices) i);
        simpl in Hupfin; try discriminate; exact Hmul. }
  destruct Hrow as [cost [Hrow Hcost]].
  exists cost. split; [exact Hrow|]. split; [exact Hcost|].
  intros rv re w' Hrun.
  pose proof (row_partition _ _ _ _ _ _ _ _ _ _ Hr Hwf Hnd Hp Hi Hrow Hrun) as H.
  rewrite (is_zero_not_na _ Hcost) in H.
  destruct H as [Hv [He [cell [Hc Hcases]]]].
  split; [exact Hv|]. split; [exact He|].
  exists cell. split; [exact Hc|].
  destruct Hcases as [-> | [_ ->]]; [assumption | apply is_zero_to_float64; assumption].
Qed.

Lemma zero_quantity_is_valid_witness :
  exists w',
    process_sales_data 0%nat catalogue_prices (world_of sales_zero_quantity)
    = (Ok (1%nat, 2%nat), w') /\
    dict_get catalogue_prices (VStr "A") = Some (VInt 10) /\
    has_row (frame_of w' 1%nat) (VInt 0) /\
    ~ has_row (frame_of w' 2%nat) (VInt 0) /\
    exists cell,
      df_cell (frame_of w' 1%nat) "Total_Cost" (VInt 0) = Some cell /\
      is_zero cell = true.
Proof.
  eexists. split; [vm_compute; reflexivity|]. split; [reflexivity|].
  destruct (zero_quantity_is_valid (world_of sales_zero_quantity) 0%nat
              sales_zero_quantity catalogue_prices
              (ColObject [VStr "A"; VStr "C"]) (ColInt64 [0; 0]) 0%nat (VInt 10))
    as [cost [_ [_ H]]].
  - reflexivity.
  - repeat constructor.
  - repeat constructor; simpl; intuition discriminate.
  - reflexivity.
  - reflexivity.
  - apply Nat.ltb_lt. reflexivity.
  - intros H. vm_compute in H. discriminate.
  - reflexivity.
  - reflexivity.
  - reflexivity.
  - apply (H 1%nat 2%nat). vm_compute. reflexivity.
Defined.

(** C7, as stated, fails on products that are in the price index.  The title
    A stands in the catalogue with the text "n/a" for a price: the sale of A
    with Quantity 0 is found in the index and returned among the errors, since
    the test of line 57 lets only numbers through.  And in a table of
    numbered products, all of whose columns are int64, the sale of product 1,
    priced 10, with Quantity 0 is returned among the errors as well: its
    Unit_Price reaches the test as a numpy.int64, which is no [int]. *)
Lemma found_product_with_zero_quantity_in_errors :
  (exists index w',
     map_product_prices 0%nat (world_of catalogue_unpriced)
     = (Ok index, world_of catalogue_unpriced) /\
     dict_get index (VStr "A") = Some (VStr "n/a") /\
     df_cell sales_zero_quantity "Product" (VInt 0) = Some (VStr "A") /\
     df_cell sales_zero_quantity "Quantity" (VInt 0) = Some (VInt 0) /\
     process_sales_data 0%nat index (world_of sales_zero_quantity)
     = (Ok (1%nat, 2%nat), w') /\
     has_row (frame_of w' 2%nat) (VInt 0) /\
     ~ has_row (frame_of w' 1%nat) (VInt 0)) /\
  (exists w',
     dict_get prices_numbered (VInt 1) = Some (VInt 10) /\
     df_cell sales_numbered_zero "Product" (VInt 0) = Some (VInt 1) /\
     df_cell sales_numbered_zero "Quantity" (VInt 0) = Some (VInt 0) /\
     process_sales_data 0%nat prices_numbered (world_of sales_numbered_zero)
     = (Ok (1%nat, 2%nat), w') /\
     has_row (frame_of w' 2%nat) (VInt 0) /\
     ~ has_row (frame_of w' 1%nat) (VInt 0)).
Proof.
  split.
  - eexists. eexists.
    split; [vm_compute; reflexivity|]. split; [reflexivity|].
    split; [reflexivity|]. split; [reflexivity|].
    split; [vm_compute; reflexivity|].
    split; [left; reflexivity|]. intros H. vm_compute in H. exact H.
  - eexists.
    split; [reflexivity|]. split; [reflexivity|]. split; [reflexivity|].
    split; [vm_compute; reflexivity|].
    split; [left; reflexivity|]. intros H. vm_compute in H. exact H.
Qed.

(** C10.  A sale of a product that is in the price index, with a missing
    Quantity (NaN), gets a cost that is missing: the function applied to its
    row returns without an exception a value that is NaN when the price is a
    number (and None when the price itself is missing or no number), and when
    the processor returns the row is among the errors and not among the valid
    rows, so that it adds nothing to the total.  An int price is taken to be
    within the range of floats, as every 64-bit int is. *)
Theorem missing_quantity_is_error w r df prices product quantity i price :
  nth_error (store w) r = Some df -> df_wf df -> NoDup (df_index df) ->
  find_column "Product" (df_data df) = Some product ->
  find_column "Quantity" (df_data df) = Some quantity ->
  (i < df_nrows df)%nat ->
  cell_at quantity i = VFloat fnan ->
  dict_get prices (cell_at product i) = Some price -> fits_float price = true ->
  exists cost,
    total_cost (row_at (priced df product prices) i) = Ok cost /\
    isna cost = true /\
    (is_number price = true -> isna price = false -> cost = VFloat fnan) /\
    forall rv re w',
      process_sales_data r prices w = (Ok (rv, re), w') ->
      has_row (frame_of w' re) (row_label df i) /\
      ~ has_row (frame_of w' rv) (row_label df i).
Proof.
  intros Hr Hwf Hnd Hp Hq Hi Hcell Hget Hfit.
  assert (Hlen : (i < col_length product)%nat).
  { rewrite (col_length_wf _ _ _ Hwf Hp). assumption. }
  pose proof (unit_price_found product prices i price Hlen Hget) as Hup.
  cbv zeta in Hup.
  assert (Hq1 : find_column "Quantity" (df_data (priced df product prices))
                = Some quantity).
  { rewrite find_column_priced_other by discriminate. assumption. }
  assert (Hrow : exists cost,
             total_cost (row_at (priced df product prices) i) = Ok cost /\
             isna cost = true /\
             (is_number price = true -> isna price = false -> cost = VFloat fnan)).
  { destruct (frame_dtype (priced df product prices)) eqn:Ed.
    - exfalso. pose proof (frame_dtype_int64 _ _ _ Ed Hq1) as H.
      pose proof (cell_at_dtype quantity i) as H'. rewrite Hcell in H'. auto.
    - rewrite (total_cost_float_row _ _ (unit_price_column product prices) Ed
                 (find_column_priced_unit_price _ _ _)).
      rewrite Hq1, Hcell. exists (VFloat fnan). auto.
    - rewrite (total_cost_object_row _ _ (unit_price_column product prices) Ed
                 (find_column_priced_unit_price _ _ _)).
      rewrite Hq1, Hcell.
      destruct Hup as [[Hna ->] | [Hna [-> | [_ ->]]]].
      + exists VNone. simpl. split; [reflexivity|]. split; [reflexivity|].
        intros _ H. congruence.
      + destruct price as [z|f|s|]; simpl in *; try discriminate.
        * rewrite (float_of_int_finite z Hfit). exists (VFloat fnan). auto.
        * exists (VFloat fnan). auto.
        * exists VNone. split; [reflexivity|]. split; [reflexivity|]. discriminate.
      + exists (VFloat fnan). auto. }
  destruct Hrow as [cost [Hrow [Hna Hnum]]].
  exists cost. split; [exact Hrow|]. split; [exact Hna|]. split; [exact Hnum|].
  intros rv re w' Hrun.
  pose proof (row_partition _ _ _ _ _ _ _ _ _ _ Hr Hwf Hnd Hp Hi Hrow Hrun) as H.
  rewrite Hna in H. exact H.
Qed.

Lemma missing_quantity_is_error_witness :
  exists w',
    process_sales_data 0%nat catalogue_prices (world_of sales_missing_quantity)
    = (Ok (1%nat, 2%nat), w') /\
    dict_get catalogue_prices (VStr "A") = Some (VInt 10) /\
    has_row (frame_of w' 2%nat) (VInt 0) /\
    ~ has_row (frame_of w' 1%nat) (VInt 0).
Proof.
  eexists. split; [vm_compute; reflexivity|]. split; [reflexivity|].
  destruct (missing_quantity_is_error (world_of sales_missing_quantity) 0%nat
              sales_missing_quantity catalogue_prices
              (ColObject [VStr "A"; VStr "B"]) (ColFloat64 [fnan; round_int 3])
              0%nat (VInt 10))
    as [cost [_ [_ [_ H]]]].
  - reflexivity.
  - repeat constructor.
  - repeat constructor; simpl; intuition discriminate.
  - reflexivity.
  - reflexivity.
  - apply Nat.ltb_lt. reflexivity.
  - reflexivity.
  - reflexivity.
  - reflexivity.
  - apply (H 1%nat 2%nat). vm_compute. reflexivity.
Defined.

(* ===================================================================== *)
(** * A Quantity that is a text *)
(* ===================================================================== *)

(** What [total_cost] makes of a row whose Quantity is a string: the guard
    of line 57 looks at the Unit_Price only, so the string is multiplied by
    an int price (repetition) or by a float price (TypeError). *)
Lemma text_quantity_cost df prices product quantity i s :
  find_column "Quantity" (df_data df) = Some quantity ->
  cell_at quantity i = VStr s ->
  total_cost (row_at (priced df product prices) i) =
  match cell_at (unit_price_column product prices) i with
  | VInt n => Ok (VStr (str_repeat s (Z.to_nat n)))
  | VFloat _ => raise TypeError "can't multiply sequence by non-int of type 'float'"
  | _ => Ok VNone
  end.
Proof.
  intros Hq Hcell.
  assert (Hq1 : find_column "Quantity" (df_data (priced df product prices))
                = Some quantity).
  { rewrite find_column_priced_other by discriminate. assumption. }
  rewrite (total_cost_object_row _ _ (unit_price_column product prices)).
  - rewrite Hq1, Hcell.
    destruct (cell_at (unit_price_column product prices) i); reflexivity.
  - apply (frame_dtype_object _ "Quantity" quantity); [assumption|].
    pose proof (cell_at_dtype quantity i) as H. rewrite Hcell in H. exact H.
  - apply find_column_priced_unit_price.
Qed.

(** C2.  The code does not divert a sale whose Quantity is a text.  With the
    int price 2 for product A, the row (A, "ab") is returned among the valid
    rows with the Total_Cost "abab" and the errors are empty; with the float
    price 2.5 the processor raises TypeError. *)
Theorem text_quantity_is_not_diverted :
  (exists w',
     process_sales_data 0%nat prices_int (world_of sales_text_quantity)
     = (Ok (1%nat, 2%nat), w') /\
     has_row (frame_of w' 1%nat) (VInt 0) /\
     df_cell (frame_of w' 1%nat) "Total_Cost" (VInt 0) = Some (VStr "abab") /\
     df_nrows (frame_of w' 2%nat) = 0%nat) /\
  raised (fst (process_sales_data 0%nat prices_float (world_of sales_text_quantity)))
  = Some TypeError.
Proof.
  split.
  - eexists. split; [vm_compute; reflexivity|].
    split; [left; reflexivity|]. split; reflexivity.
  - vm_compute. reflexivity.
Qed.

(* ===================================================================== *)
(** * The price index *)
(* ===================================================================== *)

Lemma value_eqb_eq a b : value_eqb a b = true <-> a = b.
Proof.
  unfold value_eqb. destruct (value_eq_dec a b); split; congruence.
Qed.

Lemma value_eqb_refl a : value_eqb a a = true.
Proof. apply value_eqb_eq. reflexivity. Qed.

(** [==] is an equivalence on the objects of the model. *)
Lemma py_eqb_refl a : py_eqb a a = true.
Proof.
  unfold py_eqb. destruct (exact_number a); [apply Z.eqb_refl | apply value_eqb_refl].
Qed.

Lemma py_eqb_sym a b : py_eqb a b = py_eqb b a.
Proof.
  unfold py_eqb. destruct (exact_number a), (exact_number b); try reflexivity.
  - apply Z.eqb_sym.
  - unfold value_eqb.
    destruct (value_eq_dec a b), (value_eq_dec b a); congruence.
Qed.

Lemma py_eqb_congr a b c : py_eqb a b = true -> py_eqb a c = py_eqb b c.
Proof.
  unfold py_eqb.
  destruct (exact_number a) as [x|] eqn:Ea, (exact_number b) as [y|] eqn:Eb;
    try discriminate; intros H.
  - apply Z.eqb_eq in H. subst y. reflexivity.
  - apply value_eqb_eq in H. subst b. reflexivity.
Qed.

Lemma py_eqb_other a b c : py_eqb a b = false -> py_eqb b c = true -> py_eqb a c = false.
Proof.
  intros H1 H2. rewrite py_eqb_sym, <- (py_eqb_congr _ _ a H2), py_eqb_sym. exact H1.
Qed.

(** A string equals a string with the same characters and nothing else. *)
Lemma py_eqb_str s b : py_eqb (VStr s) b = true <-> b = VStr s.
Proof.
  unfold py_eqb. simpl. destruct (exact_number b) eqn:Eb.
  - split; [discriminate | intros ->; discriminate].
  - rewrite value_eqb_eq. split; congruence.
Qed.

Lemma dict_get_dict_set d k v k' :
  dict_get (dict_set d k v) k' = if py_eqb k k' then Some v else dict_get d k'.
Proof.
  induction d as [|[k0 v0] d IH]; simpl; [reflexivity|].
  destruct (py_eqb k0 k) eqn:E0; simpl.
  - rewrite (py_eqb_congr _ _ k' E0). destruct (py_eqb k k'); reflexivity.
  - rewrite IH. destruct (py_eqb k0 k') eqn:E1; [|reflexivity].
    destruct (py_eqb k k') eqn:E2; [|reflexivity].
    rewrite (py_eqb_congr _ _ k E1), py_eqb_sym, E2 in E0. discriminate.
Qed.

Lemma dict_get_dict_of_items items k :
  dict_get (dict_of_items items) k = last_price k items.
Proof.
  unfold dict_of_items, last_price.
  change (@None value) with (dict_get [] k).
  generalize (@nil (value * value)) as d.
  induction items as [|[k0 v0] items IH]; intros d; simpl; [reflexivity|].
  rewrite IH, dict_get_dict_set. reflexivity.
Qed.

Lemma last_price_absent k items acc :
  Forall (fun k0 => py_eqb k0 k = false) (map fst items) ->
  fold_left (fun (acc : option value) (kv : value * value) =>
               if py_eqb (fst kv) k then Some (snd kv) else acc)
            items acc = acc.
Proof.
  revert acc. induction items as [|[k0 v0] items IH]; intros acc H; simpl; [reflexivity|].
  simpl in H. inversion H as [|? ? H0 H']; subst.
  rewrite IH by assumption. rewrite H0. reflexivity.
Qed.

Lemma map_fst_combine_incl {A B} (l : list A) : forall (l' : list B) a,
  In a (map fst (combine l l')) -> In a l.
Proof.
  induction l as [|x l IH]; intros [|b l'] a H; simpl in *; try contradiction.
  destruct H as [H|H]; [auto | right; eapply IH; eassumption].
Qed.

Lemma last_price_last t k before after : forall vals acc,
  (List.length before < List.length vals)%nat ->
  py_eqb t k = true ->
  Forall (fun t' => py_eqb t' t = false) after ->
  fold_left (fun (acc : option value) (kv : value * value) =>
               if py_eqb (fst kv) k then Some (snd kv) else acc)
            (combine (before ++ t :: after) vals) acc
  = Some (nth (List.length before) vals VNone).
Proof.
  induction before as [|b before IH]; intros [|v vals] acc Hlen Hk Hafter;
    simpl in *; try lia.
  - rewrite Hk. apply last_price_absent.
    apply Forall_forall. intros k0 H0.
    apply map_fst_combine_incl in H0.
    rewrite Forall_forall in Hafter.
    exact (py_eqb_other _ _ _ (Hafter _ H0) Hk).
  - apply IH; [lia | assumption | assumption].
Qed.

Lemma find_column_filter_other key key' data :
  key' <> key ->
  find_column key' (filter (fun nc => negb (String.eqb (fst nc) key)) data)
  = find_column key' data.
Proof.
  intros Hne. induction data as [|[n c] rest IH]; simpl; [reflexivity|].
  destruct (String.eqb_spec n key) as [->|Hn]; simpl.
  - destruct (String.eqb_spec key key'); [congruence | exact IH].
  - rewrite IH. reflexivity.
Qed.

(** C5.  The price index maps a title to the price of the last record of
    the catalogue that bears it: whatever stands before that record, also
    records with the same title, is overridden by it.  Titles are compared as
    the dict compares its keys (a text with a text, numbers by value), the
    title is not a missing one, and the price is found under every key
    that equals the title. *)
Theorem last_title_wins w r df titles prices before t after :
  nth_error (store w) r = Some df -> df_wf df ->
  find_column "title" (df_data df) = Some titles ->
  find_column "price" (df_data df) = Some prices ->
  col_objects titles = before ++ t :: after ->
  isna t = false ->
  Forall (fun t' => py_eqb t' t = false) after ->
  exists index,
    map_product_prices r w = (Ok index, w) /\
    forall k, py_eqb t k = true ->
              dict_get index k = Some (cell_at prices (List.length before)).
Proof.
  intros Hr Hwf Ht Hp Hsplit _ Hlast.
  assert (Hnth : nth r (store w) empty_frame = df) by (apply nth_error_nth; assumption).
  unfold map_product_prices, bindM, deref, lift. rewrite Hnth.
  unfold set_index. rewrite Ht. simpl.
  unfold df_getitem. simpl.
  rewrite find_column_filter_other, Hp by discriminate. simpl.
  eexists. split; [reflexivity|].
  intros k Hk.
  unfold to_dict. simpl. rewrite dict_get_dict_of_items, Hsplit.
  unfold last_price, cell_at. apply last_price_last; [|assumption|assumption].
  rewrite col_length_objects, (col_length_wf _ _ _ Hwf Hp),
    <- (col_length_wf _ _ _ Hwf Ht), <- col_length_objects, Hsplit, length_app.
  simpl. lia.
Qed.

Lemma last_title_wins_witness :
  exists index,
    map_product_prices 0%nat (world_of catalogue_twice)
    = (Ok index, world_of catalogue_twice) /\
    dict_get index (VStr "A") = Some (VInt 12).
Proof.
  destruct (last_title_wins (world_of catalogue_twice) 0%nat catalogue_twice
              (ColObject [VStr "A"; VStr "A"]) (ColInt64 [10; 12])
              [VStr "A"] (VStr "A") [])
    as [index [Hrun Hget]].
  - reflexivity.
  - repeat constructor.
  - reflexivity.
  - reflexivity.
  - reflexivity.
  - reflexivity.
  - constructor.
  - exists index. split; [exact Hrun | apply Hget; reflexivity].
Defined.

(* ===================================================================== *)
(** * The loader and the main function *)
(* ===================================================================== *)

(** C6.  When [pd.read_json] fails with FileNotFoundError (no such file) or
    with ValueError or its subclass JSONDecodeError (text that is no JSON, or
    JSON that makes no table), the loader prints one line that names the path
    and the error and returns a new empty table; it raises nothing. *)
Theorem load_failure_gives_empty_table env file_path w e :
  read_json env file_path = Raise e ->
  exn_cls e = FileNotFoundError \/ exn_cls e = ValueError
  \/ exn_cls e = JSONDecodeError ->
  load_json_to_dataframe env file_path w =
    (Ok (List.length (store w)),
     mkWorld (store w ++ [empty_frame])
             (stdout w ++ [load_diagnostic file_path e]) (files w)) /\
  frame_of (snd (load_json_to_dataframe env file_path w)) (List.length (store w))
  = empty_frame /\
  df_nrows empty_frame = 0%nat.
Proof.
  intros Hread Hcls.
  assert (Hrun : load_json_to_dataframe env file_path w =
                 (Ok (List.length (store w)),
                  mkWorld (store w ++ [empty_frame])
                          (stdout w ++ [load_diagnostic file_path e]) (files w))).
  { unfold load_json_to_dataframe. rewrite Hread.
    destruct Hcls as [-> | [-> | ->]]; reflexivity. }
  split; [exact Hrun|]. split; [|reflexivity].
  rewrite Hrun. unfold frame_of. simpl. apply nth_app_end.
Qed.

Lemma load_failure_gives_empty_table_witness :
  load_json_to_dataframe env_without_files "sales.json" initial_world =
  (Ok 0%nat,
   mkWorld [empty_frame]
           [OutText "Error al cargar el archivo sales.json: File sales.json does not exist"]
           []).
Proof.
  refine (proj1 (load_failure_gives_empty_table env_without_files "sales.json"
                   initial_world (missing_file "sales.json") _ _)).
  - reflexivity.
  - left. reflexivity.
Defined.

(** C1.  When both files fail to load, the run does not reach the report:
    after the two diagnostics of the loader, [map_product_prices] raises
    KeyError on the empty catalogue, which has no column "title"; nothing
    else is printed and no file is written. *)
Theorem main_stops_when_both_loads_fail env w e1 e2 :
  List.length (argv env) = 3%nat ->
  read_json env (nth 1 (argv env) "") = Raise e1 -> caught_by_loader e1 = true ->
  read_json env (nth 2 (argv env) "") = Raise e2 -> caught_by_loader e2 = true ->
  raised (fst (main env w)) = Some KeyError /\
  stdout (snd (main env w)) =
    stdout w ++ [load_diagnostic (nth 1 (argv env) "") e1;
                 load_diagnostic (nth 2 (argv env) "") e2] /\
  files (snd (main env w)) = files w.
Proof.
  intros Hargs H1 Hc1 H2 Hc2.
  unfold main. rewrite Hargs. simpl.
  unfold load_json_to_dataframe, bindM. rewrite H1, H2.
  unfold caught_by_loader in Hc1, Hc2. rewrite Hc1, Hc2.
  unfold bindM, print, alloc, map_product_prices, bindM, deref, lift. simpl.
  rewrite <- !app_assoc. simpl. rewrite nth_app_end. simpl. auto.
Qed.

Lemma main_stops_when_both_loads_fail_witness :
  raised (fst (main env_without_files initial_world)) = Some KeyError /\
  files (snd (main env_without_files initial_world)) = [].
Proof.
  destruct (main_stops_when_both_loads_fail env_without_files initial_world
              (missing_file "products.json") (missing_file "sales.json"))
    as [H1 [_ H3]]; try reflexivity.
  split; assumption.
Defined.

(* ===================================================================== *)
(** * The report *)
(* ===================================================================== *)

Lemma in_int64_iff z : in_int64 z = true <-> - 2 ^ 63 <= z < 2 ^ 63.
Proof.
  unfold in_int64. rewrite andb_true_iff, Z.leb_le, Z.ltb_lt. reflexivity.
Qed.


Lemma wrap_int64_small z : in_int64 z = true -> wrap_int64 z = z.
Proof.
  intros H. apply in_int64_iff in H. unfold wrap_int64.
  rewrite Z.mod_small by lia. lia.
Qed.



(** The halving never runs out of fuel: any fuel from the number of cells
    on gives the same sum. *)
Lemma pairwise_sum_fuel zero : forall fuel fuel' a,
  (List.length a <= fuel)%nat -> (List.length a <= fuel')%nat ->
  pairwise_sum fuel zero a = pairwise_sum fuel' zero a.
Proof.
  induction fuel as [|fuel IH]; intros fuel' a H H'.
  - destruct a; [|simpl in H; lia]. destruct fuel'; reflexivity.
  - destruct fuel' as [|fuel'].
    + destruct a; [|simpl in H'; lia]. reflexivity.
    + cbn [pairwise_sum].
      destruct (List.length a <? 8)%nat; [reflexivity|].
      destruct (Nat.leb_spec (List.length a) 128) as [Hn|Hn]; [reflexivity|].
      assert (Hdiv : (64 <= List.length a / 2 <= List.length a - 65)%nat).
      { pose proof (Nat.div_mod_eq (List.length a) 2) as Hd.
        pose proof (Nat.mod_upper_bound (List.length a) 2 ltac:(lia)). lia. }
      assert (Hmod : (List.length a / 2 mod 8 < 8)%nat)
        by (apply Nat.mod_upper_bound; lia).
      assert (Hle : (List.length a / 2 mod 8 <= List.length a / 2)%nat)
        by (apply Nat.Div0.mod_le).
      f_equal; apply IH; rewrite ?length_firstn, ?length_skipn; lia.
Qed.





(* ===================================================================== *)
(** * What the processor changes *)
(* ===================================================================== *)

(** C9, as the code has it.  The processor writes to the caller's sales
    table: line 51 sets its column Unit_Price, line 52 fills it.  That is the
    only change: the index and every other column of the caller's table stay,
    no Total_Cost is added to it, every other object, the console and the
    files stay as they were, also when the call ends in an exception; and the
    two tables returned are new objects. *)
Theorem caller_table_gains_unit_price w r df prices product :
  nth_error (store w) r = Some df ->
  find_column "Product" (df_data df) = Some product ->
  frame_of (snd (process_sales_data r prices w)) r = priced df product prices /\
  find_column "Unit_Price" (df_data (frame_of (snd (process_sales_data r prices w)) r))
  = Some (unit_price_column product prices) /\
  df_index (frame_of (snd (process_sales_data r prices w)) r) = df_index df /\
  (forall name, name <> "Unit_Price"%string ->
     find_column name (df_data (frame_of (snd (process_sales_data r prices w)) r))
     = find_column name (df_data df)) /\
  (forall r', r' <> r -> (r' < List.length (store w))%nat ->
     frame_of (snd (process_sales_data r prices w)) r' = frame_of w r') /\
  stdout (snd (process_sales_data r prices w)) = stdout w /\
  files (snd (process_sales_data r prices w)) = files w /\
  (forall rv re, fst (process_sales_data r prices w) = Ok (rv, re) ->
     rv = List.length (store w) /\ re = S (List.length (store w))).
Proof.
  destruct w as [st out fl]. cbn [store stdout files]. intros Hr Hp.
  assert (Hlt : (r < List.length st)%nat).
  { apply nth_error_Some. congruence. }
  rewrite (process_sales_data_run _ _ _ _ _ _ _ Hr Hp). cbv zeta.
  assert (Hsame : forall rest,
             nth r (list_update st r (priced df product prices) ++ rest) empty_frame
             = priced df product prices).
  { intros rest. rewrite app_nth1 by (rewrite length_list_update; assumption).
    apply nth_list_update_same. assumption. }
  assert (Hother : forall rest r', r' <> r -> (r' < List.length st)%nat ->
             nth r' (list_update st r (priced df product prices) ++ rest) empty_frame
             = nth r' st empty_frame).
  { intros rest r' Hne Hlt'.
    rewrite app_nth1 by (rewrite length_list_update; assumption).
    apply nth_list_update_other. congruence. }
  assert (Hall : forall rest,
             frame_of (mkWorld (list_update st r (priced df product prices) ++ rest)
                               out fl) r = priced df product prices /\
             forall r', r' <> r -> (r' < List.length st)%nat ->
               frame_of (mkWorld (list_update st r (priced df product prices) ++ rest)
                                 out fl) r' = frame_of (mkWorld st out fl) r').
  { intros rest. split; [apply Hsame | apply Hother]. }
  destruct (bind _ _) as [df2|e]; cbn [fst snd stdout files].
  - destruct (Hall [df_select (map negb (cost_isna df2)) df2;
                    df_select (cost_isna df2) df2]) as [Hf Ho].
    rewrite Hf.
    split; [reflexivity|]. split; [apply find_column_priced_unit_price|].
    split; [reflexivity|].
    split; [intros name Hn; apply find_column_priced_other; assumption|].
    split; [exact Ho|]. split; [reflexivity|]. split; [reflexivity|].
    intros rv re H. injection H as <- <-. auto.
  - destruct (Hall []) as [Hf Ho]. rewrite app_nil_r in Hf, Ho.
    rewrite Hf.
    split; [reflexivity|]. split; [apply find_column_priced_unit_price|].
    split; [reflexivity|].
    split; [intros name Hn; apply find_column_priced_other; assumption|].
    split; [exact Ho|]. split; [reflexivity|]. split; [reflexivity|].
    intros rv re H. discriminate.
Qed.

Lemma caller_table_gains_unit_price_witness :
  frame_of (snd (process_sales_data 0%nat catalogue_prices (world_of sales_sample)))
           0%nat
  = priced sales_sample (ColObject [VStr "A"; VStr "C"]) catalogue_prices.
Proof.
  refine (proj1 (caller_table_gains_unit_price (world_of sales_sample) 0%nat
                   sales_sample catalogue_prices (ColObject [VStr "A"; VStr "C"]) _ _)).
  - reflexivity.
  - reflexivity.
Defined.

(** C9, as stated, fails: after the call on the sales of the example
    scenario, the caller's table has a third column, Unit_Price, which it
    did not have before. *)
Lemma sales_table_is_changed :
  let before := sales_sample in
  let after :=
    frame_of (snd (process_sales_data 0%nat catalogue_prices (world_of before))) 0%nat in
  after <> before /\
  df_columns before = ["Product"; "Quantity"]%string /\
  df_columns after = ["Product"; "Quantity"; "Unit_Price"]%string /\
  find_column "Unit_Price" (df_data after)
  = Some (ColObject [VFloat (round_int 10); not_found]).
Proof.
  cbv zeta. split; [|split; [|split]]; try (vm_compute; reflexivity).
  intros H. apply (f_equal df_columns) in H. vm_compute in H. discriminate.
Qed.

(* ===================================================================== *)
(** * The command line, the loader and the writer *)
(* ===================================================================== *)

(** X1.  With any number of command-line words other than three (the
    program name and two paths), the run prints the usage message and ends
    with SystemExit; no file is read, nothing is stored or written. *)
Theorem main_rejects_other_argument_counts env w :
  List.length (argv env) <> 3%nat ->
  main env w = (raise SystemExit "1",
                mkWorld (store w) (stdout w ++ [usage_message]) (files w)).
Proof.
  intros H. unfold main.
  destruct (Nat.eqb_spec (List.length (argv env)) 3); [contradiction|].
  reflexivity.
Qed.

Lemma main_rejects_other_argument_counts_witness :
  raised (fst (main env_without_arguments initial_world)) = Some SystemExit.
Proof.
  rewrite (main_rejects_other_argument_counts env_without_arguments initial_world).
  - reflexivity.
  - simpl. discriminate.
Defined.

(** X2.  The loader swallows only what its except clause names.  A failure
    of [pd.read_json] with another exception (PermissionError or another
    OSError for a file that cannot be read, TypeError, KeyError,
    OverflowError) leaves the loader as that exception: no diagnostic is
    printed and no table is returned. *)
Theorem loader_passes_other_exceptions env file_path w e :
  read_json env file_path = Raise e ->
  In (exn_cls e) [PermissionError; OSError; TypeError; KeyError; OverflowError] ->
  load_json_to_dataframe env file_path w = (Raise e, w).
Proof.
  intros Hread Hcls. unfold load_json_to_dataframe. rewrite Hread.
  simpl in Hcls.
  destruct Hcls as [<- | [<- | [<- | [<- | [<- | []]]]]]; reflexivity.
Qed.

Lemma loader_passes_other_exceptions_witness :
  raised (fst (load_json_to_dataframe env_unreadable "sales.json" initial_world))
  = Some PermissionError.
Proof.
  rewrite (loader_passes_other_exceptions env_unreadable "sales.json" initial_world
             (permission_denied "sales.json")).
  - reflexivity.
  - reflexivity.
  - left. reflexivity.
Defined.

(** X3.  The writer does not raise when the file cannot be opened: for
    FileNotFoundError, PermissionError and any other OSError it prints one
    line with the path and the error, and no file is written. *)
Theorem save_failure_is_reported env report file_path w e :
  open_for_writing env file_path = Raise e ->
  In (exn_cls e) [FileNotFoundError; PermissionError; OSError] ->
  save_report_to_file env report file_path w =
  (Ok tt, mkWorld (store w) (stdout w ++ [save_diagnostic file_path e]) (files w)).
Proof.
  intros Hopen Hcls. unfold save_report_to_file. rewrite Hopen.
  simpl in Hcls. destruct Hcls as [<- | [<- | [<- | []]]]; reflexivity.
Qed.

Lemma save_failure_is_reported_witness :
  save_report_to_file env_read_only "total" "SalesResults.txt" initial_world =
  (Ok tt,
   mkWorld [] [save_diagnostic "SalesResults.txt" (permission_denied "SalesResults.txt")]
           []).
Proof.
  refine (save_failure_is_reported env_read_only "total" "SalesResults.txt"
            initial_world (permission_denied "SalesResults.txt") _ _).
  - reflexivity.
  - right. left. reflexivity.
Defined.

(* ===================================================================== *)
(** * More on the price index *)
(* ===================================================================== *)

Lemma map_product_prices_eq r w :
  map_product_prices r w = (price_index (frame_of w r), w).
Proof. reflexivity. Qed.

(** X4.  A catalogue without the column "title", or with it but without
    the column "price", has no price index: [map_product_prices] raises
    KeyError.  It changes nothing in either case. *)
Theorem price_index_needs_title_and_price w r :
  find_column "title" (df_data (frame_of w r)) = None \/
  find_column "price" (df_data (frame_of w r)) = None ->
  raised (fst (map_product_prices r w)) = Some KeyError /\
  snd (map_product_prices r w) = w.
Proof.
  intros H. rewrite map_product_prices_eq. split; [|reflexivity].
  unfold price_index, set_index. simpl.
  destruct (find_column "title" (df_data (frame_of w r))) as [titles|] eqn:Et;
    [|reflexivity].
  destruct H as [H|H]; [discriminate|].
  simpl. unfold df_getitem. simpl.
  rewrite find_column_filter_other, H by discriminate. reflexivity.
Qed.

Lemma price_index_needs_title_and_price_witness :
  raised (fst (map_product_prices 0%nat (world_of sales_sample))) = Some KeyError.
Proof.
  refine (proj1 (price_index_needs_title_and_price (world_of sales_sample) 0%nat _)).
  left. reflexivity.
Defined.

Lemma In_keys_dict_set d k v x :
  In x (map fst (dict_set d k v)) -> x = k \/ In x (map fst d).
Proof.
  induction d as [|[k0 v0] d IH]; simpl.
  - intuition.
  - destruct (py_eqb k0 k) eqn:E; simpl; intuition.
Qed.

Lemma distinct_keys_dict_set d k v :
  distinct_keys d -> distinct_keys (dict_set d k v).
Proof.
  unfold distinct_keys.
  induction d as [|[k0 v0] d IH]; simpl; intros Hd.
  - constructor; constructor.
  - inversion Hd as [|? ? Hk0 Hd']; subst.
    destruct (py_eqb k0 k) eqn:E; simpl.
    + constructor; assumption.
    + constructor; [|apply IH; assumption].
      apply Forall_forall. intros x Hx.
      destruct (In_keys_dict_set _ _ _ _ Hx) as [-> | Hx']; [exact E|].
      rewrite Forall_forall in Hk0. apply Hk0. assumption.
Qed.

Lemma distinct_keys_dict_of_items items : distinct_keys (dict_of_items items).
Proof.
  unfold dict_of_items.
  assert (H : distinct_keys []) by apply FOP_nil.
  revert H. generalize (@nil (value * value)) as d.
  induction items as [|[k v] items IH]; intros d Hd; simpl; [assumption|].
  apply IH. apply distinct_keys_dict_set. assumption.
Qed.

Lemma In_keys_fold_dict_set x items : forall d,
  In x (map fst (fold_left (fun d kv => dict_set d (fst kv) (snd kv)) items d)) ->
  In x (map fst d) \/ In x (map fst items).
Proof.
  induction items as [|[k v] items IH]; intros d H; simpl in *; [auto|].
  destruct (IH _ H) as [H1|H1]; [|auto].
  destruct (In_keys_dict_set _ _ _ _ H1) as [->|H2]; auto.
Qed.

Lemma In_keys_dict_of_items items x :
  In x (map fst (dict_of_items items)) -> In x (map fst items).
Proof.
  intros H. destruct (In_keys_fold_dict_set _ _ _ H) as [H1|H1];
    [contradiction | assumption].
Qed.

Lemma last_price_from_some k items : forall (acc : option value) v,
  fold_left (fun (acc : option value) (kv : value * value) =>
               if py_eqb (fst kv) k then Some (snd kv) else acc) items acc
  = Some v ->
  acc = Some v \/ exists k0, py_eqb k0 k = true /\ In (k0, v) items.
Proof.
  induction items as [|[k0 v0] items IH]; intros acc v H; simpl in *; [auto|].
  destruct (IH _ _ H) as [H1 | [k1 [H1 H2]]]; [|right; eauto].
  destruct (py_eqb k0 k) eqn:E; [|auto].
  injection H1 as ->. right. eauto.
Qed.

Lemma last_price_from_none k items : forall (acc : option value),
  fold_left (fun (acc : option value) (kv : value * value) =>
               if py_eqb (fst kv) k then Some (snd kv) else acc) items acc
  = None <->
  acc = None /\ Forall (fun k0 => py_eqb k0 k = false) (map fst items).
Proof.
  induction items as [|[k0 v0] items IH]; intros acc; simpl.
  - split; [auto | tauto].
  - rewrite IH. destruct (py_eqb k0 k) eqn:E.
    + split; [intros [H _]; discriminate|].
      intros [_ H]. inversion H; subst. congruence.
    + split; [intros [H1 H2]; auto | intros [H1 H2]; inversion H2; auto].
Qed.

Lemma map_fst_combine {A B} (l : list A) : forall (l' : list B),
  List.length l = List.length l' -> map fst (combine l l') = l.
Proof.
  induction l as [|a l IH]; intros [|b l'] H; simpl in *; try discriminate; auto.
  rewrite IH by lia. reflexivity.
Qed.

(** X5.  From a catalogue that has its two columns and no missing title,
    [map_product_prices] returns a price index whose keys are titles of the
    catalogue, no two of them equal, and it changes nothing.  A key is found
    in the index exactly when a title equals it, and the price found is a
    cell of the column "price" that stands in a record with such a title.
    Titles are compared as the dict compares its keys: a text with a text,
    numbers by value. *)
Theorem price_index_keys_are_titles w r df titles prices :
  nth_error (store w) r = Some df -> df_wf df ->
  find_column "title" (df_data df) = Some titles ->
  find_column "price" (df_data df) = Some prices ->
  Forall (fun t => isna t = false) (col_objects titles) ->
  exists index,
    map_product_prices r w = (Ok index, w) /\
    (forall k, In k (map fst index) -> In k (col_objects titles)) /\
    distinct_keys index /\
    (forall k, dict_get index k <> None <->
               exists t, In t (col_objects titles) /\ py_eqb t k = true) /\
    (forall k v, dict_get index k = Some v ->
                 exists t, py_eqb t k = true /\
                           In (t, v) (combine (col_objects titles) (col_objects prices))).
Proof.
  intros Hr Hwf Ht Hp _.
  assert (Hnth : nth r (store w) empty_frame = df) by (apply nth_error_nth; assumption).
  unfold map_product_prices, bindM, deref, lift. rewrite Hnth.
  unfold set_index. rewrite Ht. simpl.
  unfold df_getitem. simpl.
  rewrite find_column_filter_other, Hp by discriminate. simpl.
  eexists. split; [reflexivity|].
  unfold to_dict. simpl.
  assert (Hlen : List.length (col_objects titles) = List.length (col_objects prices)).
  { rewrite !col_length_objects, (col_length_wf _ _ _ Hwf Ht),
      (col_length_wf _ _ _ Hwf Hp). reflexivity. }
  split.
  { intros k Hk. apply In_keys_dict_of_items in Hk.
    rewrite map_fst_combine in Hk by assumption. exact Hk. }
  split; [apply distinct_keys_dict_of_items|]. split.
  - intros k. rewrite dict_get_dict_of_items. unfold last_price.
    rewrite last_price_from_none, map_fst_combine by assumption.
    split.
    + intros H.
      destruct (existsb (fun t => py_eqb t k) (col_objects titles)) eqn:E.
      * apply existsb_exists in E. exact E.
      * exfalso. apply H. split; [reflexivity|].
        apply Forall_forall. intros t Hin.
        destruct (py_eqb t k) eqn:Et; [|reflexivity].
        exfalso. apply Bool.diff_false_true. rewrite <- E.
        apply existsb_exists. eauto.
    + intros [t [Hin Et]] [_ HF]. rewrite Forall_forall in HF.
      specialize (HF t Hin). congruence.
  - intros k v. rewrite dict_get_dict_of_items. unfold last_price. intros H.
    destruct (last_price_from_some _ _ _ _ H) as [H'|H']; [discriminate | assumption].
Qed.

Lemma price_index_keys_are_titles_witness :
  exists index,
    map_product_prices 0%nat (world_of catalogue) = (Ok index, world_of catalogue) /\
    distinct_keys index /\
    (dict_get index (VStr "C") <> None <->
     exists t, In t [VStr "A"; VStr "B"] /\ py_eqb t (VStr "C") = true).
Proof.
  destruct (price_index_keys_are_titles (world_of catalogue) 0%nat catalogue
              (ColObject [VStr "A"; VStr "B"]) (ColInt64 [10; 5]))
    as [index [Hrun [_ [Hd [Hk _]]]]].
  - reflexivity.
  - repeat constructor.
  - reflexivity.
  - reflexivity.
  - repeat constructor.
  - exists index. split; [exact Hrun|]. split; [exact Hd | exact (Hk (VStr "C"))].
Defined.

(* ===================================================================== *)
(** * More on the sales processor *)
(* ===================================================================== *)

(** X6.  On a sales table without the column "Product" (the empty table of
    a failed load is one) the processor raises KeyError at line 51, before
    it has changed anything. *)
Theorem processor_needs_product_column w r prices :
  find_column "Product" (df_data (frame_of w r)) = None ->
  process_sales_data r prices w = (raise KeyError "'Product'", w).
Proof.
  destruct w as [st out fl]. unfold frame_of. cbn [store]. intros H.
  apply process_sales_data_no_product. assumption.
Qed.

Lemma processor_needs_product_column_witness :
  process_sales_data 0%nat catalogue_prices (world_of empty_frame)
  = (raise KeyError "'Product'", world_of empty_frame).
Proof.
  apply (processor_needs_product_column (world_of empty_frame) 0%nat catalogue_prices).
  reflexivity.
Defined.

Lemma mask_filter_all {A} (p : A -> bool) (l : list A) :
  Forall (fun a => p a = true) (mask_filter (map p l) l).
Proof.
  induction l as [|a l IH]; simpl; [constructor|].
  destruct (p a) eqn:E; [constructor|]; assumption.
Qed.

Lemma mask_filter_none {A} (p : A -> bool) (l : list A) :
  Forall (fun a => p a = false) (mask_filter (map negb (map p l)) l).
Proof.
  induction l as [|a l IH]; simpl; [constructor|].
  destruct (p a) eqn:E; simpl; [|constructor]; assumption.
Qed.

(** X7.  When the processor returns, both tables have the column
    Total_Cost; in the errors every cell of it is missing (None or NaN), in
    the valid rows none is. *)
Theorem costs_are_missing_exactly_in_errors w r df prices rv re w' :
  nth_error (store w) r = Some df -> df_wf df ->
  process_sales_data r prices w = (Ok (rv, re), w') ->
  exists valid_costs error_costs,
    find_column "Total_Cost" (df_data (frame_of w' rv)) = Some valid_costs /\
    find_column "Total_Cost" (df_data (frame_of w' re)) = Some error_costs /\
    Forall (fun v => isna v = false) (col_objects valid_costs) /\
    Forall (fun v => isna v = true) (col_objects error_costs).
Proof.
  intros Hr Hwf Hrun.
  destruct (process_sales_data_returns _ _ _ _ _ _ _ Hr Hwf Hrun)
    as [product [cost [_ [_ [Hvalid [Herr _]]]]]].
  rewrite Hvalid, Herr. simpl.
  rewrite !(find_column_map (col_filter _)), !find_column_set_column_same. simpl.
  eexists. eexists. split; [reflexivity|]. split; [reflexivity|].
  rewrite !col_objects_filter. unfold col_isna.
  split; [apply mask_filter_none | apply mask_filter_all].
Qed.

Lemma costs_are_missing_exactly_in_errors_witness :
  exists w' valid_costs error_costs,
    process_sales_data 0%nat catalogue_prices (world_of sales_sample)
    = (Ok (1%nat, 2%nat), w') /\
    find_column "Total_Cost" (df_data (frame_of w' 1%nat)) = Some valid_costs /\
    find_column "Total_Cost" (df_data (frame_of w' 2%nat)) = Some error_costs /\
    Forall (fun v => isna v = false) (col_objects valid_costs) /\
    Forall (fun v => isna v = true) (col_objects error_costs).
Proof.
  eexists.
  destruct (costs_are_missing_exactly_in_errors (world_of sales_sample) 0%nat
              sales_sample catalogue_prices 1%nat 2%nat
              (snd (process_sales_data 0%nat catalogue_prices (world_of sales_sample))))
    as [cv [ce H]].
  - reflexivity.
  - repeat constructor.
  - vm_compute. reflexivity.
  - exists cv, ce. split; [vm_compute; reflexivity | exact H].
Defined.

Lemma In_names_set_column key c data n :
  In n (map fst (set_column key c data)) <-> n = key \/ In n (map fst data).
Proof.
  induction data as [|[n0 c0] data IH]; simpl.
  - intuition.
  - destruct (String.eqb_spec n0 key) as [->|Hne]; simpl.
    + intuition.
    + rewrite IH. intuition.
Qed.

Lemma df_columns_select mask df : df_columns (df_select mask df) = df_columns df.
Proof.
  unfold df_columns, df_select. simpl. rewrite map_map. reflexivity.
Qed.

(** X8.  When the processor returns, the valid rows and the errors have
    the same columns in the same order: those of the input and the two
    derived ones, Unit_Price and Total_Cost, and no other. *)
Theorem partitions_have_the_same_columns w r df prices rv re w' :
  nth_error (store w) r = Some df -> df_wf df ->
  process_sales_data r prices w = (Ok (rv, re), w') ->
  df_columns (frame_of w' rv) = df_columns (frame_of w' re) /\
  forall name,
    In name (df_columns (frame_of w' rv)) <->
    In name (df_columns df) \/ name = "Unit_Price"%string \/ name = "Total_Cost"%string.
Proof.
  intros Hr Hwf Hrun.
  destruct (process_sales_data_returns _ _ _ _ _ _ _ Hr Hwf Hrun)
    as [product [cost [_ [_ [Hvalid [Herr _]]]]]].
  rewrite Hvalid, Herr, !df_columns_select. split; [reflexivity|].
  intros name. unfold df_columns, priced, df_setitem. simpl.
  rewrite !In_names_set_column. intuition.
Qed.

Lemma partitions_have_the_same_columns_witness :
  exists w',
    process_sales_data 0%nat catalogue_prices (world_of sales_sample)
    = (Ok (1%nat, 2%nat), w') /\
    df_columns (frame_of w' 1%nat) = df_columns (frame_of w' 2%nat).
Proof.
  eexists. split; [vm_compute; reflexivity|].
  refine (proj1 (partitions_have_the_same_columns (world_of sales_sample) 0%nat
                   sales_sample catalogue_prices 1%nat 2%nat _ _ _ _)).
  - reflexivity.
  - repeat constructor.
  - vm_compute. reflexivity.
Defined.

Lemma subseq_mask_filter {A} (mask : list bool) : forall (l : list A),
  subseq (mask_filter mask l) l.
Proof.
  assert (Hnil : forall l : list A, subseq [] l).
  { induction l; constructor; assumption. }
  induction mask as [|b mask IH]; intros [|a l]; simpl; try apply Hnil.
  destruct b; constructor; apply IH.
Qed.

(** X9.  When the processor returns, the rows keep their order: the labels
    of the valid rows, and those of the errors, are the labels of the input
    with some left out and none moved. *)
Theorem partitions_keep_the_row_order w r df prices rv re w' :
  nth_error (store w) r = Some df -> df_wf df ->
  process_sales_data r prices w = (Ok (rv, re), w') ->
  subseq (df_index (frame_of w' rv)) (df_index df) /\
  subseq (df_index (frame_of w' re)) (df_index df).
Proof.
  intros Hr Hwf Hrun.
  destruct (process_sales_data_returns _ _ _ _ _ _ _ Hr Hwf Hrun)
    as [product [cost [_ [_ [Hvalid [Herr _]]]]]].
  rewrite Hvalid, Herr. simpl. split; apply subseq_mask_filter.
Qed.

Lemma partitions_keep_the_row_order_witness :
  exists w',
    process_sales_data 0%nat catalogue_prices (world_of sales_sample)
    = (Ok (1%nat, 2%nat), w') /\
    subseq (df_index (frame_of w' 1%nat)) (df_index sales_sample).
Proof.
  eexists. split; [vm_compute; reflexivity|].
  refine (proj1 (partitions_keep_the_row_order (world_of sales_sample) 0%nat
                   sales_sample catalogue_prices 1%nat 2%nat _ _ _ _)).
  - reflexivity.
  - repeat constructor.
  - vm_compute. reflexivity.
Defined.

(** ** Tables whose rows all go one way *)

Lemma mapM_rows {A B} (f : A -> result B) (row : nat -> A) (g : nat -> B) :
  forall n s,
    (forall i, (s <= i < s + n)%nat -> f (row i) = Ok (g i)) ->
    mapM f (map row (seq s n)) = Ok (map g (seq s n)).
Proof.
  induction n as [|n IH]; intros s H; simpl; [reflexivity|].
  rewrite H by lia. rewrite IH; [reflexivity|].
  intros i Hi. apply H. lia.
Qed.

Lemma mask_filter_all_true {A} (mask : list bool) : forall (l : list A),
  Forall (fun b => b = true) mask -> List.length mask = List.length l ->
  mask_filter mask l = l.
Proof.
  induction mask as [|b mask IH]; intros [|a l] Hall Hlen; simpl in *;
    try discriminate; [reflexivity|].
  inversion Hall; subst. rewrite IH by (auto; lia). reflexivity.
Qed.

Lemma mask_filter_all_false {A} (mask : list bool) : forall (l : list A),
  Forall (fun b => b = false) mask -> mask_filter mask l = [].
Proof.
  induction mask as [|b mask IH]; intros [|a l] Hall; simpl; try reflexivity.
  inversion Hall; subst. apply IH. assumption.
Qed.

Lemma col_filter_all_true mask c :
  Forall (fun b => b = true) mask -> List.length mask = col_length c ->
  col_filter mask c = c.
Proof.
  intros Hall Hlen. destruct c as [l|l|l]; simpl in *;
    rewrite mask_filter_all_true by assumption; reflexivity.
Qed.

Lemma df_select_all_true mask df :
  df_wf df -> Forall (fun b => b = true) mask -> List.length mask = df_nrows df ->
  df_select mask df = df.
Proof.
  intros Hwf Hall Hlen. destruct df as [idx data]. unfold df_select, df_wf in *.
  simpl in *. rewrite mask_filter_all_true by assumption. f_equal.
  induction data as [|[n c] data IH]; simpl; [reflexivity|].
  inversion Hwf; subst. simpl in *.
  rewrite col_filter_all_true, IH by (auto; congruence). reflexivity.
Qed.

Lemma df_nrows_select_all_false mask df :
  Forall (fun b => b = false) mask -> df_nrows (df_select mask df) = 0%nat.
Proof.
  intros Hall. unfold df_nrows, df_select. simpl.
  rewrite mask_filter_all_false by assumption. reflexivity.
Qed.

Lemma Forall_map_const {A B} (P : B -> Prop) (b : B) (l : list A) :
  P b -> Forall P (map (fun _ => b) l).
Proof. intros H. induction l; simpl; constructor; assumption. Qed.

(** The run on a table with rows, from the results of [total_cost]. *)
Lemma process_sales_data_by_rows st out fl r df prices c results :
  nth_error st r = Some df ->
  find_column "Product" (df_data df) = Some c ->
  (0 < df_nrows df)%nat ->
  mapM total_cost (frame_rows (priced df c prices)) = Ok results ->
  process_sales_data r prices (mkWorld st out fl) =
  (Ok (List.length st, S (List.length st)),
   mkWorld (list_update st r (priced df c prices) ++
            [df_select (map negb (map isna results))
                       (df_setitem (priced df c prices) "Total_Cost"
                                   (infer_column results));
             df_select (map isna results)
                       (df_setitem (priced df c prices) "Total_Cost"
                                   (infer_column results))]) out fl).
Proof.
  intros Hr Hc Hpos Hm.
  rewrite (process_sales_data_run _ _ _ _ _ _ _ Hr Hc). cbv zeta.
  unfold df_apply_rows. rewrite df_is_empty_priced.
  destruct (Nat.eqb_spec (df_nrows df) 0); [lia|].
  rewrite Hm. simpl.
  unfold cost_isna. simpl. rewrite find_column_set_column_same.
  rewrite col_isna_infer_column. reflexivity.
Qed.

Lemma existsb_is_number_none (l : list nat) :
  existsb is_number (map (fun _ => VNone) l) = false.
Proof. induction l; simpl; auto. Qed.

Lemma infer_column_none (l : list nat) :
  infer_column (map (fun _ => VNone) l) = ColObject (map (fun _ => VNone) l).
Proof.
  destruct l as [|a l]; [reflexivity|].
  unfold infer_column. simpl.
  rewrite existsb_is_number_none, andb_false_r. reflexivity.
Qed.

(** When [total_cost] gives None on every row, the call returns, the errors
    are the whole table with its two derived columns, no row is valid, and
    the report on the valid rows has the total 0.00. *)
Lemma rows_without_cost env st out fl r df prices c elapsed :
  nth_error st r = Some df -> df_wf df ->
  find_column "Product" (df_data df) = Some c ->
  (0 < df_nrows df)%nat ->
  (forall i, (i < df_nrows df)%nat ->
             total_cost (row_at (priced df c prices) i) = Ok VNone) ->
  exists w',
    process_sales_data r prices (mkWorld st out fl)
    = (Ok (List.length st, S (List.length st)), w') /\
    frame_of w' (S (List.length st)) =
      df_setitem (priced df c prices) "Total_Cost"
                 (ColObject (map (fun _ => VNone) (seq 0 (df_nrows df)))) /\
    df_nrows (frame_of w' (List.length st)) = 0%nat /\
    generate_sales_report env (List.length st) (VFloat elapsed) w'
    = (Ok (report_text "0.00" (format_float_2f elapsed)), w').
Proof.
  intros Hr Hwf Hc Hpos Hrows.
  set (none := map (fun _ : nat => VNone) (seq 0 (df_nrows df))).
  assert (Hm : mapM total_cost (frame_rows (priced df c prices)) = Ok none).
  { unfold frame_rows.
    change (df_nrows (priced df c prices)) with (df_nrows df).
    apply mapM_rows. intros i Hi. apply Hrows. lia. }
  rewrite (process_sales_data_by_rows _ _ _ _ _ _ _ _ Hr Hc Hpos Hm).
  unfold none at 1 2 3 4. rewrite !infer_column_none. fold none.
  assert (Htrue : Forall (fun b => b = true) (map isna none)).
  { unfold none. rewrite map_map. apply Forall_map_const. reflexivity. }
  assert (Hfalse : Forall (fun b => b = false) (map negb (map isna none))).
  { unfold none. rewrite !map_map. apply Forall_map_const. reflexivity. }
  assert (Hlen : List.length (map isna none) = df_nrows df).
  { unfold none. rewrite !length_map, length_seq. reflexivity. }
  assert (Hwf2 : df_wf (df_setitem (priced df c prices) "Total_Cost" (ColObject none))).
  { apply df_wf_setitem; [apply df_wf_priced; assumption|].
    simpl. unfold none. rewrite length_map, length_seq. reflexivity. }
  eexists. split; [reflexivity|].
  unfold frame_of. cbn [store].
  rewrite <- (length_list_update st r (priced df c prices)).
  rewrite nth_app_end.
  rewrite app_nth2 by lia.
  replace (S (List.length (list_update st r (priced df c prices)))
           - List.length (list_update st r (priced df c prices)))%nat with 1%nat by lia.
  cbn [nth].
  split; [apply df_select_all_true; assumption|].
  split; [apply df_nrows_select_all_false; assumption|].
  unfold generate_sales_report, bindM, deref, lift, ret. cbn [store].
  rewrite nth_app_end.
  unfold df_getitem. cbn [df_data df_select df_setitem].
  rewrite (find_column_map (col_filter _)), find_column_set_column_same.
  cbn [option_map s_values col_filter].
  rewrite mask_filter_all_false by assumption. reflexivity.
Qed.

Lemma total_cost_unknown df prices product i :
  df_wf df -> find_column "Product" (df_data df) = Some product ->
  (i < df_nrows df)%nat ->
  dict_get prices (cell_at product i) = None ->
  total_cost (row_at (priced df product prices) i) = Ok VNone.
Proof.
  intros Hwf Hp Hi Hget.
  assert (Hup : cell_at (unit_price_column product prices) i = not_found).
  { apply unit_price_unknown; [|assumption].
    rewrite (col_length_wf _ _ _ Hwf Hp). assumption. }
  rewrite (total_cost_object_row _ _ (unit_price_column product prices)).
  - rewrite Hup. reflexivity.
  - apply (frame_dtype_object _ "Unit_Price" (unit_price_column product prices)).
    + apply find_column_priced_unit_price.
    + pose proof (cell_at_dtype (unit_price_column product prices) i) as H.
      rewrite Hup in H. exact H.
  - apply find_column_priced_unit_price.
Qed.

(** X10.  When no product of a sales table with rows is a key of the price
    index (with an empty price index, for one), the processor returns: every
    row is an error, no row is valid, and the report on the valid rows shows
    the total 0.00.  The products are texts or numbers below 2^53 in
    magnitude, and a product is no key when no key equals it, numbers being
    compared by value. *)
Theorem unknown_products_give_the_zero_report env w r df prices product elapsed :
  nth_error (store w) r = Some df -> df_wf df ->
  find_column "Product" (df_data df) = Some product ->
  (0 < df_nrows df)%nat ->
  (forall i, (i < df_nrows df)%nat ->
             plain_label (cell_at product i) = true /\
             dict_get prices (cell_at product i) = None) ->
  exists w',
    process_sales_data r prices w
    = (Ok (List.length (store w), S (List.length (store w))), w') /\
    df_index (frame_of w' (S (List.length (store w)))) = df_index df /\
    df_nrows (frame_of w' (List.length (store w))) = 0%nat /\
    generate_sales_report env (List.length (store w)) (VFloat elapsed) w'
    = (Ok (report_text "0.00" (format_float_2f elapsed)), w').
Proof.
  destruct w as [st out fl]. cbn [store]. intros Hr Hwf Hp Hpos Hnone.
  destruct (rows_without_cost env st out fl r df prices product elapsed Hr Hwf Hp Hpos)
    as [w' [Hrun [Herr [Hvalid Hrep]]]].
  { intros i Hi. apply total_cost_unknown; auto. apply Hnone. assumption. }
  exists w'. split; [exact Hrun|]. split; [rewrite Herr; reflexivity|].
  split; assumption.
Qed.

Lemma unknown_products_give_the_zero_report_witness :
  exists w',
    process_sales_data 0%nat [] (world_of sales_sample) = (Ok (1%nat, 2%nat), w') /\
    df_index (frame_of w' 2%nat) = df_index sales_sample /\
    df_nrows (frame_of w' 1%nat) = 0%nat /\
    generate_sales_report env_example 1%nat (VFloat (round_int 1)) w'
    = (Ok (report_text "0.00" "1.00"), w').
Proof.
  refine (unknown_products_give_the_zero_report env_example (world_of sales_sample)
            0%nat sales_sample [] (ColObject [VStr "A"; VStr "C"]) (round_int 1)
            _ _ _ _ _).
  - reflexivity.
  - repeat constructor.
  - reflexivity.
  - apply Nat.ltb_lt. reflexivity.
  - intros i Hi. assert (Hi' : (i < 2)%nat) by exact Hi.
    destruct i as [|[|i]]; [split; reflexivity | split; reflexivity | lia].
Defined.

(** ** Tables priced in ints *)

Lemma dict_as_column_ints (prices : py_dict) :
  prices <> [] ->
  Forall (fun kv => is_int64_obj (snd kv) = true) prices ->
  dict_as_column prices = ColInt64 (map int_of_obj (map snd prices)).
Proof.
  intros Hne Hall. destruct prices as [|kv rest]; [congruence|].
  assert (E : forallb is_int64_obj (map snd (kv :: rest)) = true).
  { apply forallb_forall. intros v Hv. apply in_map_iff in Hv.
    destruct Hv as [kv' [<- Hin]]. rewrite Forall_forall in Hall. auto. }
  unfold dict_as_column, infer_column.
  change (map snd (kv :: rest)) with (snd kv :: map snd rest) in *.
  cbv beta iota. rewrite E. reflexivity.
Qed.

(** With a price index of 64-bit ints that has every product of the
    column, the Unit_Price column is the int64 column of their prices. *)
Lemma unit_price_column_ints product prices :
  (0 < col_length product)%nat ->
  Forall (fun kv => is_int64_obj (snd kv) = true) prices ->
  (forall p, In p (col_objects product) -> dict_get prices p <> None) ->
  unit_price_column product prices
  = ColInt64 (int_prices prices (col_objects product)).
Proof.
  intros Hpos Hall Hfound. unfold unit_price_column.
  assert (Hne : prices <> []).
  { intros ->. rewrite <- col_length_objects in Hpos.
    destruct (col_objects product) as [|p l]; [simpl in Hpos; lia|].
    apply (Hfound p); [left; reflexivity | reflexivity]. }
  rewrite (dict_as_column_ints _ Hne Hall). unfold take.
  assert (E : forallb is_some
                (map (dict_position prices) (col_objects product)) = true).
  { apply forallb_forall. intros o Ho. apply in_map_iff in Ho.
    destruct Ho as [p [<- Hin]].
    pose proof (dict_position_dict_get prices p) as H.
    destruct (dict_position prices p); [reflexivity|].
    exfalso. apply (Hfound p Hin H). }
  rewrite E. simpl. f_equal. unfold int_prices. rewrite map_map.
  apply map_ext. intros p.
  pose proof (dict_position_dict_get prices p) as H.
  destruct (dict_position prices p) as [j|].
  - destruct H as [-> Hj].
    rewrite (nth_map_any int_of_obj _ j VNone) by (rewrite length_map; assumption).
    reflexivity.
  - rewrite H. reflexivity.
Qed.

Lemma float64_able_ints zs :
  forallb is_float64_able (map VInt zs) = forallb is_int64_obj (map VInt zs).
Proof. induction zs as [|z zs IH]; simpl; [|rewrite IH]; reflexivity. Qed.

Lemma infer_column_ints zs : col_objects (infer_column (map VInt zs)) = map VInt zs.
Proof.
  destruct zs as [|z0 zs0]; [reflexivity|].
  unfold infer_column. remember (z0 :: zs0) as zs eqn:Ezs.
  assert (Hcons : map VInt zs = VInt z0 :: map VInt zs0) by (subst; reflexivity).
  rewrite Hcons at 1. cbv beta iota. rewrite float64_able_ints.
  destruct (forallb is_int64_obj (map VInt zs)); simpl; [|reflexivity].
  rewrite !map_map. apply map_ext. reflexivity.
Qed.

Lemma cell_at_int64 l i : (i < List.length l)%nat -> cell_at (ColInt64 l) i = VInt (nth i l 0).
Proof.
  intros H. unfold cell_at. simpl. apply (nth_map_any VInt l i 0). assumption.
Qed.

(** X11.  On a sales table with rows whose products are strings that are
    all keys of a price index of 64-bit ints, and whose quantities are ints,
    the processor returns, no row is an error and the valid rows are all rows
    in their order, each with Unit_Price the price of its product and
    Total_Cost the product Quantity * Unit_Price, also for a negative
    Quantity. *)
Theorem sales_priced_in_ints_are_all_valid w r df prices names quantities :
  nth_error (store w) r = Some df -> df_wf df -> (0 < df_nrows df)%nat ->
  find_column "Product" (df_data df) = Some (ColObject names) ->
  find_column "Quantity" (df_data df) = Some (ColInt64 quantities) ->
  Forall (fun kv => is_int64_obj (snd kv) = true) prices ->
  (forall p, In p names -> dict_get prices p <> None) ->
  exists w' costs,
    process_sales_data r prices w
    = (Ok (List.length (store w), S (List.length (store w))), w') /\
    df_nrows (frame_of w' (S (List.length (store w)))) = 0%nat /\
    df_index (frame_of w' (List.length (store w))) = df_index df /\
    find_column "Unit_Price" (df_data (frame_of w' (List.length (store w))))
    = Some (ColInt64 (int_prices prices names)) /\
    find_column "Total_Cost" (df_data (frame_of w' (List.length (store w))))
    = Some costs /\
    forall i, (i < df_nrows df)%nat ->
              cell_at costs i
              = VInt (nth i quantities 0 * nth i (int_prices prices names) 0).
Proof.
  destruct w as [st out fl]. cbn [store].
  intros Hr Hwf Hpos Hp Hq Hall Hfound.
  set (us := int_prices prices names).
  assert (Hn : List.length names = df_nrows df).
  { apply (col_length_wf _ _ _ Hwf Hp). }
  assert (Hlq : List.length quantities = df_nrows df).
  { apply (col_length_wf _ _ _ Hwf Hq). }
  assert (Hlu : List.length us = df_nrows df).
  { unfold us, int_prices. rewrite length_map. exact Hn. }
  assert (Hup : unit_price_column (ColObject names) prices = ColInt64 us).
  { apply unit_price_column_ints; [simpl; lia | assumption | assumption]. }
  set (g := fun i : nat => nth i quantities 0 * nth i us 0).
  assert (Hm : mapM total_cost (frame_rows (priced df (ColObject names) prices))
               = Ok (map VInt (map g (seq 0 (df_nrows df))))).
  { rewrite map_map. unfold frame_rows.
    change (df_nrows (priced df (ColObject names) prices)) with (df_nrows df).
    apply mapM_rows. intros i Hi.
    rewrite (total_cost_object_row _ _ (unit_price_column (ColObject names) prices)).
    - rewrite Hup, cell_at_int64 by lia. cbn [isinstance_int_float].
      rewrite find_column_priced_other, Hq by discriminate.
      rewrite cell_at_int64 by lia. reflexivity.
    - apply (frame_dtype_object _ "Product" (ColObject names)); [|reflexivity].
      rewrite find_column_priced_other by discriminate. assumption.
    - apply find_column_priced_unit_price. }
  rewrite (process_sales_data_by_rows _ _ _ _ _ _ _ _ Hr Hp Hpos Hm).
  set (zs := map g (seq 0 (df_nrows df))) in *.
  set (df2 := df_setitem (priced df (ColObject names) prices) "Total_Cost"
                (infer_column (map VInt zs))).
  assert (Hfalse : Forall (fun b => b = false) (map isna (map VInt zs))).
  { clear. induction zs; simpl; constructor; auto. }
  assert (Htrue : Forall (fun b => b = true) (map negb (map isna (map VInt zs)))).
  { clear. induction zs; simpl; constructor; auto. }
  assert (Hlen : List.length (map negb (map isna (map VInt zs))) = df_nrows df2).
  { unfold zs. rewrite !length_map, length_seq. reflexivity. }
  assert (Hwf2 : df_wf df2).
  { apply df_wf_setitem; [apply df_wf_priced; assumption|].
    rewrite col_length_infer_column. unfold zs.
    rewrite !length_map, length_seq. reflexivity. }
  exists (mkWorld (list_update st r (priced df (ColObject names) prices) ++
                   [df_select (map negb (map isna (map VInt zs))) df2;
                    df_select (map isna (map VInt zs)) df2]) out fl).
  exists (infer_column (map VInt zs)).
  split; [reflexivity|].
  unfold frame_of. cbn [store].
  rewrite <- (length_list_update st r (priced df (ColObject names) prices)).
  rewrite nth_app_end.
  rewrite app_nth2 by lia.
  replace (S (List.length (list_update st r (priced df (ColObject names) prices)))
           - List.length (list_update st r (priced df (ColObject names) prices)))%nat
    with 1%nat by lia.
  cbn [nth].
  rewrite (df_select_all_true _ _ Hwf2 Htrue Hlen).
  split; [apply df_nrows_select_all_false; assumption|].
  split; [reflexivity|].
  split.
  { unfold df2, df_setitem. cbn [df_data].
    rewrite find_column_set_column_other by discriminate.
    fold (df_setitem df "Unit_Price" (unit_price_column (ColObject names) prices)).
    fold (priced df (ColObject names) prices).
    rewrite find_column_priced_unit_price, Hup. reflexivity. }
  split.
  { unfold df2, df_setitem. cbn [df_data]. apply find_column_set_column_same. }
  intros i Hi. unfold cell_at. rewrite infer_column_ints.
  rewrite (nth_map_any VInt zs i 0) by (unfold zs; rewrite length_map, length_seq; lia).
  unfold zs. rewrite (nth_map_any g _ i 0%nat) by (rewrite length_seq; lia).
  rewrite seq_nth by lia. reflexivity.
Qed.

Lemma sales_priced_in_ints_are_all_valid_witness :
  exists w' costs,
    process_sales_data 0%nat catalogue_prices (world_of sales_returned)
    = (Ok (1%nat, 2%nat), w') /\
    df_nrows (frame_of w' 2%nat) = 0%nat /\
    find_column "Total_Cost" (df_data (frame_of w' 1%nat)) = Some costs /\
    cell_at costs 0 = VInt (-20) /\ cell_at costs 1 = VInt 15.
Proof.
  destruct (sales_priced_in_ints_are_all_valid (world_of sales_returned) 0%nat
              sales_returned catalogue_prices [VStr "A"; VStr "B"] [-2; 3])
    as [w' [costs [Hrun [He [_ [_ [Hc Hcells]]]]]]].
  - reflexivity.
  - repeat constructor.
  - apply Nat.ltb_lt. reflexivity.
  - reflexivity.
  - reflexivity.
  - repeat constructor.
  - intros p [<- | [<- | []]]; discriminate.
  - exists w', costs. split; [exact Hrun|]. split; [exact He|]. split; [exact Hc|].
    split; [apply (Hcells 0%nat) | apply (Hcells 1%nat)]; apply Nat.ltb_lt; reflexivity.
Defined.

Lemma frame_dtype_all_int64 df :
  Forall (fun nc => col_dtype (snd nc) = Int64) (df_data df) ->
  frame_dtype df = Int64.
Proof.
  intros H. unfold frame_dtype.
  assert (E : forall p : dtype -> bool, p Int64 = false ->
            existsb (fun nc => p (col_dtype (snd nc))) (df_data df) = false).
  { intros p Hp. induction H as [|nc l Hnc _ IH]; simpl; [reflexivity|].
    rewrite Hnc, Hp, IH. reflexivity. }
  rewrite (E (fun d => match d with Object => true | _ => false end) eq_refl).
  rewrite (E (fun d => match d with Float64 => true | _ => false end) eq_refl).
  reflexivity.
Qed.

(** X12.  On a sales table with rows whose columns are all int64 (products
    identified by numbers), priced by an index of 64-bit ints that has every
    product, no row gets a cost: the cells [apply] hands to the function are
    numpy.int64 scalars, which the test of line 57 does not accept.  The
    processor returns with every row among the errors, and the report on the
    valid rows shows the total 0.00. *)
Theorem numbered_sales_are_all_errors env w r df prices product elapsed :
  nth_error (store w) r = Some df -> df_wf df -> (0 < df_nrows df)%nat ->
  Forall (fun nc => col_dtype (snd nc) = Int64) (df_data df) ->
  find_column "Product" (df_data df) = Some product ->
  Forall (fun kv => is_int64_obj (snd kv) = true) prices ->
  (forall p, In p (col_objects product) -> dict_get prices p <> None) ->
  exists w',
    process_sales_data r prices w
    = (Ok (List.length (store w), S (List.length (store w))), w') /\
    df_index (frame_of w' (S (List.length (store w)))) = df_index df /\
    df_nrows (frame_of w' (List.length (store w))) = 0%nat /\
    generate_sales_report env (List.length (store w)) (VFloat elapsed) w'
    = (Ok (report_text "0.00" (format_float_2f elapsed)), w').
Proof.
  destruct w as [st out fl]. cbn [store].
  intros Hr Hwf Hpos Hint Hp Hall Hfound.
  assert (Hup : unit_price_column product prices
                = ColInt64 (int_prices prices (col_objects product))).
  { apply unit_price_column_ints; try assumption.
    rewrite (col_length_wf _ _ _ Hwf Hp). assumption. }
  assert (Hd : frame_dtype (priced df product prices) = Int64).
  { apply frame_dtype_all_int64. unfold priced, df_setitem. cbn [df_data].
    rewrite Forall_forall in *. intros nc Hin.
    destruct (In_set_column _ _ _ _ Hin) as [-> | H]; [|auto].
    simpl. rewrite Hup. reflexivity. }
  destruct (rows_without_cost env st out fl r df prices product elapsed Hr Hwf Hp Hpos)
    as [w' [Hrun [Herr [Hvalid Hrep]]]].
  { intros i Hi. unfold row_at. rewrite Hd. unfold total_cost.
    rewrite (lookup_map (fun c => int_of_obj (cell_at c i))).
    rewrite find_column_priced_unit_price. reflexivity. }
  exists w'. split; [exact Hrun|]. split; [rewrite Herr; reflexivity|].
  split; assumption.
Qed.

Lemma numbered_sales_are_all_errors_witness :
  exists w',
    process_sales_data 0%nat prices_numbered (world_of sales_numbered)
    = (Ok (1%nat, 2%nat), w') /\
    df_index (frame_of w' 2%nat) = df_index sales_numbered /\
    df_nrows (frame_of w' 1%nat) = 0%nat.
Proof.
  destruct (numbered_sales_are_all_errors env_example (world_of sales_numbered) 0%nat
              sales_numbered prices_numbered (ColInt64 [1; 2]) (round_int 1))
    as [w' [Hrun [He [Hv _]]]].
  - reflexivity.
  - repeat constructor.
  - apply Nat.ltb_lt. reflexivity.
  - repeat constructor.
  - reflexivity.
  - repeat constructor.
  - intros p [<- | [<- | []]]; discriminate.
  - exists w'. split; [exact Hrun|]. split; assumption.
Defined.

(* ===================================================================== *)
(** * More on the report *)
(* ===================================================================== *)

Lemma generate_sales_report_eq env r elapsed_time w :
  generate_sales_report env r elapsed_time w
  = (report_for env (frame_of w r) elapsed_time, w).
Proof.
  unfold generate_sales_report, report_for, bindM, deref, lift, ret.
  fold (frame_of w r).
  destruct (df_getitem (frame_of w r) "Total_Cost") as [cost|e]; [|reflexivity].
  simpl. destruct (series_sum (negative_zero env) (s_values cost)) as [t|e]; [|reflexivity].
  simpl. destruct (format_2f t) as [a|e]; [|reflexivity].
  simpl. destruct (format_2f elapsed_time) as [b|e]; reflexivity.
Qed.

(** X13.  The report generator only computes: whatever it is given, and
    also when it raises, it prints nothing, writes nothing and changes no
    table.  On a table without the column Total_Cost (the empty table, or a
    sales table that was not processed) it raises KeyError. *)
Theorem report_generator_only_reads env w r elapsed_time :
  snd (generate_sales_report env r elapsed_time w) = w /\
  (find_column "Total_Cost" (df_data (frame_of w r)) = None ->
   raised (fst (generate_sales_report env r elapsed_time w)) = Some KeyError).
Proof.
  rewrite generate_sales_report_eq. split; [reflexivity|].
  intros H. simpl. unfold report_for, df_getitem. rewrite H. reflexivity.
Qed.

Lemma report_generator_only_reads_witness :
  raised (fst (generate_sales_report env_example 0%nat (VFloat (round_int 1))
                 (world_of sales_sample))) = Some KeyError.
Proof.
  apply (proj2 (report_generator_only_reads env_example (world_of sales_sample) 0%nat
                  (VFloat (round_int 1)))).
  reflexivity.
Defined.

(** ** Integers are printed exactly *)

Lemma N_pos_iter_xO m k : N.pos (Pos.iter xO m k) = (N.pos m * 2 ^ N.pos k)%N.
Proof.
  induction k using Pos.peano_ind.
  - simpl. lia.
  - rewrite Pos.iter_succ.
    change (N.pos (Pos.iter xO m k)~0) with (2 * N.pos (Pos.iter xO m k))%N.
    rewrite IHk. replace (N.pos (Pos.succ k)) with (N.succ (N.pos k)) by lia.
    rewrite N.pow_succ_r'. lia.
Qed.

(** The float of a positive int below 2^53 has that int as its value. *)
Lemma binary_round_small s m :
  Z.pos m < 2 ^ 53 ->
  exists mz ez,
    binary_round prec emax s m 0 = S754_finite s mz ez /\
    scaled_hundredths mz ez = (N.pos m * 100)%N.
Proof.
  intros Hm. unfold binary_round.
  assert (Hd : 1 <= Z.pos (digits2_pos m) <= 53).
  { split; [lia|]. change (Z.pos (digits2_pos m)) with (Zdigits2 (Z.pos m)).
    apply Zdigits2_lt_pow2; lia. }
  assert (Hfexp : fexp prec emax (Z.pos (digits2_pos m) + 0)
                  = Z.pos (digits2_pos m) - 53).
  { unfold fexp, emin, prec, emax. change IntDef.Z.max with Z.max. lia. }
  assert (Haux : forall mz ez,
             Z.pos (digits2_pos mz) + ez = Z.pos (digits2_pos m) ->
             ez = Z.pos (digits2_pos m) - 53 ->
             binary_round_aux prec emax s (Z.pos mz) ez loc_Exact
             = S754_finite s mz ez).
  { intros mz ez Hsum Hez. unfold binary_round_aux.
    assert (Hshr : forall l, shr_fexp prec emax (Z.pos mz) ez l
                             = (shr_record_of_loc (Z.pos mz) l, ez)).
    { intros l. unfold shr_fexp, shr. simpl Zdigits2.
      replace (fexp prec emax (Z.pos (digits2_pos mz) + ez) - ez) with 0.
      - reflexivity.
      - unfold fexp, emin, prec, emax. change IntDef.Z.max with Z.max. lia. }
    rewrite Hshr. simpl. rewrite Hshr. simpl.
    assert (Hle : (ez <=? 971) = true) by (apply Z.leb_le; lia).
    rewrite Hle. reflexivity. }
  rewrite Hfexp. unfold shl_align.
  destruct (Z.pos (digits2_pos m) - 53 - 0) as [|k|k] eqn:Ek; try lia.
  - exists m, 0. split.
    + apply Haux; lia.
    + unfold scaled_hundredths. simpl. lia.
  - exists (Pos.iter xO m k), (Z.pos (digits2_pos m) - 53). split.
    + apply Haux; [|reflexivity]. rewrite digits2_iter_xO. lia.
    + replace (Z.pos (digits2_pos m) - 53) with (Z.neg k) by lia.
      unfold scaled_hundredths. rewrite N_pos_iter_xO.
      replace (N.pos m * 2 ^ N.pos k * 100)%N with (N.pos m * 100 * 2 ^ N.pos k)%N by lia.
      assert (Hpow : (2 ^ N.pos k <> 0)%N) by (apply N.pow_nonzero; lia).
      rewrite N.div_mul, N.Div0.mod_mul by assumption.
      destruct (2 ^ N.pos k)%N; [congruence | reflexivity].
Qed.

Lemma fixed2_whole sign n :
  fixed2 sign (n * 100) = ((if sign then "-" else "") ++ dec_of_N n ++ ".00")%string.
Proof.
  unfold fixed2. rewrite N.div_mul, N.Div0.mod_mul by lia. reflexivity.
Qed.

(** [format(z, '.2f')] of an int of magnitude below 2^53 is its decimal
    notation followed by ".00". *)
Lemma format_2f_int z :
  - 2 ^ 53 < z < 2 ^ 53 ->
  format_2f (VInt z)
  = Ok ((if (z <? 0)%Z then "-" else "") ++ dec_of_N (Z.to_N (Z.abs z)) ++ ".00")%string.
Proof.
  intros Hz. unfold format_2f, float_of_int, round_int, binary_normalize.
  destruct z as [|m|m].
  - reflexivity.
  - destruct (binary_round_small false m ltac:(lia)) as [mz [ez [-> Hs]]].
    simpl. rewrite Hs, fixed2_whole. reflexivity.
  - destruct (binary_round_small true m ltac:(lia)) as [mz [ez [-> Hs]]].
    simpl. rewrite Hs, fixed2_whole. reflexivity.
Qed.

(** X14.  An integer total is printed exactly.  On valid rows whose
    Total_Cost column is int64 and whose costs add up to a sum of magnitude
    below 2^53, the report shows that sum in decimal notation followed by
    ".00", with a minus sign before it when it is negative. *)
Theorem integer_total_is_printed_exactly env w r costs elapsed :
  find_column "Total_Cost" (df_data (frame_of w r)) = Some (ColInt64 costs) ->
  - 2 ^ 53 < fold_left Z.add costs 0 < 2 ^ 53 ->
  generate_sales_report env r (VFloat elapsed) w
  = (Ok (report_text
           ((if (fold_left Z.add costs 0 <? 0)%Z then "-" else "")
              ++ dec_of_N (Z.to_N (Z.abs (fold_left Z.add costs 0))) ++ ".00")%string
           (format_float_2f elapsed)), w).
Proof.
  intros Hc Hsum. rewrite generate_sales_report_eq. f_equal.
  unfold report_for, df_getitem. rewrite Hc. cbn [bind s_values series_sum].
  rewrite wrap_int64_small by (apply in_int64_iff; lia).
  rewrite (format_2f_int _ Hsum). reflexivity.
Qed.

Lemma integer_total_is_printed_exactly_witness :
  generate_sales_report env_example 0%nat (VFloat (round_int 1))
    (world_of (mkDF (range_index 2) [("Total_Cost", ColInt64 [-20; 15])]))
  = (Ok (report_text "-5.00" "1.00"),
     world_of (mkDF (range_index 2) [("Total_Cost", ColInt64 [-20; 15])])).
Proof.
  refine (integer_total_is_printed_exactly env_example
            (world_of (mkDF (range_index 2) [("Total_Cost", ColInt64 [-20; 15])]))
            0%nat [-20; 15] (round_int 1) _ _).
  - reflexivity.
  - simpl. lia.
Defined.

(* ===================================================================== *)
(** * The whole run *)
(* ===================================================================== *)

Lemma load_json_to_dataframe_ok env file_path w df :
  read_json env file_path = Ok df ->
  load_json_to_dataframe env file_path w
  = (Ok (List.length (store w)),
     mkWorld (store w ++ [df]) (stdout w) (files w)).
Proof. intros H. unfold load_json_to_dataframe. rewrite H. reflexivity. Qed.

Lemma save_report_to_file_eq env report file_path w :
  open_for_writing env file_path = Ok tt \/
  (exists e, open_for_writing env file_path = Raise e /\ caught_by_save e = true) ->
  save_report_to_file env report file_path w
  = (Ok tt, mkWorld (store w) (stdout w ++ save_console env file_path)
                    (files w ++ save_files env file_path report)).
Proof.
  unfold save_report_to_file, save_console, save_files, caught_by_save.
  intros [H | [e [H Hc]]]; rewrite H.
  - unfold write_file. rewrite app_nil_r. reflexivity.
  - rewrite Hc. unfold print. rewrite app_nil_r. reflexivity.
Qed.

(** The run when both files load, the catalogue has a price index, the
    processor returns and the report can be formatted. *)
Lemma main_run env w dfp dfs prices rv re w2 report :
  List.length (argv env) = 3%nat ->
  read_json env (nth 1 (argv env) "") = Ok dfp ->
  read_json env (nth 2 (argv env) "") = Ok dfs ->
  price_index dfp = Ok prices ->
  process_sales_data (S (List.length (store w))) prices
    (mkWorld (store w ++ [dfp; dfs]) (stdout w) (files w)) = (Ok (rv, re), w2) ->
  report_for env (frame_of w2 rv)
    (VFloat (fsub (time_end env) (time_start env))) = Ok report ->
  open_for_writing env "SalesResults.txt" = Ok tt \/
  (exists e, open_for_writing env "SalesResults.txt" = Raise e /\
             caught_by_save e = true) ->
  main env w =
  (Ok "SalesResults.txt"%string,
   mkWorld (store w2)
           (stdout w2 ++ save_console env "SalesResults.txt"
              ++ [OutText report; OutFrame nl (df_head 10 (frame_of w2 rv))]
              ++ errors_preview (frame_of w2 re))
           (files w2 ++ save_files env "SalesResults.txt" report)).
Proof.
  intros Hargs Hp Hs Hidx Hrun Hrep Hopen.
  unfold main. rewrite Hargs. cbn [Nat.eqb negb].
  unfold bindM at 1. rewrite (load_json_to_dataframe_ok _ _ _ _ Hp).
  unfold bindM at 1. rewrite (load_json_to_dataframe_ok _ _ _ _ Hs).
  cbn [store stdout files].
  unfold bindM at 1. rewrite map_product_prices_eq.
  unfold frame_of at 1. cbn [store].
  rewrite <- app_assoc. cbn [app]. rewrite nth_app_end, Hidx.
  unfold bindM at 1.
  replace (List.length (store w ++ [dfp])) with (S (List.length (store w)))
    by (rewrite length_app; simpl; lia).
  rewrite Hrun. cbn [fst snd].
  unfold bindM at 1. rewrite generate_sales_report_eq, Hrep.
  unfold bindM at 1. rewrite (save_report_to_file_eq _ _ _ _ Hopen).
  unfold bindM, print, deref, ret, errors_preview, frame_of. cbn [store stdout files].
  destruct (df_is_empty (nth re (store w2) empty_frame));
    cbn [negb store stdout files]; rewrite <- ?app_assoc; cbn [app];
    rewrite ?app_nil_r; reflexivity.
Qed.

Lemma load_json_to_dataframe_caught env file_path w e :
  read_json env file_path = Raise e -> caught_by_loader e = true ->
  load_json_to_dataframe env file_path w
  = (Ok (List.length (store w)),
     mkWorld (store w ++ [empty_frame])
             (stdout w ++ [load_diagnostic file_path e]) (files w)).
Proof.
  intros H Hc. unfold load_json_to_dataframe. rewrite H.
  unfold caught_by_loader in Hc. rewrite Hc. reflexivity.
Qed.

(** The processor prints nothing and writes no file, however it ends. *)
Lemma process_sales_data_console r prices w :
  stdout (snd (process_sales_data r prices w)) = stdout w /\
  files (snd (process_sales_data r prices w)) = files w.
Proof.
  destruct w as [st out fl].
  destruct (find_column "Product" (df_data (nth r st empty_frame))) as [c|] eqn:Ec.
  - destruct (nth_error st r) as [df|] eqn:Er.
    + rewrite (nth_error_nth _ _ _ Er) in Ec.
      rewrite (process_sales_data_run _ _ _ _ _ _ _ Er Ec). cbv zeta.
      destruct (bind _ _); split; reflexivity.
    + apply nth_error_None in Er. rewrite nth_overflow in Ec by assumption.
      discriminate.
  - rewrite process_sales_data_no_product by assumption. split; reflexivity.
Qed.

(** X15.  A run in which both files load, the catalogue has its two
    columns, the processor returns and the total can be formatted ends with
    the path "SalesResults.txt".  When the file can be opened, it is written
    once and holds exactly the report that is printed; the console shows the
    report, then the first ten valid rows, then the errors if there are any,
    and nothing else. *)
Theorem run_writes_what_it_prints env w dfp dfs prices rv re w2 report :
  List.length (argv env) = 3%nat ->
  read_json env (nth 1 (argv env) "") = Ok dfp ->
  read_json env (nth 2 (argv env) "") = Ok dfs ->
  price_index dfp = Ok prices ->
  process_sales_data (S (List.length (store w))) prices
    (mkWorld (store w ++ [dfp; dfs]) (stdout w) (files w)) = (Ok (rv, re), w2) ->
  report_for env (frame_of w2 rv)
    (VFloat (fsub (time_end env) (time_start env))) = Ok report ->
  open_for_writing env "SalesResults.txt" = Ok tt ->
  fst (main env w) = Ok "SalesResults.txt"%string /\
  files (snd (main env w)) = files w ++ [("SalesResults.txt"%string, report)] /\
  stdout (snd (main env w)) =
    stdout w ++ [OutText report; OutFrame nl (df_head 10 (frame_of w2 rv))]
      ++ errors_preview (frame_of w2 re).
Proof.
  intros Hargs Hp Hs Hidx Hrun Hrep Hopen.
  rewrite (main_run _ _ _ _ _ _ _ _ _ Hargs Hp Hs Hidx Hrun Hrep (or_introl Hopen)).
  pose proof (process_sales_data_console (S (List.length (store w))) prices
                (mkWorld (store w ++ [dfp; dfs]) (stdout w) (files w))) as [Hout Hfl].
  rewrite Hrun in Hout, Hfl. cbn [fst snd stdout files] in *.
  unfold save_console, save_files. rewrite Hopen, Hout, Hfl.
  split; [reflexivity|]. split; reflexivity.
Qed.

Lemma run_writes_what_it_prints_witness :
  fst (main env_example initial_world) = Ok "SalesResults.txt"%string /\
  files (snd (main env_example initial_world))
  = [("SalesResults.txt"%string, report_text "20.00" "1.00")].
Proof.
  destruct (run_writes_what_it_prints env_example initial_world catalogue sales_sample
              catalogue_prices 2%nat 3%nat
              (snd (process_sales_data 1%nat catalogue_prices
                      (mkWorld [catalogue; sales_sample] [] [])))
              (report_text "20.00" "1.00"))
    as [H1 [H2 _]]; try reflexivity.
  split; assumption.
Defined.

(** X16.  A report that cannot be written does not stop the run: when
    opening "SalesResults.txt" fails with an OSError (FileNotFoundError,
    PermissionError), the run prints the diagnostic of the writer, then the
    report and the tables as usual, writes no file and still ends with the
    path. *)
Theorem run_survives_a_failed_write env w dfp dfs prices rv re w2 report e :
  List.length (argv env) = 3%nat ->
  read_json env (nth 1 (argv env) "") = Ok dfp ->
  read_json env (nth 2 (argv env) "") = Ok dfs ->
  price_index dfp = Ok prices ->
  process_sales_data (S (List.length (store w))) prices
    (mkWorld (store w ++ [dfp; dfs]) (stdout w) (files w)) = (Ok (rv, re), w2) ->
  report_for env (frame_of w2 rv)
    (VFloat (fsub (time_end env) (time_start env))) = Ok report ->
  open_for_writing env "SalesResults.txt" = Raise e -> caught_by_save e = true ->
  fst (main env w) = Ok "SalesResults.txt"%string /\
  files (snd (main env w)) = files w /\
  stdout (snd (main env w)) =
    stdout w ++ [save_diagnostic "SalesResults.txt" e; OutText report;
                 OutFrame nl (df_head 10 (frame_of w2 rv))]
      ++ errors_preview (frame_of w2 re).
Proof.
  intros Hargs Hp Hs Hidx Hrun Hrep Hopen Hcaught.
  rewrite (main_run _ _ _ _ _ _ _ _ _ Hargs Hp Hs Hidx Hrun Hrep
             (or_intror (ex_intro _ e (conj Hopen Hcaught)))).
  pose proof (process_sales_data_console (S (List.length (store w))) prices
                (mkWorld (store w ++ [dfp; dfs]) (stdout w) (files w))) as [Hout Hfl].
  rewrite Hrun in Hout, Hfl. cbn [fst snd stdout files] in *.
  unfold save_console, save_files. rewrite Hopen, Hout, Hfl, app_nil_r.
  split; [reflexivity|]. split; reflexivity.
Qed.

Lemma run_survives_a_failed_write_witness :
  fst (main env_read_only initial_world) = Ok "SalesResults.txt"%string /\
  files (snd (main env_read_only initial_world)) = [].
Proof.
  destruct (run_survives_a_failed_write env_read_only initial_world catalogue
              sales_sample catalogue_prices 2%nat 3%nat
              (snd (process_sales_data 1%nat catalogue_prices
                      (mkWorld [catalogue; sales_sample] [] [])))
              (report_text "20.00" "1.00") (permission_denied "SalesResults.txt"))
    as [H1 [H2 _]]; try reflexivity.
  split; assumption.
Defined.

(** X17.  The run shows the errors exactly when there are some.  In a run
    in which both files load, the catalogue has a price index, the processor
    returns, the report can be formatted and written, the console ends with
    the first ten valid rows when the errors have no row, and with the block
    "Errores detectados" and the first five errors after them when the errors
    have a row: the tables the processor returns always have columns, so that
    [errors.empty] tells whether there is a row. *)
Theorem errors_are_shown_when_there_are_some env w dfp dfs prices rv re w2 report :
  List.length (argv env) = 3%nat ->
  read_json env (nth 1 (argv env) "") = Ok dfp ->
  read_json env (nth 2 (argv env) "") = Ok dfs -> df_wf dfs ->
  price_index dfp = Ok prices ->
  process_sales_data (S (List.length (store w))) prices
    (mkWorld (store w ++ [dfp; dfs]) (stdout w) (files w)) = (Ok (rv, re), w2) ->
  report_for env (frame_of w2 rv)
    (VFloat (fsub (time_end env) (time_start env))) = Ok report ->
  open_for_writing env "SalesResults.txt" = Ok tt ->
  (df_nrows (frame_of w2 re) = 0%nat ->
   stdout (snd (main env w)) =
     stdout w ++ [OutText report; OutFrame nl (df_head 10 (frame_of w2 rv))]) /\
  ((0 < df_nrows (frame_of w2 re))%nat ->
   stdout (snd (main env w)) =
     stdout w ++ [OutText report; OutFrame nl (df_head 10 (frame_of w2 rv));
                  OutFrame (nl ++ "Errores detectados:" ++ nl)%string
                           (df_head 5 (frame_of w2 re))]).
Proof.
  intros Hargs Hp Hs Hwf Hidx Hrun Hrep Hopen.
  rewrite (main_run _ _ _ _ _ _ _ _ _ Hargs Hp Hs Hidx Hrun Hrep (or_introl Hopen)).
  pose proof (process_sales_data_console (S (List.length (store w))) prices
                (mkWorld (store w ++ [dfp; dfs]) (stdout w) (files w))) as [Hout _].
  rewrite Hrun in Hout. cbn [fst snd stdout files] in *.
  unfold save_console. rewrite Hopen, Hout. cbn [app].
  assert (Hr : nth_error (store (mkWorld (store w ++ [dfp; dfs]) (stdout w) (files w)))
                 (S (List.length (store w))) = Some dfs).
  { cbn [store]. rewrite nth_error_app2 by lia.
    replace (S (List.length (store w)) - List.length (store w))%nat with 1%nat by lia.
    reflexivity. }
  destruct (process_sales_data_returns _ _ _ _ _ _ _ Hr Hwf Hrun)
    as [product [cost [_ [_ [_ [Herr _]]]]]].
  assert (Hempty : df_is_empty (frame_of w2 re) = (df_nrows (frame_of w2 re) =? 0)%nat).
  { unfold df_is_empty. rewrite Herr at 2.
    unfold df_select, df_setitem. cbn [df_data]. rewrite length_map.
    pose proof (set_column_not_nil "Total_Cost" cost
                  (df_data (priced dfs product prices))) as H.
    destruct (set_column _ _ _); [congruence | apply orb_false_r]. }
  unfold errors_preview. rewrite Hempty.
  split; intros Hn.
  - rewrite Hn. reflexivity.
  - destruct (df_nrows (frame_of w2 re)); [lia | reflexivity].
Qed.

Lemma errors_are_shown_when_there_are_some_witness :
  exists report valid errors,
    stdout (snd (main env_example initial_world)) =
      [OutText report; OutFrame nl valid;
       OutFrame (nl ++ "Errores detectados:" ++ nl)%string errors] /\
    df_index errors = [VInt 1].
Proof.
  destruct (errors_are_shown_when_there_are_some env_example initial_world catalogue
              sales_sample catalogue_prices 2%nat 3%nat
              (snd (process_sales_data 1%nat catalogue_prices
                      (mkWorld [catalogue; sales_sample] [] [])))
              (report_text "20.00" "1.00"))
    as [_ H]; try reflexivity.
  - repeat constructor.
  - eexists. eexists. eexists. split; [apply H; vm_compute; lia|].
    vm_compute. reflexivity.
Defined.

(** X18.  A catalogue that fails to load stops the run even when the sales
    load: after the diagnostic of the loader, [map_product_prices] raises
    KeyError on the empty catalogue; the sales are never processed, nothing
    else is printed and no file is written. *)
Theorem run_stops_without_a_catalogue env w e dfs :
  List.length (argv env) = 3%nat ->
  read_json env (nth 1 (argv env) "") = Raise e -> caught_by_loader e = true ->
  read_json env (nth 2 (argv env) "") = Ok dfs ->
  raised (fst (main env w)) = Some KeyError /\
  stdout (snd (main env w)) = stdout w ++ [load_diagnostic (nth 1 (argv env) "") e] /\
  files (snd (main env w)) = files w /\
  store (snd (main env w)) = store w ++ [empty_frame; dfs].
Proof.
  intros Hargs Hp Hc Hs.
  assert (H : exists r, raised r = Some KeyError /\
            main env w =
            (r, mkWorld (store w ++ [empty_frame; dfs])
                        (stdout w ++ [load_diagnostic (nth 1 (argv env) "") e])
                        (files w))).
  { eexists. split; [|
      unfold main; rewrite Hargs; cbn [Nat.eqb negb];
      unfold bindM at 1; rewrite (load_json_to_dataframe_caught _ _ _ _ Hp Hc);
      unfold bindM at 1; rewrite (load_json_to_dataframe_ok _ _ _ _ Hs);
      cbn [store stdout files];
      unfold bindM at 1; rewrite map_product_prices_eq;
      unfold frame_of; cbn [store];
      rewrite <- app_assoc; cbn [app]; rewrite nth_app_end;
      cbn; reflexivity ].
    reflexivity. }
  destruct H as [r [Hr Hm]]. rewrite Hm. cbn [fst snd stdout files store]. auto.
Qed.

Lemma run_stops_without_a_catalogue_witness :
  raised (fst (main (mkEnv (fun path =>
                              if String.eqb path "sales.json" then Ok sales_sample
                              else Raise (missing_file path))
                           (fun _ => Ok tt) (argv env_example)
                           (round_int 100) (round_int 101) false)
                 initial_world)) = Some KeyError.
Proof.
  refine (proj1 (run_stops_without_a_catalogue _ initial_world
                   (missing_file "products.json") sales_sample _ _ _ _));
    reflexivity.
Defined.

(** X19.  Sales that fail to load stop the run even when the catalogue
    loads and has a price index: after the diagnostic of the loader, the
    processor raises KeyError on the empty sales table, which has no column
    "Product"; no report is printed and no file is written. *)
Theorem run_stops_without_sales env w dfp prices e :
  List.length (argv env) = 3%nat ->
  read_json env (nth 1 (argv env) "") = Ok dfp ->
  price_index dfp = Ok prices ->
  read_json env (nth 2 (argv env) "") = Raise e -> caught_by_loader e = true ->
  raised (fst (main env w)) = Some KeyError /\
  stdout (snd (main env w)) = stdout w ++ [load_diagnostic (nth 2 (argv env) "") e] /\
  files (snd (main env w)) = files w.
Proof.
  intros Hargs Hp Hidx Hs Hc.
  assert (Hno : find_column "Product"
                  (df_data (nth (S (List.length (store w)))
                                ((store w ++ [dfp]) ++ [empty_frame]) empty_frame))
                = None).
  { rewrite <- app_assoc. cbn [app]. rewrite app_nth2 by lia.
    replace (S (List.length (store w)) - List.length (store w))%nat with 1%nat by lia.
    reflexivity. }
  assert (H : exists r, raised r = Some KeyError /\
            main env w =
            (r, mkWorld (store w ++ [dfp; empty_frame])
                        (stdout w ++ [load_diagnostic (nth 2 (argv env) "") e])
                        (files w))).
  { eexists. split; [|
      unfold main; rewrite Hargs; cbn [Nat.eqb negb];
      unfold bindM at 1; rewrite (load_json_to_dataframe_ok _ _ _ _ Hp);
      unfold bindM at 1; rewrite (load_json_to_dataframe_caught _ _ _ _ Hs Hc);
      cbn [store stdout files];
      unfold bindM at 1; rewrite map_product_prices_eq;
      unfold frame_of; cbn [store];
      rewrite (app_nth1 (store w ++ [dfp]) [empty_frame])
        by (rewrite length_app; simpl; lia);
      rewrite nth_app_end; fold (price_index dfp); rewrite Hidx;
      unfold bindM at 1;
      replace (List.length (store w ++ [dfp])) with (S (List.length (store w)))
        by (rewrite length_app; simpl; lia);
      rewrite process_sales_data_no_product by exact Hno;
      cbn [bind]; rewrite <- app_assoc; reflexivity ].
    reflexivity. }
  destruct H as [r [Hr Hm]]. rewrite Hm. cbn [fst snd stdout files store]. auto.
Qed.

Lemma run_stops_without_sales_witness :
  raised (fst (main env_without_sales initial_world)) = Some KeyError /\
  files (snd (main env_without_sales initial_world)) = [].
Proof.
  destruct (run_stops_without_sales env_without_sales initial_world catalogue
              catalogue_prices (missing_file "sales.json"))
    as [H1 [_ H3]]; try reflexivity.
  split; assumption.
Defined.
